(** * Voice bot: call sessions, turn orchestration and fallbacks

    A shallow embedding of the Flask voice bot (app.py, rasa_handler.py,
    sarvam_tts.py, twilio_handler.py) and of the script that places calls
    (outbound_caller.py), and the properties of the call-session state
    machine.

    Conventions of the embedding.
    - A Python [str] is a Rocq [string] holding its UTF-8 bytes.  The code
      only concatenates strings, joins them and tests for the ASCII
      substrings ['text'], ['audio'] and ['audio_url'], which act the same on
      bytes and on code points.
    - A Python value that comes out of [response.json()] is a [json].
      [None] is [JNull].
    - A Python dict, literal or parsed from JSON, is an association list
      searched from the left.  The keys of a dict are distinct; nothing
      below depends on it.
    - Python exceptions are values of [exn]; code that can raise returns a
      [result].
    - The process state is a [world]: the module-level dict [call_sessions]
      of app.py and the list of requests sent to the outside so far.
    - What the outside answers (environment variables, HTTP peers, the file
      system, the clock) is read from an [environment].
    - A TwiML document is the list of its verbs; [str(twiml)] renders it
      and raises on a [Play] whose value is not a string.
    - Logging calls are left out: they change none of the above.  The
      values they format are kept where formatting them can raise. *)

From Stdlib Require Import ZArith String Ascii List Bool.
From stdpp Require Import base option list gmap strings pretty.

Local Open Scope string_scope.
Local Open Scope Z_scope.

(** ** Python values and exceptions *)

#[warnings="-register-all"] Inductive json : Type :=
| JNull
| JBool (b : bool)
| JInt (n : Z)
| JFloat (nonzero : bool)   (* a float, kept up to the one thing the code
                               observes of it: whether it differs from 0.0 *)
| JStr (s : string)
| JList (l : list json)
| JObj (d : list (string * json)).

Inductive exn : Type :=
| Timeout            (* requests.exceptions.Timeout *)
| ConnectionError    (* requests.exceptions.ConnectionError *)
| TypeError
| AttributeError
| KeyError
| ValueError
| OSError.

Inductive result (A : Type) : Type :=
| Ok (a : A)
| Raise (e : exn).
Arguments Ok {A} a.
Arguments Raise {A} e.

Global Instance result_ret : MRet result := fun A a => Ok a.
Global Instance result_bind : MBind result := fun A B f r =>
  match r with
  | Ok a => f a
  | Raise e => Raise e
  end.

(** [d.get(k)] and [d[k]] on a dict literal. *)
Fixpoint dict_get {A : Type} (d : list (string * A)) (k : string) : option A :=
  match d with
  | [] => None
  | (k', v) :: d' => if String.eqb k' k then Some v else dict_get d' k
  end.

Definition dict_subscript {A : Type} (d : list (string * A)) (k : string) : result A :=
  match dict_get d k with
  | Some v => Ok v
  | None => Raise KeyError
  end.

(** [d.get(k, dflt)] *)
Definition dict_get_default {A : Type} (d : list (string * A)) (k : string) (dflt : A) : A :=
  default dflt (dict_get d k).

(** [bool(v)] *)
Definition truthy (v : json) : bool :=
  match v with
  | JNull => false
  | JBool b => b
  | JInt n => negb (n =? 0)
  | JFloat nonzero => nonzero
  | JStr s => negb (String.eqb s "")
  | JList l => match l with [] => false | _ => true end
  | JObj d => match d with [] => false | _ => true end
  end.

(** [len(v)].  For a string this is the number of bytes, not of code
    points; the code only asks whether it is positive. *)
Definition py_len (v : json) : result Z :=
  match v with
  | JStr s => Ok (Z.of_nat (String.length s))
  | JList l => Ok (Z.of_nat (List.length l))
  | JObj d => Ok (Z.of_nat (List.length d))
  | _ => Raise TypeError
  end.

(** [needle in hay] on two strings *)
Fixpoint str_contains (needle hay : string) : bool :=
  if String.prefix needle hay then true
  else match hay with
       | EmptyString => false
       | String _ hay' => str_contains needle hay'
       end.

Definition json_is_str (s : string) (v : json) : bool :=
  match v with
  | JStr t => String.eqb s t
  | _ => false
  end.

(** [key in r] for a string [key] *)
Definition py_contains (key : string) (r : json) : result bool :=
  match r with
  | JStr s => Ok (str_contains key s)
  | JList l => Ok (existsb (json_is_str key) l)
  | JObj d => Ok (bool_decide (is_Some (dict_get d key)))
  | _ => Raise TypeError
  end.

(** [r.get(key, dflt)]: only a dict has the method *)
Definition py_get (r : json) (key : string) (dflt : json) : result json :=
  match r with
  | JObj d => Ok (dict_get_default d key dflt)
  | _ => Raise AttributeError
  end.

(** [r[key]] for a string [key] *)
Definition py_subscript (r : json) (key : string) : result json :=
  match r with
  | JObj d => dict_subscript d key
  | _ => Raise TypeError
  end.

(** [for r in v]: the elements of a list, the keys of a dict, the
    one-character strings of a string.  A string is cut into its bytes, so
    a character of several bytes gives several pieces; the code only asks
    whether a piece contains ['text'], which no piece does either way. *)
Definition py_iter (v : json) : result (list json) :=
  match v with
  | JStr s => Ok (map (fun c => JStr (String c EmptyString)) (list_ascii_of_string s))
  | JList l => Ok l
  | JObj d => Ok (map (fun kv => JStr (fst kv)) d)
  | _ => Raise TypeError
  end.

(** [sep.join(l)]: every element must be a [str] *)
Fixpoint as_strings (l : list json) : result (list string) :=
  match l with
  | [] => Ok []
  | JStr s :: l' => ss ← as_strings l'; Ok (s :: ss)
  | _ :: _ => Raise TypeError
  end.

Definition str_join (sep : string) (l : list json) : result string :=
  ss ← as_strings l; Ok (String.concat sep ss).

(** [str(x)] inside an f-string, for a value that may be [None] *)
Definition py_str (s : option string) : string := default "None" s.

(** ** Sessions, requests and the process state *)

(** One entry of [conversation_history]: [{'user': ..., 'bot': ...}] *)
Record turn : Type := Turn { user : string; bot : string }.

(** The dict stored under a CallSid in [call_sessions] *)
Record session : Type := Session {
  from_number : option string;
  language : string;
  conversation_history : list turn
}.

(** The JSON body posted to Rasa *)
Record rasa_payload : Type := RasaPayload {
  sender : option string;
  message : string;
  metadata_language : string;
  metadata_conversation_history : list turn
}.

(** The bearer credential and JSON body posted to Sarvam.  The constant
    fields of the body (pitch 0, loudness 1.5, enable_preprocessing True,
    model bulbul:v1) and the float [pace] carry no information here. *)
Record sarvam_payload : Type := SarvamPayload {
  authorization : string;
  text : string;
  language_code : string;
  speaker : string;
  speech_sample_rate : Z
}.

Inductive request_body : Type :=
| RasaBody (p : rasa_payload)
| SarvamBody (p : sarvam_payload).

(** What leaves the process *)
Inductive event : Type :=
| HttpPost (url : string) (body : request_body)
| HttpGet (url : string)
| MakeDirs (path : string)
| WriteFile (path : string) (data : string).

Record http_response : Type := HttpResponse {
  status_code : Z;
  body_json : option json     (* [None]: [response.json()] raises *)
}.

Inductive http_outcome : Type :=
| Raises (e : exn)
| Responds (r : http_response).

Record environment : Type := Environment {
  getenv : string → option string;                   (* os.getenv(name) *)
  http_post : string → request_body → http_outcome;  (* requests.post *)
  http_get : string → http_outcome;                  (* requests.get *)
  makedirs : string → option exn;                    (* os.makedirs(.., exist_ok=True) *)
  b64decode : json → result string;                  (* base64.b64decode *)
  time_ms : Z;                                       (* int(time.time() * 1000) *)
  write_file : string → string → option exn          (* open(.., 'wb') and write *)
}.

(** [os.getenv(name, dflt)] *)
Definition getenv_default (env : environment) (name dflt : string) : string :=
  default dflt (getenv env name).

Record world : Type := World {
  call_sessions : gmap (option string) session;
  sent : list event
}.

(** ** Computations over the process state *)

Definition M (A : Type) : Type := world → result A * world.

Global Instance M_ret : MRet M := fun A a w => (Ok a, w).
Global Instance M_bind : MBind M := fun A B f m w =>
  match m w with
  | (Ok a, w') => f a w'
  | (Raise e, w') => (Raise e, w')
  end.

Definition lift {A : Type} (r : result A) : M A := fun w => (r, w).

(** [try: body  except Exception as e: handler e] *)
Definition try_except {A : Type} (body : M A) (handler : exn → M A) : M A :=
  fun w =>
    match body w with
    | (Ok a, w') => (Ok a, w')
    | (Raise e, w') => handler e w'
    end.

Definition with_sent (w : world) (e : event) : world :=
  {| call_sessions := call_sessions w; sent := sent w ++ [e] |}.

Definition emit (e : event) : M unit := fun w => (Ok tt, with_sent w e).

Definition requests_post (env : environment) (url : string) (body : request_body)
  : M http_response :=
  _ ← emit (HttpPost url body);
  match http_post env url body with
  | Raises e => lift (Raise e)
  | Responds r => mret r
  end.

Definition requests_get (env : environment) (url : string) : M http_response :=
  _ ← emit (HttpGet url);
  match http_get env url with
  | Raises e => lift (Raise e)
  | Responds r => mret r
  end.

(** [response.json()] *)
Definition response_json (r : http_response) : result json :=
  match body_json r with
  | Some v => Ok v
  | None => Raise ValueError
  end.

(** ** rasa_handler.py *)

Module RasaHandler.

Record t : Type := Make { rasa_url : string }.

Definition init (env : environment) : t :=
  {| rasa_url := getenv_default env "RASA_URL" "http://localhost:5005" |}.

Definition webhook_url (self : t) : string :=
  rasa_url self ++ "/webhooks/rest/webhook".

Definition greetings : list (string * string) :=
  [ ("hi", "नमस्ते! मैं आपकी सहायता के लिए यहाँ हूँ। मैं आपकी कैसे मदद कर सकता हूँ?");
    ("te", "నమస్కారం! నేను మీకు సహాయం చేయడానికి ఇక్కడ ఉన్నాను. నేను మీకు ఎలా సహాయం చేయగలను?");
    ("en", "Hello! I am here to assist you. How may I help you today?");
    ("ur", "السلام علیکم! میں آپ کی مدد کے لیے یہاں موجود ہوں۔ میں آپ کی کیسے مدد کر سکتا ہوں؟") ].

Definition get_initial_greeting (sender_id : option string) (language : string)
  : result string :=
  dflt ← dict_subscript greetings "en";
  Ok (dict_get_default greetings language dflt).

Definition fallback_messages : list (string * string) :=
  [ ("hi", "क्षमा करें, मैं आपकी बात समझ नहीं पाया। क्या आप कृपया दोहरा सकते हैं?");
    ("te", "క్షమించండి, నేను మీ మాట అర్థం చేసుకోలేకపోయాను. దయచేసి మళ్లీ చెప్పగలరా?");
    ("en", "Sorry, I did not understand that. Could you please repeat?");
    ("ur", "معذرت، میں آپ کی بات سمجھ نہیں پایا۔ کیا آپ براہ کرم دہرا سکتے ہیں؟") ].

Definition _get_fallback_response (language : string) : result string :=
  dflt ← dict_subscript fallback_messages "en";
  Ok (dict_get_default fallback_messages language dflt).

(** [[r.get('text', '') for r in responses if 'text' in r]] over the
    elements [rs] that iterating [responses] yields *)
Fixpoint collect_texts (rs : list json) : result (list json) :=
  match rs with
  | [] => Ok []
  | r :: rs' =>
      has_text ← py_contains "text" r;
      if has_text : bool then
        t ← py_get r "text" (JStr "");
        ts ← collect_texts rs';
        Ok (t :: ts)
      else collect_texts rs'
  end.

(** [{'sender': .., 'message': .., 'metadata': {'language': ..,
    'conversation_history': conversation_history or []}}] *)
Definition build_payload (sender_id : option string) (message : string)
    (language : string) (conversation_history : option (list turn)) : rasa_payload :=
  {| sender := sender_id;
     message := message;
     metadata_language := language;
     metadata_conversation_history :=
       match conversation_history with
       | Some [] => []
       | Some h => h
       | None => []
       end |}.

(** [responses and len(responses) > 0] *)
Definition is_nonempty (responses : json) : result bool :=
  if truthy responses
  then n ← py_len responses; Ok (0 <? n)
  else Ok false.

(** [' '.join([r.get('text', '') for r in responses if 'text' in r])] *)
Definition combine_texts (responses : json) : result string :=
  rs ← py_iter responses;
  texts ← collect_texts rs;
  str_join " " texts.

(** The branches of [send_message] below [requests.post] *)
Definition handle_response (language : string) (response : http_response)
  : result string :=
  if status_code response =? 200 then
    responses ← response_json response;
    nonempty ← is_nonempty responses;
    if nonempty : bool then
      bot_response ← combine_texts responses;
      Ok bot_response
    else _get_fallback_response language
  else _get_fallback_response language.

Definition send_message (env : environment) (self : t)
    (sender_id : option string) (message : string) (language : string)
    (conversation_history : option (list turn)) : M string :=
  try_except
    (let payload := build_payload sender_id message language conversation_history in
     response ← requests_post env (webhook_url self) (RasaBody payload);
     lift (handle_response language response))
    (fun e =>
       match e with
       | Timeout => lift (_get_fallback_response language)
       | _ => lift (_get_fallback_response language)
       end).

Definition check_health (env : environment) (self : t) : M bool :=
  try_except
    (response ← requests_get env (rasa_url self ++ "/status");
     mret (status_code response =? 200))
    (fun _ => mret false).

End RasaHandler.

(** ** sarvam_tts.py *)

(** [os.path.join(a, b)] on POSIX: a second component that starts with a
    slash replaces the first; otherwise the two are put together with one
    slash between them, none being added after an empty first component or
    one that ends with a slash. *)
Definition path_join (a b : string) : string :=
  if String.prefix "/" b then b
  else if String.eqb a "" then b
  else if String.eqb (String.substring (String.length a - 1)%nat 1%nat a) "/" then a ++ b
  else a ++ "/" ++ b.

Module SarvamTTS.

Record t : Type := Make {
  api_key : option string;
  api_url : string;
  default_voice : string
}.

(** The attributes that [__init__] reads from the environment.  The float
    [voice_speed] only feeds the [pace] field of the request and is not
    kept. *)
Definition attributes (env : environment) : t :=
  {| api_key := getenv env "SARVAM_API_KEY";
     api_url := getenv_default env "SARVAM_API_URL" "https://api.sarvam.ai/text-to-speech";
     default_voice := getenv_default env "DEFAULT_VOICE" "meera" |}.

(** [SarvamTTS()].  [float_of s] is what [float(s)] does on a string:
    [None] when it reads a number, the exception it raises otherwise.
    [float(os.getenv('VOICE_SPEED', 1.0))] raises on a VOICE_SPEED that is
    not a number; an unset VOICE_SPEED gives [float(1.0)]. *)
Definition init (float_of : string → option exn) (env : environment) : result t :=
  match getenv env "VOICE_SPEED" with
  | Some s =>
      match float_of s with
      | Some e => Raise e
      | None => Ok (attributes env)
      end
  | None => Ok (attributes env)
  end.

Definition language_map : list (string * string) :=
  [ ("hi", "hi-IN"); ("te", "te-IN"); ("en", "en-IN"); ("ur", "ur-PK") ].

Definition _get_sarvam_language_code (language : string) : string :=
  dict_get_default language_map language "hi-IN".

Definition voice_map : list (string * string) :=
  [ ("hi", "meera"); ("te", "meera"); ("en", "meera"); ("ur", "meera") ].

Definition _get_voice_for_language (self : t) (language : string) : string :=
  dict_get_default voice_map language (default_voice self).

Definition _save_audio_temporarily (env : environment)
    (audio_base64 : json) (language : string) : M json :=
  try_except
    (let temp_dir := "temp_audio" in
     _ ← emit (MakeDirs temp_dir);
     _ ← lift (match makedirs env temp_dir with
               | Some e => Raise e
               | None => Ok tt
               end);
     audio_data ← lift (b64decode env audio_base64);
     let filename := language ++ "_" ++ pretty (time_ms env) ++ ".wav" in
     let filepath := path_join temp_dir filename in
     _ ← emit (WriteFile filepath audio_data);
     _ ← lift (match write_file env filepath audio_data with
               | Some e => Raise e
               | None => Ok tt
               end);
     let server_url := getenv_default env "SERVER_URL" "http://localhost:5000" in
     mret (JStr (server_url ++ "/audio/" ++ filename)))
    (fun _ => mret JNull).

(** [not self.api_key] *)
Definition api_key_missing (self : t) : bool :=
  match api_key self with
  | None => true
  | Some k => String.eqb k ""
  end.

(** [voice or self._get_voice_for_language(language)] *)
Definition select_voice (self : t) (language : string) (voice : option string) : string :=
  match voice with
  | Some v => if String.eqb v "" then _get_voice_for_language self language else v
  | None => _get_voice_for_language self language
  end.

(** The [Authorization] header and the JSON body of the request *)
Definition build_payload (self : t) (text : string) (language : string)
    (voice : option string) : sarvam_payload :=
  {| authorization := "Bearer " ++ py_str (api_key self);
     text := text;
     language_code := _get_sarvam_language_code language;
     speaker := select_voice self language voice;
     speech_sample_rate := 8000 |}.

(** The branches of [generate_speech] below [requests.post] *)
Definition handle_response (env : environment) (language : string)
    (response : http_response) : M json :=
  if status_code response =? 200 then
    result ← lift (response_json response);
    has_audio ← lift (py_contains "audio" result);
    if has_audio : bool then
      audio_data ← lift (py_subscript result "audio");
      audio_url ← _save_audio_temporarily env audio_data language;
      mret audio_url
    else
      has_url ← lift (py_contains "audio_url" result);
      if has_url : bool then lift (py_subscript result "audio_url")
      else mret JNull
  else mret JNull.

Definition generate_speech (env : environment) (self : t)
    (text : string) (language : string) (voice : option string) : M json :=
  if api_key_missing self then mret JNull
  else
    try_except
      (let payload := build_payload self text language voice in
       response ← requests_post env (api_url self) (SarvamBody payload);
       handle_response env language response)
      (fun e =>
         match e with
         | Timeout => mret JNull
         | _ => mret JNull
         end).

End SarvamTTS.

(** ** twilio_handler.py *)

(** A TwiML document is the list of its verbs, in order. *)
Inductive verb : Type :=
| Play (url : json)
| Say (message : string) (language : string)
| Gather (input : string) (timeout : Z) (action : string) (language : string)
         (speech_timeout : string) (hints : string)
| Redirect (url : string)
| Hangup.

Definition VoiceResponse : Type := list verb.

(** Whether a verb can be written as XML: the value of a [Play] is written
    as its text when it is truthy, and must then be a string.  The text of
    the other verbs is a string by its type, and their attributes are
    passed through [str] first. *)
Definition renders (v : verb) : bool :=
  match v with
  | Play (JStr _) => true
  | Play url => negb (truthy url)
  | _ => true
  end.

(** [str(twiml)]: the document as XML, kept here as the list of its verbs;
    a verb that cannot be written raises TypeError. *)
Definition str_twiml (twiml : VoiceResponse) : result VoiceResponse :=
  if forallb renders twiml then Ok twiml else Raise TypeError.

Module TwilioHandler.

Record t : Type := Make {
  account_sid : option string;
  auth_token : option string;
  phone_number : option string;
  server_url : option string;
  tts : SarvamTTS.t
}.

Definition present (s : option string) : bool :=
  match s with
  | None => false
  | Some v => negb (String.eqb v "")
  end.

(** [TwilioHandler()]; the REST client it builds is modelled with the
    outbound calls. *)
Definition init (float_of : string → option exn) (env : environment) : result t :=
  let account_sid := getenv env "TWILIO_ACCOUNT_SID" in
  let auth_token := getenv env "TWILIO_AUTH_TOKEN" in
  let phone_number := getenv env "TWILIO_PHONE_NUMBER" in
  let server_url := getenv env "SERVER_URL" in
  if negb (present account_sid && present auth_token && present phone_number)
  then Raise ValueError
  else
    tts ← SarvamTTS.init float_of env;
    Ok {| account_sid := account_sid; auth_token := auth_token;
          phone_number := phone_number; server_url := server_url;
          tts := tts |}.

Definition language_map : list (string * string) :=
  [ ("hi", "hi-IN"); ("te", "te-IN"); ("en", "en-IN"); ("ur", "ur-PK") ].

Definition _get_twilio_language (language : string) : string :=
  dict_get_default language_map language "en-IN".

Definition hints_map : list (string * string) :=
  [ ("hi", "हाँ, नहीं, ठीक है, धन्यवाद");
    ("te", "అవును, కాదు, సరే, ధన్యవాదాలు");
    ("en", "yes, no, okay, thank you");
    ("ur", "ہاں, نہیں, ٹھیک ہے, شکریہ") ].

Definition _get_speech_hints (language : string) : string :=
  dict_get_default hints_map language "".

Definition gather (self : t) (language : string) : verb :=
  Gather "speech" 5 (py_str (server_url self) ++ "/voice/process")
         (_get_twilio_language language) "auto" (_get_speech_hints language).

Definition generate_greeting_response (env : environment) (self : t)
    (message : string) (language : string) : M VoiceResponse :=
  let response : VoiceResponse := [] in
  audio_url ← SarvamTTS.generate_speech env (tts self) message language None;
  let response :=
    if truthy audio_url then (response ++ [Play audio_url])%list
    else (response ++ [Say message (_get_twilio_language language)])%list in
  let response := (response ++ [gather self language])%list in
  let response :=
    (response ++ [Redirect (py_str (server_url self) ++ "/voice/process")])%list in
  mret response.

Definition generate_response (env : environment) (self : t)
    (message : string) (language : string) (end_call : bool) : M VoiceResponse :=
  let response : VoiceResponse := [] in
  audio_url ← SarvamTTS.generate_speech env (tts self) message language None;
  let response :=
    if truthy audio_url then (response ++ [Play audio_url])%list
    else (response ++ [Say message (_get_twilio_language language)])%list in
  let response :=
    if end_call then (response ++ [Hangup])%list
    else ((response ++ [gather self language])
            ++ [Redirect (py_str (server_url self) ++ "/voice/process")])%list in
  mret response.

Definition error_messages : list (string * string) :=
  [ ("hi", "क्षमा करें, कुछ गलत हो गया। कृपया बाद में पुनः प्रयास करें।");
    ("te", "క్షమించండి, ఏదో తప్పు జరిగింది. దయచేసి తర్వాత మళ్లీ ప్రయత్నించండి.");
    ("en", "Sorry, something went wrong. Please try again later.");
    ("ur", "معذرت، کچھ غلط ہو گیا۔ براہ کرم بعد میں دوبارہ کوشش کریں۔") ].

(** [error_messages.get(language, error_messages['en'])] *)
Definition error_message (language : string) : result string :=
  dflt ← dict_subscript error_messages "en";
  Ok (dict_get_default error_messages language dflt).

Definition generate_error_response (language : string) : result VoiceResponse :=
  let response : VoiceResponse := [] in
  error_msg ← error_message language;
  let response :=
    (response ++ [Say error_msg (_get_twilio_language language)])%list in
  let response := (response ++ [Hangup])%list in
  Ok response.

End TwilioHandler.

(** ** app.py *)

Inductive flask_response : Type :=
| Response (twiml : VoiceResponse) (mimetype : string)   (* Response(str(twiml), mimetype=..) *)
| JsonReply (body : list (string * json)) (status : Z). (* return {...}, status *)

Module App.

(** The module-level handlers of app.py *)
Record handlers : Type := Handlers {
  twilio_handler : TwilioHandler.t;
  rasa_handler : RasaHandler.t
}.

(** [request.form], and [request.form.get(name)] *)
Definition form : Type := list (string * string).

Definition form_get (f : form) (name : string) : option string := dict_get f name.

Definition get_call_sessions : M (gmap (option string) session) :=
  fun w => (Ok (call_sessions w), w).

Definition put_call_sessions (s : gmap (option string) session) : M unit :=
  fun w => (Ok tt, {| call_sessions := s; sent := sent w |}).

(** [call_sessions[call_sid] = s] *)
Definition set_session (call_sid : option string) (s : session) : M unit :=
  sessions ← get_call_sessions;
  put_call_sessions (<[call_sid := s]> sessions).

(** The session dict after [conversation_history.append(t)] *)
Definition add_turn (t : turn) (s : session) : session :=
  {| from_number := from_number s;
     language := language s;
     conversation_history := conversation_history s ++ [t] |}.

(** [session['conversation_history'].append(t)], where [session] is the
    dict held by [call_sessions] under [call_sid]: the update is seen
    through the store. *)
Definition append_history (call_sid : option string) (t : turn) : M unit :=
  sessions ← get_call_sessions;
  put_call_sessions (alter (add_turn t) call_sid sessions).

(** [del call_sessions[call_sid]] *)
Definition del_session (call_sid : option string) : M unit :=
  sessions ← get_call_sessions;
  match sessions !! call_sid with
  | Some _ => put_call_sessions (delete call_sid sessions)
  | None => lift (Raise KeyError)
  end.

Definition incoming_call (env : environment) (app : handlers) (request_form : form)
  : M flask_response :=
  try_except
    (let call_sid := form_get request_form "CallSid" in
     let from_number := form_get request_form "From" in
     let language :=
       default (getenv_default env "DEFAULT_LANGUAGE" "hi")
               (form_get request_form "language") in
     _ ← set_session call_sid
           {| from_number := from_number;
              language := language;
              conversation_history := [] |};
     initial_message ← lift (RasaHandler.get_initial_greeting call_sid language);
     twiml ← TwilioHandler.generate_greeting_response
               env (twilio_handler app) initial_message language;
     document ← lift (str_twiml twiml);
     mret (Response document "text/xml"))
    (fun _ =>
       error_twiml ← lift (TwilioHandler.generate_error_response "hi");
       document ← lift (str_twiml error_twiml);
       mret (Response document "text/xml")).

(** [confidence = request.form.get('Confidence', 0.0)] is only logged. *)
Definition process_speech (env : environment) (app : handlers) (request_form : form)
  : M flask_response :=
  try_except
    (let call_sid := form_get request_form "CallSid" in
     let speech_result := default "" (form_get request_form "SpeechResult") in
     sessions ← get_call_sessions;
     match sessions !! call_sid with
     | None =>
         twiml ← lift (TwilioHandler.generate_error_response "hi");
         document ← lift (str_twiml twiml);
         mret (Response document "text/xml")
     | Some session =>
         let language := language session in
         rasa_response ← RasaHandler.send_message
                           env (rasa_handler app) call_sid speech_result language
                           (Some (conversation_history session));
         _ ← append_history call_sid {| user := speech_result; bot := rasa_response |};
         twiml ← TwilioHandler.generate_response
                   env (twilio_handler app) rasa_response language false;
         document ← lift (str_twiml twiml);
         mret (Response document "text/xml")
     end)
    (fun _ =>
       error_twiml ← lift (TwilioHandler.generate_error_response "hi");
       document ← lift (str_twiml error_twiml);
       mret (Response document "text/xml")).

Definition terminal_statuses : list string :=
  [ "completed"; "failed"; "busy"; "no-answer" ].

(** [call_status in ['completed', 'failed', 'busy', 'no-answer']] *)
Definition is_terminal (call_status : option string) : bool :=
  match call_status with
  | Some s => existsb (String.eqb s) terminal_statuses
  | None => false
  end.

Definition call_status (request_form : form) : M flask_response :=
  let call_sid := form_get request_form "CallSid" in
  let call_status := form_get request_form "CallStatus" in
  _ ← (if is_terminal call_status then
         sessions ← get_call_sessions;
         if bool_decide (is_Some (sessions !! call_sid))
         then del_session call_sid
         else mret tt
       else mret tt);
  mret (JsonReply [("status", JStr "received")] 200).

Definition health (env : environment) (app : handlers) : M flask_response :=
  rasa_status ← RasaHandler.check_health env (rasa_handler app);
  mret (JsonReply [ ("status", JStr "healthy");
                    ("rasa_status", JBool rasa_status);
                    ("twilio_status", JStr "connected") ] 200).

End App.

(** ** The per-language artifacts, gathered *)

(** The source keeps each per-language artifact in a table of its own, next
    to the code that uses it.  A [LanguageProfile] puts the results of these
    lookups side by side for one language tag. *)
Record LanguageProfile : Type := Profile {
  greeting_text : string;            (* RasaHandler.get_initial_greeting *)
  fallback_text : string;            (* RasaHandler._get_fallback_response *)
  error_text : string;               (* TwilioHandler.generate_error_response *)
  speech_hints : string;             (* TwilioHandler._get_speech_hints *)
  synthesis_voice : string;          (* SarvamTTS._get_voice_for_language *)
  recognition_locale : string;       (* TwilioHandler._get_twilio_language *)
  synthesis_language_code : string   (* SarvamTTS._get_sarvam_language_code *)
}.

Definition resolve (tts : SarvamTTS.t) (language : string) : result LanguageProfile :=
  greeting ← RasaHandler.get_initial_greeting None language;
  fallback ← RasaHandler._get_fallback_response language;
  error ← TwilioHandler.error_message language;
  Ok {| greeting_text := greeting;
        fallback_text := fallback;
        error_text := error;
        speech_hints := TwilioHandler._get_speech_hints language;
        synthesis_voice := SarvamTTS._get_voice_for_language tts language;
        recognition_locale := TwilioHandler._get_twilio_language language;
        synthesis_language_code := SarvamTTS._get_sarvam_language_code language |}.

Definition supported_languages : list string := [ "hi"; "te"; "en"; "ur" ].

(** A profile whose every artifact is a non-empty string *)
Definition complete (p : LanguageProfile) : Prop :=
  greeting_text p ≠ "" ∧ fallback_text p ≠ "" ∧ error_text p ≠ "" ∧
  speech_hints p ≠ "" ∧ synthesis_voice p ≠ "" ∧ recognition_locale p ≠ "" ∧
  synthesis_language_code p ≠ "".

(** ** Vocabulary of the statements *)

(** The text of a response fragment: the value of its [text] field when it
    has one and it is a string. *)
Definition fragment_text (fragment : list (string * json)) : option string :=
  match dict_get fragment "text" with
  | Some (JStr s) => Some s
  | _ => None
  end.

(** A fragment whose [text] field, when present, is a string *)
Definition well_typed_fragment (fragment : list (string * json)) : Prop :=
  ∀ v, dict_get fragment "text" = Some v → ∃ s, v = JStr s.

(** A synthesis response carries audio when it is an object with an [audio]
    or an [audio_url] field. *)
Definition carries_audio (v : json) : bool :=
  match v with
  | JObj d => bool_decide (is_Some (dict_get d "audio"))
              || bool_decide (is_Some (dict_get d "audio_url"))
  | _ => false
  end.

(** Whether a value is a string *)
Definition is_string (v : json) : bool :=
  match v with
  | JStr _ => true
  | _ => false
  end.

(** The error markup of the two webhooks: the Hindi error message said in
    the Hindi locale, then a hangup *)
Definition error_markup : VoiceResponse :=
  [ Say "क्षमा करें, कुछ गलत हो गया। कृपया बाद में पुनः प्रयास करें।" "hi-IN"; Hangup ].

(** The answer to a call start or a speech turn whose message was
    synthesised to [audio]: the message said when [audio] is falsy, the
    audio played when it is a non-empty string, each followed by the listen
    and redirect instructions; the error markup when [audio] is a truthy
    value that is not a string. *)
Definition answer_for (self : TwilioHandler.t) (audio : json)
    (message language : string) : VoiceResponse :=
  let listen := [ TwilioHandler.gather self language;
                  Redirect (py_str (TwilioHandler.server_url self) ++ "/voice/process") ] in
  if truthy audio then
    if is_string audio then Play audio :: listen else error_markup
  else Say message (TwilioHandler._get_twilio_language language) :: listen.

(** The keys of a JSON reply, in order *)
Definition reply_keys (r : flask_response) : list string :=
  match r with
  | JsonReply body _ => map fst body
  | Response _ _ => []
  end.

(** [w'] is [w] after more requests were sent: same sessions, a longer log *)
Definition extends (w w' : world) : Prop :=
  call_sessions w' = call_sessions w ∧ ∃ evs, sent w' = (sent w ++ evs)%list.

(** ** Sample data *)

Module Sample.

(** No environment variable is set, every HTTP request times out, the file
    system and the decoder work. *)
Definition offline : environment :=
  {| getenv := fun _ => None;
     http_post := fun _ _ => Raises Timeout;
     http_get := fun _ => Raises Timeout;
     makedirs := fun _ => None;
     b64decode := fun _ => Ok "RIFF";
     time_ms := 1700000000123;
     write_file := fun _ _ => None |}.

(** Rasa answers every message with two text fragments around an image;
    Sarvam answers 200 with an object that carries no audio. *)
Definition online : environment :=
  {| getenv := fun name =>
       if String.eqb name "SARVAM_API_KEY" then Some "secret"
       else if String.eqb name "SERVER_URL" then Some "https://bot.example"
       else None;
     http_post := fun _ body =>
       match body with
       | RasaBody _ =>
           Responds {| status_code := 200;
                       body_json := Some (JList [ JObj [("text", JStr "Hi there")];
                                                  JObj [("image", JStr "https://img")];
                                                  JObj [("text", JStr "How can I help?")] ]) |}
       | SarvamBody _ =>
           Responds {| status_code := 200;
                       body_json := Some (JObj [("request_id", JStr "r1")]) |}
       end;
     http_get := fun _ => Responds {| status_code := 200; body_json := None |};
     makedirs := fun _ => None;
     b64decode := fun _ => Ok "RIFF";
     time_ms := 1700000000123;
     write_file := fun _ _ => None |}.

Definition twilio (env : environment) : TwilioHandler.t :=
  {| TwilioHandler.account_sid := Some "AC0";
     TwilioHandler.auth_token := Some "token";
     TwilioHandler.phone_number := Some "+15550100";
     TwilioHandler.server_url := getenv env "SERVER_URL";
     TwilioHandler.tts := SarvamTTS.attributes env |}.

Definition app (env : environment) : App.handlers :=
  {| App.twilio_handler := twilio env;
     App.rasa_handler := RasaHandler.init env |}.

Definition caller : session :=
  {| from_number := Some "+911234567890";
     language := "en";
     conversation_history := [ {| user := "hello"; bot := "Hi there" |} ] |}.

(** One call in progress *)
Definition active : world :=
  {| call_sessions := {[ Some "CA1" := caller ]}; sent := [] |}.

(** No call in progress *)
Definition idle : world := {| call_sessions := ∅; sent := [] |}.


Definition turn_hello : App.form :=
  [ ("CallSid", "CA1"); ("SpeechResult", "hello"); ("Confidence", "0.9") ].

Definition turn_silent : App.form := [ ("CallSid", "CA1") ].

Definition turn_unknown : App.form :=
  [ ("CallSid", "CA404"); ("SpeechResult", "hello") ].

Definition completed : App.form :=
  [ ("CallSid", "CA1"); ("CallStatus", "completed") ].

End Sample.

Module SampleReplies.

(** The three fragments that [Sample.online] lets Rasa answer with *)
Definition fragments : list (list (string * json)) :=
  [ [("text", JStr "Hi there")];
    [("image", JStr "https://img")];
    [("text", JStr "How can I help?")] ].

Definition rasa_response : http_response :=
  {| status_code := 200; body_json := Some (JList (map JObj fragments)) |}.

(** Rasa answers with one fragment whose text is [null] *)
Definition null_text : environment :=
  {| getenv := getenv Sample.online;
     http_post := fun _ _ =>
       Responds {| status_code := 200;
                   body_json := Some (JList [ JObj [("text", JNull)] ]) |};
     http_get := http_get Sample.online;
     makedirs := makedirs Sample.online;
     b64decode := b64decode Sample.online;
     time_ms := time_ms Sample.online;
     write_file := write_file Sample.online |}.

(** Rasa answers with fragments none of which has a text *)
Definition no_text : environment :=
  {| getenv := getenv Sample.online;
     http_post := fun _ _ =>
       Responds {| status_code := 200;
                   body_json := Some (JList [ JObj [("image", JStr "https://img")] ]) |};
     http_get := http_get Sample.online;
     makedirs := makedirs Sample.online;
     b64decode := b64decode Sample.online;
     time_ms := time_ms Sample.online;
     write_file := write_file Sample.online |}.

(** Sarvam answers with base64 audio *)
Definition with_audio : environment :=
  {| getenv := getenv Sample.online;
     http_post := fun _ body =>
       match body with
       | RasaBody _ => Responds rasa_response
       | SarvamBody _ =>
           Responds {| status_code := 200;
                       body_json := Some (JObj [("audio", JStr "UklGRg==")]) |}
       end;
     http_get := http_get Sample.online;
     makedirs := makedirs Sample.online;
     b64decode := b64decode Sample.online;
     time_ms := time_ms Sample.online;
     write_file := write_file Sample.online |}.

End SampleReplies.

(** ** sarvam_tts.py, the connection test *)

(** [SarvamTTS.test_connection]: [result is not None], and [False] on any
    exception *)
Definition test_connection (env : environment) (self : SarvamTTS.t) : M bool :=
  try_except
    (let test_text := "Hello, this is a test." in
     result ← SarvamTTS.generate_speech env self test_text "en" None;
     mret (match result with
           | JNull => false
           | _ => true
           end))
    (fun _ => mret false).

(** ** The routes of app.py *)

(** The webhook routes, each with the one method it accepts.  The route
    [/call/initiate] needs the Twilio REST client and is modelled on its
    own below. *)
Inductive route : Type :=
| Home            (* GET / *)
| VoiceIncoming   (* POST /voice/incoming *)
| VoiceProcess    (* POST /voice/process *)
| VoiceStatus     (* POST /voice/status *)
| Health.         (* GET /health *)

(** One HTTP request to the application, with what the outside answers
    while it is served *)
Record request : Type := Request {
  req_env : environment;
  req_route : route;
  req_form : App.form
}.

Definition home : M flask_response :=
  mret (JsonReply [ ("status", JStr "healthy"); ("service", JStr "Voice Bot API") ] 200).

Definition dispatch (app : App.handlers) (r : request) : M flask_response :=
  match req_route r with
  | Home => home
  | VoiceIncoming => App.incoming_call (req_env r) app (req_form r)
  | VoiceProcess => App.process_speech (req_env r) app (req_form r)
  | VoiceStatus => App.call_status (req_form r)
  | Health => App.health (req_env r) app
  end.

(** The requests of a list served one after the other; the answers in
    order and the state at the end *)
Fixpoint serve (app : App.handlers) (reqs : list request) (w : world)
  : list (result flask_response) * world :=
  match reqs with
  | [] => ([], w)
  | r :: reqs' =>
      let (answer, w1) := dispatch app r w in
      let (answers, w2) := serve app reqs' w1 in
      (answer :: answers, w2)
  end.

(** The CallSid of a request *)
Definition req_call_sid (r : request) : option string :=
  App.form_get (req_form r) "CallSid".

(** The requests that start or end the call [call_sid] *)
Definition starts_or_ends (call_sid : option string) (r : request) : bool :=
  match req_route r with
  | VoiceIncoming | VoiceStatus => bool_decide (req_call_sid r = call_sid)
  | _ => false
  end.

(** The utterances of the speech turns of the call [call_sid], in order *)
Fixpoint utterances (call_sid : option string) (reqs : list request) : list string :=
  match reqs with
  | [] => []
  | r :: reqs' =>
      match req_route r with
      | VoiceProcess =>
          if bool_decide (req_call_sid r = call_sid)
          then default "" (App.form_get (req_form r) "SpeechResult")
                 :: utterances call_sid reqs'
          else utterances call_sid reqs'
      | _ => utterances call_sid reqs'
      end
  end.

(** The CallSids of the call-start requests *)
Fixpoint started (reqs : list request) : gset (option string) :=
  match reqs with
  | [] => ∅
  | r :: reqs' =>
      match req_route r with
      | VoiceIncoming => {[ req_call_sid r ]} ∪ started reqs'
      | _ => started reqs'
      end
  end.

(** Whether a markup hangs up *)
Definition hangs_up (twiml : VoiceResponse) : bool :=
  existsb (fun v => match v with Hangup => true | _ => false end) twiml.

Module SampleCalls.

(** A whole call: start, one turn, one silent turn, completion *)
Definition whole_call : list request :=
  [ {| req_env := Sample.online; req_route := VoiceIncoming;
       req_form := [ ("CallSid", "CA7"); ("From", "+15550123"); ("language", "en") ] |};
    {| req_env := Sample.online; req_route := VoiceProcess;
       req_form := [ ("CallSid", "CA7"); ("SpeechResult", "hello") ] |};
    {| req_env := Sample.offline; req_route := VoiceProcess;
       req_form := [ ("CallSid", "CA7") ] |};
    {| req_env := Sample.online; req_route := VoiceStatus;
       req_form := [ ("CallSid", "CA7"); ("CallStatus", "completed") ] |} ].

(** Two turns and a health check during the sample call CA1 *)
Definition two_turns : list request :=
  [ {| req_env := Sample.online; req_route := VoiceProcess; req_form := Sample.turn_hello |};
    {| req_env := Sample.online; req_route := Health; req_form := [] |};
    {| req_env := Sample.offline; req_route := VoiceProcess; req_form := Sample.turn_silent |} ].

Definition start_ca7 : App.form :=
  [ ("CallSid", "CA7"); ("From", "+15550123") ].

Definition end_ca7 : App.form :=
  [ ("CallSid", "CA7"); ("CallStatus", "busy") ].

End SampleCalls.

(** ** Vocabulary of the further statements *)

(** Whether some key of a dict contains the substring ['text'] *)
Definition some_key_mentions_text (d : list (string * json)) : bool :=
  existsb (fun kv => str_contains "text" (fst kv)) d.

(** A JSON value without elements: null, a boolean, a number, the empty
    string, the empty list, the empty object *)
Definition scalar_or_empty (v : json) : bool :=
  match v with
  | JNull | JBool _ | JInt _ | JFloat _ => true
  | JStr s => String.eqb s ""
  | JList l => match l with [] => true | _ => false end
  | JObj d => match d with [] => true | _ => false end
  end.

Module SampleBodies.

(** Sarvam answers with an object that has both [audio] and [audio_url],
    and the audio does not decode. *)
Definition undecodable : environment :=
  {| getenv := getenv Sample.online;
     http_post := fun _ _ =>
       Responds {| status_code := 200;
                   body_json := Some (JObj [ ("audio_url", JStr "https://cdn/a.wav");
                                             ("audio", JStr "!!") ]) |};
     http_get := http_get Sample.online;
     makedirs := makedirs Sample.online;
     b64decode := fun _ => Raise ValueError;
     time_ms := time_ms Sample.online;
     write_file := write_file Sample.online |}.

(** Sarvam answers with an object that has only [audio_url]. *)
Definition hosted : environment :=
  {| getenv := getenv Sample.online;
     http_post := fun _ _ =>
       Responds {| status_code := 200;
                   body_json := Some (JObj [ ("request_id", JStr "r2");
                                             ("audio_url", JStr "https://cdn/a.wav") ]) |};
     http_get := http_get Sample.online;
     makedirs := makedirs Sample.online;
     b64decode := b64decode Sample.online;
     time_ms := time_ms Sample.online;
     write_file := write_file Sample.online |}.

(** Rasa answers with one object instead of a list of them. *)
Definition bare_object : environment :=
  {| getenv := getenv Sample.online;
     http_post := fun _ _ =>
       Responds {| status_code := 200;
                   body_json := Some (JObj [ ("recipient_id", JStr "CA1");
                                             ("text", JStr "Hi there") ]) |};
     http_get := http_get Sample.online;
     makedirs := makedirs Sample.online;
     b64decode := b64decode Sample.online;
     time_ms := time_ms Sample.online;
     write_file := write_file Sample.online |}.

End SampleBodies.

(** ** Outbound calls: twilio_handler.py and app.py *)

(** The result of code whose exception is only ever turned into text: a
    value, or the [str(e)] of the exception raised *)
Inductive outcome (A : Type) : Type :=
| Done (a : A)
| Failed (message : string).
Arguments Done {A} a.
Arguments Failed {A} message.

(** The arguments of [client.calls.create] *)
Record call_request : Type := CallRequest {
  to : json;
  from_ : option string;
  url : string;
  status_callback : string;
  status_callback_event : list string;
  timeout : Z
}.

(** What the Twilio REST API and two Python built-ins answer.  [int_of] is
    [int(s)] on a string; [str_of] is [str(v)] on a float, a list or a
    dict. *)
Record telephony : Type := Telephony {
  calls_create : call_request → outcome string;   (* the [sid] of the call *)
  int_of : string → outcome Z;
  str_of : json → string
}.

(** [type(v).__name__] *)
Definition type_name (v : json) : string :=
  match v with
  | JNull => "NoneType"
  | JBool _ => "bool"
  | JInt _ => "int"
  | JFloat _ => "float"
  | JStr _ => "str"
  | JList _ => "list"
  | JObj _ => "dict"
  end.

(** [str(v)], as an f-string formats a value *)
Definition py_format (tel : telephony) (v : json) : string :=
  match v with
  | JNull => "None"
  | JBool true => "True"
  | JBool false => "False"
  | JInt n => pretty n
  | JStr s => s
  | _ => str_of tel v
  end.

(** [v.get(key, dflt)], with the message of the AttributeError that a
    value without the method raises *)
Definition get_or_fail (v : json) (key : string) (dflt : json) : outcome json :=
  match v with
  | JObj d => Done (dict_get_default d key dflt)
  | _ => Failed ("'" ++ type_name v ++ "' object has no attribute 'get'")
  end.

Module Outbound.

(** [TwilioHandler.initiate_outbound_call]: the sid of the call, or the
    exception re-raised, with the requests made to Twilio.  The arguments
    are evaluated before the call, so a CALL_TIMEOUT that is not a number
    raises before Twilio is asked. *)
Definition initiate_outbound_call (env : environment) (tel : telephony)
    (self : TwilioHandler.t) (to_number : json) (language : json)
  : outcome string * list call_request :=
  let webhook_url :=
    py_str (TwilioHandler.server_url self) ++ "/voice/incoming?language="
      ++ py_format tel language in
  let status_callback := py_str (TwilioHandler.server_url self) ++ "/voice/status" in
  match match getenv env "CALL_TIMEOUT" with
        | Some s => int_of tel s
        | None => Done 60
        end with
  | Failed message => (Failed message, [])
  | Done seconds =>
      let request :=
        {| to := to_number;
           from_ := TwilioHandler.phone_number self;
           url := webhook_url;
           status_callback := status_callback;
           status_callback_event := [ "initiated"; "ringing"; "answered"; "completed" ];
           timeout := seconds |} in
      (calls_create tel request, [request])
  end.

(** [initiate_call] of app.py.  [request_json] is what [request.get_json()]
    gives: the parsed body, or the exception it raises. *)
Definition initiate_call (env : environment) (tel : telephony) (app : App.handlers)
    (request_json : outcome json) : flask_response * list call_request :=
  let failed message := JsonReply [ ("error", JStr message) ] 500 in
  match request_json with
  | Failed message => (failed message, [])
  | Done data =>
      match get_or_fail data "to_number" JNull with
      | Failed message => (failed message, [])
      | Done to_number =>
          match get_or_fail data "language"
                  (JStr (getenv_default env "DEFAULT_LANGUAGE" "hi")) with
          | Failed message => (failed message, [])
          | Done language =>
              if negb (truthy to_number)
              then (JsonReply [ ("error", JStr "to_number is required") ] 400, [])
              else
                match initiate_outbound_call env tel (App.twilio_handler app)
                        to_number language with
                | (Failed message, calls) => (failed message, calls)
                | (Done sid, calls) =>
                    (JsonReply [ ("status", JStr "success");
                                 ("call_sid", JStr sid);
                                 ("to", to_number);
                                 ("language", language) ] 200, calls)
                end
          end
      end
  end.

End Outbound.

(** ** outbound_caller.py *)

(** The number of characters of a string: the bytes of its UTF-8 form
    that do not continue a character *)
Definition continues_character (c : ascii) : bool :=
  let n := N_of_ascii c in ((128 <=? n) && (n <? 192))%N.

Fixpoint char_count (s : string) : nat :=
  match s with
  | EmptyString => 0%nat
  | String c s' => if continues_character c then char_count s' else S (char_count s')
  end.

(** [s.split(',')] *)
Fixpoint split_commas (s : string) : list string :=
  match s with
  | EmptyString => [ "" ]
  | String c s' =>
      if Ascii.eqb c ","
      then "" :: split_commas s'
      else match split_commas s' with
           | piece :: pieces => String c piece :: pieces
           | [] => [ String c "" ]
           end
  end.

Module OutboundCaller.

(** The JSON body [{'to_number': .., 'language': ..}] *)
Record payload : Type := Payload { to_number : string; language : string }.

(** What [requests.post(endpoint, json=payload, timeout=30)] gives *)
Definition server : Type := string → payload → http_outcome.

(** [initiate_call]: what it returns, and the request it posted with its
    endpoint *)
Definition initiate_call (env : environment) (post : server)
    (to_number : string) (language : string) : option json * list (string * payload) :=
  let server_url := getenv_default env "SERVER_URL" "http://localhost:5000" in
  let endpoint := server_url ++ "/call/initiate" in
  let payload := {| to_number := to_number; language := language |} in
  (match post endpoint payload with
   | Responds response =>
       if status_code response =? 200 then
         match body_json response with
         | Some (JObj d) => Some (JObj d)
         | Some _ => None    (* logging [result.get('call_sid')] raises *)
         | None => None      (* [response.json()] raises *)
         end
       else None
   | Raises ConnectionError => None
   | Raises _ => None
   end, [ (endpoint, payload) ]).

Definition validate_phone_number (phone_number : string) : bool :=
  if negb (String.prefix "+" phone_number) then false
  else if (char_count phone_number <? 10)%nat then false
  else true.

Definition validate_language (env : environment) (language : string) : bool :=
  let supported_languages :=
    split_commas (getenv_default env "SUPPORTED_LANGUAGES" "hi,te,en,ur") in
  if negb (existsb (String.eqb language) supported_languages) then false
  else true.

(** [print(line)] on the standard output of the script: [None] when the
    line is written, the exception raised otherwise, such as the
    UnicodeEncodeError, a ValueError, of a stream whose encoding lacks a
    character of the line *)
Definition stdout : Type := string → option exn.

(** How [main()] ends: it returns, [sys.exit(code)] raises SystemExit, or
    an exception escapes it *)
Inductive ending : Type :=
| Returns
| SystemExit (code : Z)
| Escapes (e : exn).

(** What a run of [main()] leaves behind: how it ended, the requests it
    posted, each with its endpoint, and the lines it gave to [print], the
    last of them being the one that raised if one did *)
Record run : Type := Run {
  ends : ending;
  posted : list (string * payload);
  printed : list string
}.

(** One [print] per line, up to the first that raises *)
Fixpoint print_all (print : stdout) (lines : list string) : option exn * list string :=
  match lines with
  | [] => (None, [])
  | line :: lines =>
      match print line with
      | Some e => (Some e, [line])
      | None => let (failure, printed) := print_all print lines in
                (failure, line :: printed)
      end
  end.

(** The prints of a branch of [main()] and the way the branch ends after
    them *)
Definition print_then (print : stdout) (lines : list string) (after : ending)
    : ending * list string :=
  match print_all print lines with
  | (Some e, printed) => (Escapes e, printed)
  | (None, printed) => (after, printed)
  end.

Definition newline : string := String "010" "".

Definition usage : list string :=
  [ "Usage: python outbound_caller.py <phone_number> [language]";
    "Example: python outbound_caller.py +919876543210 hi";
    newline ++ "Supported languages:";
    "  hi - Hindi";
    "  te - Telugu";
    "  en - English";
    "  ur - Urdu" ].

Definition success : list string :=
  [ newline ++ "✓ Call initiated successfully!";
    "Monitor the call status in your Twilio console or check logs" ].

Definition failure : list string :=
  [ newline ++ "✗ Failed to initiate call" ].

(** [main()], with [sys.argv] as [argv] *)
Definition main (env : environment) (post : server) (print : stdout)
    (argv : list string) : run :=
  match argv with
  | [] | [_] =>
      let (ends, printed) := print_then print usage (SystemExit 1) in
      {| ends := ends; posted := []; printed := printed |}
  | _ :: phone_number :: rest =>
      let language := match rest with
                      | language :: _ => language
                      | [] => "hi"
                      end in
      if negb (validate_phone_number phone_number)
      then {| ends := SystemExit 1; posted := []; printed := [] |}
      else if negb (validate_language env language)
      then {| ends := SystemExit 1; posted := []; printed := [] |}
      else
        let (result, requests) := initiate_call env post phone_number language in
        if match result with
           | Some result => truthy result
           | None => false
           end
        then
          let (ends, printed) := print_then print success Returns in
          {| ends := ends; posted := requests; printed := printed |}
        else
          let (ends, printed) := print_then print failure (SystemExit 1) in
          {| ends := ends; posted := requests; printed := printed |}
  end.

(** The body of the script's request as the server parses it *)
Definition as_json (p : payload) : json :=
  JObj [ ("to_number", JStr (to_number p)); ("language", JStr (language p)) ].

End OutboundCaller.

(** Whether the server answered a request of the script with 200 and a
    non-empty object, the answer that [main()] takes for a placed call *)
Definition answered (post : OutboundCaller.server)
    (request : string * OutboundCaller.payload) : Prop :=
  ∃ response d,
    post (fst request) (snd request) = Responds response
    ∧ status_code response = 200
    ∧ body_json response = Some (JObj d)
    ∧ d ≠ [].

Module SampleOutbound.

(** Twilio accepts every call; [int] reads 30 and nothing else. *)
Definition accepting : telephony :=
  {| calls_create := fun _ => Done "CA900";
     int_of := fun s => if String.eqb s "30" then Done 30
                        else Failed "invalid literal for int() with base 10";
     str_of := fun _ => "?" |}.

(** Twilio rejects every call. *)
Definition rejecting : telephony :=
  {| calls_create := fun _ => Failed "Unable to create record: unverified number";
     int_of := int_of accepting;
     str_of := str_of accepting |}.

(** The server of the script: app.py behind HTTP, Twilio accepting.  A
    200 answer carries the JSON body, any other answer none. *)
Definition app_server : OutboundCaller.server :=
  fun _ p =>
    match fst (Outbound.initiate_call Sample.online accepting (Sample.app Sample.online)
                 (Done (OutboundCaller.as_json p))) with
    | JsonReply body status =>
        Responds {| status_code := status;
                    body_json := if status =? 200 then Some (JObj body) else None |}
    | Response _ _ => Raises ConnectionError
    end.

Definition argv_telugu : list string :=
  [ "outbound_caller.py"; "+919876543210"; "te" ].

(** A standard output that encodes every line *)
Definition utf8_stdout : OutboundCaller.stdout := fun _ => None.

Fixpoint is_ascii (line : string) : bool :=
  match line with
  | EmptyString => true
  | String c line' => (N_of_ascii c <? 128)%N && is_ascii line'
  end.

(** A standard output that encodes ASCII only *)
Definition ascii_stdout : OutboundCaller.stdout :=
  fun line => if is_ascii line then None else Some ValueError.

End SampleOutbound.

(** The HTTP status of an answer; a markup is sent with status 200 *)
Definition reply_status (r : flask_response) : Z :=
  match r with
  | JsonReply _ status => status
  | Response _ _ => 200
  end.

(** * Properties *)

(** ** Running a computation *)

Ltac run := cbv [mbind mret M_bind M_ret lift try_except emit requests_post requests_get].

Lemma fallback_response_ok language :
  ∃ s, RasaHandler._get_fallback_response language = Ok s.
Proof. eexists. reflexivity. Qed.

Lemma dict_get_unknown {A : Type} (d : list (string * A)) (k : string) :
  k ∉ map fst d → dict_get d k = None.
Proof.
  induction d as [| [k' v] d IH]; [reflexivity |].
  cbn [map fst dict_get]. intros Hk.
  apply not_elem_of_cons in Hk as [Hne Hk].
  destruct (String.eqb_spec k' k) as [-> | _]; [done | auto].
Qed.

(** The fallback text of a language: its entry of the table, the English
    entry for a tag without one *)
Lemma fallback_response_pinned language :
  ∃ fallback,
    RasaHandler._get_fallback_response language = Ok fallback
    ∧ (dict_get RasaHandler.fallback_messages language = Some fallback
       ∨ (dict_get RasaHandler.fallback_messages language = None
          ∧ fallback = "Sorry, I did not understand that. Could you please repeat?"))
    ∧ (language = "hi" →
         fallback = "क्षमा करें, मैं आपकी बात समझ नहीं पाया। क्या आप कृपया दोहरा सकते हैं?")
    ∧ (language = "te" →
         fallback = "క్షమించండి, నేను మీ మాట అర్థం చేసుకోలేకపోయాను. దయచేసి మళ్లీ చెప్పగలరా?")
    ∧ (language = "en" →
         fallback = "Sorry, I did not understand that. Could you please repeat?")
    ∧ (language = "ur" →
         fallback = "معذرت، میں آپ کی بات سمجھ نہیں پایا۔ کیا آپ براہ کرم دہرا سکتے ہیں؟")
    ∧ (language ∉ supported_languages →
         fallback = "Sorry, I did not understand that. Could you please repeat?").
Proof.
  eexists. split; [reflexivity |]. unfold dict_get_default. split; [| repeat split].
  - destruct (dict_get RasaHandler.fallback_messages language); [left | right]; auto.
  - intros ->. reflexivity.
  - intros ->. reflexivity.
  - intros ->. reflexivity.
  - intros ->. reflexivity.
  - intros Hout. rewrite dict_get_unknown by exact Hout. reflexivity.
Qed.

Lemma send_message_run env self sender_id message language history w :
  let url := RasaHandler.webhook_url self in
  let body := RasaBody (RasaHandler.build_payload sender_id message language history) in
  RasaHandler.send_message env self sender_id message language history w =
  (match http_post env url body with
   | Raises _ => RasaHandler._get_fallback_response language
   | Responds r =>
       match RasaHandler.handle_response language r with
       | Ok reply => Ok reply
       | Raise _ => RasaHandler._get_fallback_response language
       end
   end, with_sent w (HttpPost url body)).
Proof.
  intros url body. unfold RasaHandler.send_message. run. fold url body.
  destruct (http_post env url body) as [e | r].
  - destruct e; reflexivity.
  - destruct (RasaHandler.handle_response language r) as [reply | e];
      [reflexivity | destruct e; reflexivity].
Qed.

Lemma as_strings_strs (l : list string) : as_strings (map JStr l) = Ok l.
Proof.
  induction l as [| s l IH]; [reflexivity |].
  cbn [map as_strings]. rewrite IH. reflexivity.
Qed.

Lemma collect_texts_fragments (fragments : list (list (string * json))) :
  Forall well_typed_fragment fragments →
  RasaHandler.collect_texts (map JObj fragments)
    = Ok (map JStr (omap fragment_text fragments)).
Proof.
  induction 1 as [| d ds Hd _ IH]; [reflexivity |].
  cbn [map RasaHandler.collect_texts py_contains omap list_omap].
  unfold fragment_text, py_get, dict_get_default.
  destruct (dict_get d "text") as [v |] eqn:Hv.
  - destruct (Hd v Hv) as [s ->].
    rewrite bool_decide_eq_true_2 by eauto.
    cbn. rewrite IH. reflexivity.
  - rewrite bool_decide_eq_false_2 by (intros [? ?]; discriminate).
    cbn. exact IH.
Qed.

(** C2: [send_message] never raises.  Whatever the HTTP peer does, the call
    returns a reply string, after exactly one request and without touching
    the sessions; when the request raises (a timeout or any other
    exception), when the status code is not 200, when the response is the
    empty list, and when reading the response raises, the reply is what
    [_get_fallback_response] gives for the language.  That fallback text is
    the entry of the language in the table of fallback messages: the Hindi,
    Telugu, English and Urdu sentences for hi, te, en and ur, and the
    English sentence for any other tag. *)
Theorem send_message_never_raises env self sender_id message language history w :
  let url := RasaHandler.webhook_url self in
  let body := RasaBody (RasaHandler.build_payload sender_id message language history) in
  ∃ reply,
    RasaHandler.send_message env self sender_id message language history w
      = (Ok reply, with_sent w (HttpPost url body)) ∧
    (http_post env url body = Raises Timeout →
       RasaHandler._get_fallback_response language = Ok reply) ∧
    (∀ e, http_post env url body = Raises e →
       RasaHandler._get_fallback_response language = Ok reply) ∧
    (∀ r, http_post env url body = Responds r → status_code r ≠ 200 →
       RasaHandler._get_fallback_response language = Ok reply) ∧
    (∀ r, http_post env url body = Responds r → status_code r = 200 →
       body_json r = Some (JList []) →
       RasaHandler._get_fallback_response language = Ok reply) ∧
    (∀ r e, http_post env url body = Responds r →
       RasaHandler.handle_response language r = Raise e →
       RasaHandler._get_fallback_response language = Ok reply) ∧
    ∃ fallback,
      RasaHandler._get_fallback_response language = Ok fallback
      ∧ (dict_get RasaHandler.fallback_messages language = Some fallback
         ∨ (dict_get RasaHandler.fallback_messages language = None
            ∧ fallback = "Sorry, I did not understand that. Could you please repeat?"))
      ∧ (language = "hi" →
           fallback = "क्षमा करें, मैं आपकी बात समझ नहीं पाया। क्या आप कृपया दोहरा सकते हैं?")
      ∧ (language = "te" →
           fallback = "క్షమించండి, నేను మీ మాట అర్థం చేసుకోలేకపోయాను. దయచేసి మళ్లీ చెప్పగలరా?")
      ∧ (language = "en" →
           fallback = "Sorry, I did not understand that. Could you please repeat?")
      ∧ (language = "ur" →
           fallback = "معذرت، میں آپ کی بات سمجھ نہیں پایا۔ کیا آپ براہ کرم دہرا سکتے ہیں؟")
      ∧ (language ∉ supported_languages →
           fallback = "Sorry, I did not understand that. Could you please repeat?").
Proof.
  intros url body. rewrite send_message_run. fold url body.
  pose proof (fallback_response_pinned language) as Hpinned.
  destruct (fallback_response_ok language) as [fb Hfb].
  destruct (http_post env url body) as [e | r] eqn:Hout.
  - exists fb. rewrite Hfb in Hpinned |- *.
    split; [reflexivity |]. split; [done |]. split; [done |]. split; [done |].
    split; [done |]. split; [done |]. exact Hpinned.
  - destruct (RasaHandler.handle_response language r) as [reply | e] eqn:Hr.
    + exists reply. split; [reflexivity |].
      split; [done |]. split; [done |].
      split; [| split; [| split; [| exact Hpinned]]].
      * intros r' [= <-] Hst. unfold RasaHandler.handle_response in Hr.
        apply Z.eqb_neq in Hst. rewrite Hst in Hr. exact Hr.
      * intros r' [= <-] Hst Hbody. unfold RasaHandler.handle_response in Hr.
        apply Z.eqb_eq in Hst. rewrite Hst in Hr.
        unfold response_json in Hr. rewrite Hbody in Hr. exact Hr.
      * intros r' e [= <-] Hraise. congruence.
    + exists fb. rewrite Hfb in Hpinned |- *.
      split; [reflexivity |]. split; [done |]. split; [done |]. split; [done |].
      split; [done |]. split; [done |]. exact Hpinned.
Qed.

(** C8: when Rasa answers 200 with a non-empty list of fragments, objects
    whose [text] field, where there is one, is a string, the reply of
    [send_message] is the texts of the fragments that have one, in the order
    of the list, joined by single spaces. *)
Theorem send_message_joins_fragments
    env self sender_id message language history w r fragments :
  let url := RasaHandler.webhook_url self in
  let body := RasaBody (RasaHandler.build_payload sender_id message language history) in
  http_post env url body = Responds r →
  status_code r = 200 →
  body_json r = Some (JList (map JObj fragments)) →
  fragments ≠ [] →
  Forall well_typed_fragment fragments →
  RasaHandler.send_message env self sender_id message language history w
    = (Ok (String.concat " " (omap fragment_text fragments)),
       with_sent w (HttpPost url body)).
Proof.
  intros url body Hout Hst Hbody Hne Hty.
  rewrite send_message_run. fold url body. rewrite Hout.
  unfold RasaHandler.handle_response, response_json.
  apply Z.eqb_eq in Hst. rewrite Hst, Hbody.
  destruct fragments as [| d ds]; [done |].
  cbn [map mbind result_bind RasaHandler.is_nonempty truthy py_len].
  replace (0 <? Z.of_nat (length (JObj d :: map JObj ds))) with true
    by (symmetry; apply Z.ltb_lt; cbn [length]; lia).
  unfold RasaHandler.combine_texts. cbn [py_iter mbind result_bind].
  change (JObj d :: map JObj ds) with (map JObj (d :: ds)).
  rewrite (collect_texts_fragments _ Hty).
  unfold str_join. cbn [mbind result_bind]. rewrite as_strings_strs. reflexivity.
Qed.

Lemma extends_refl w : extends w w.
Proof. split; [reflexivity |]. exists []. symmetry. apply app_nil_r. Qed.

Lemma extends_trans w1 w2 w3 : extends w1 w2 → extends w2 w3 → extends w1 w3.
Proof.
  intros [Hs (evs & He)] [Hs' (evs' & He')]. split; [congruence |].
  exists (evs ++ evs')%list. rewrite He', He. symmetry. apply app_assoc.
Qed.

Lemma extends_with_sent w e : extends w (with_sent w e).
Proof. split; [reflexivity |]. exists [e]. reflexivity. Qed.

Create HintDb world.
#[local] Hint Resolve extends_refl extends_with_sent : world.

Lemma save_audio_ok env audio_base64 language w :
  ∃ url w', SarvamTTS._save_audio_temporarily env audio_base64 language w = (Ok url, w')
            ∧ extends w w'.
Proof.
  unfold SarvamTTS._save_audio_temporarily. run.
  pose proof (extends_with_sent w (MakeDirs "temp_audio")) as H1.
  destruct (makedirs env "temp_audio") as [e |]; [eauto |].
  destruct (b64decode env audio_base64) as [data | e]; [| eauto].
  match goal with
  | |- context [with_sent ?w1 (WriteFile ?p data)] =>
      pose proof (extends_trans _ _ _ H1 (extends_with_sent w1 (WriteFile p data))) as H2
  end.
  destruct (write_file env _ data) as [e |]; eauto.
Qed.

(** Below [requests.post], [generate_speech] either returns a value or
    raises; the sessions are not touched. *)
Lemma sarvam_handle_response_sessions env language r w :
  ∃ res w', SarvamTTS.handle_response env language r w = (res, w')
            ∧ extends w w'.
Proof.
  unfold SarvamTTS.handle_response. run.
  destruct (status_code r =? 200); [| eauto with world].
  destruct (response_json r) as [v | e]; [| eauto with world].
  destruct (py_contains "audio" v) as [[] | e]; [| | eauto with world].
  - destruct (py_subscript v "audio") as [data | e]; [| eauto with world].
    destruct (save_audio_ok env data language w) as (url & w' & -> & Hs). eauto.
  - destruct (py_contains "audio_url" v) as [[] | e]; eauto with world.
Qed.

Lemma sarvam_handle_response_no_audio env language r v w :
  status_code r = 200 → body_json r = Some v → carries_audio v = false →
  ∃ res, SarvamTTS.handle_response env language r w = (res, w)
         ∧ (res = Ok JNull ∨ ∃ e, res = Raise e).
Proof.
  intros Hst Hbody Hno. unfold SarvamTTS.handle_response, response_json. run.
  apply Z.eqb_eq in Hst. rewrite Hst, Hbody.
  destruct v as [| b | n | nz | s | l | d]; cbn [py_contains]; eauto.
  - destruct (str_contains "audio" s); cbn [py_subscript]; [eauto |].
    destruct (str_contains "audio_url" s); eauto.
  - destruct (existsb (json_is_str "audio") l); cbn [py_subscript]; [eauto |].
    destruct (existsb (json_is_str "audio_url") l); eauto.
  - cbn [carries_audio] in Hno. apply orb_false_iff in Hno as [-> ->]. eauto.
Qed.

Lemma generate_speech_run env self text language voice w :
  let url := SarvamTTS.api_url self in
  let body := SarvamBody (SarvamTTS.build_payload self text language voice) in
  SarvamTTS.generate_speech env self text language voice w =
  if SarvamTTS.api_key_missing self then (Ok JNull, w)
  else match http_post env url body with
       | Raises _ => (Ok JNull, with_sent w (HttpPost url body))
       | Responds r =>
           match SarvamTTS.handle_response env language r (with_sent w (HttpPost url body)) with
           | (Ok audio, w') => (Ok audio, w')
           | (Raise _, w') => (Ok JNull, w')
           end
       end.
Proof.
  intros url body. unfold SarvamTTS.generate_speech.
  destruct (SarvamTTS.api_key_missing self); [reflexivity |].
  run. fold url body.
  destruct (http_post env url body) as [e | r]; [destruct e; reflexivity |].
  fold (with_sent w (HttpPost url body)).
  destruct (SarvamTTS.handle_response env language r _) as [[audio | e] w'];
    [reflexivity | destruct e; reflexivity].
Qed.

Lemma generate_speech_ok env self text language voice w :
  ∃ audio w', SarvamTTS.generate_speech env self text language voice w = (Ok audio, w')
              ∧ extends w w'.
Proof.
  rewrite generate_speech_run.
  destruct (SarvamTTS.api_key_missing self); [eauto with world |].
  destruct (http_post env _ _) as [e | r]; [eauto with world |].
  destruct (sarvam_handle_response_sessions env language r
              (with_sent w (HttpPost (SarvamTTS.api_url self)
                 (SarvamBody (SarvamTTS.build_payload self text language voice)))))
    as (res & w' & -> & Hs).
  assert (extends w w') by (eapply extends_trans; eauto with world).
  destruct res; eauto.
Qed.

(** C3: [generate_speech] never raises, and returns [None] when the API key
    is absent, when the request raises (a timeout or any other exception),
    when the status code is not 200, when the body of a 200 response is not
    JSON, and when it is JSON that carries neither [audio] nor [audio_url].
    Whenever it returns [None], the markup that [generate_response] and
    [generate_greeting_response] build starts with a [Say] of the message in
    the language's Twilio locale and holds no [Play]; the locale is hi-IN,
    te-IN, en-IN and ur-PK for hi, te, en and ur, and en-IN for any other
    tag. *)
Theorem synthesis_failure_falls_back_to_say
    env self message language voice end_call w :
  let tts := TwilioHandler.tts self in
  let url := SarvamTTS.api_url tts in
  let body := SarvamBody (SarvamTTS.build_payload tts message language voice) in
  let say := Say message (TwilioHandler._get_twilio_language language) in
  let listen := [ TwilioHandler.gather self language;
                  Redirect (py_str (TwilioHandler.server_url self) ++ "/voice/process") ] in
  (∃ audio w',
     SarvamTTS.generate_speech env tts message language voice w = (Ok audio, w')
     ∧ call_sessions w' = call_sessions w
     ∧ (SarvamTTS.api_key_missing tts = true → audio = JNull)
     ∧ (http_post env url body = Raises Timeout → audio = JNull)
     ∧ (∀ e, http_post env url body = Raises e → audio = JNull)
     ∧ (∀ r, http_post env url body = Responds r → status_code r ≠ 200 →
             audio = JNull)
     ∧ (∀ r v, http_post env url body = Responds r → status_code r = 200 →
               body_json r = Some v → carries_audio v = false → audio = JNull)
     ∧ (∀ r, http_post env url body = Responds r → status_code r = 200 →
             body_json r = None → audio = JNull))
  ∧ (∀ w', SarvamTTS.generate_speech env tts message language None w = (Ok JNull, w') →
       TwilioHandler.generate_response env self message language end_call w
         = (Ok (say :: if end_call then [Hangup] else listen), w')
       ∧ TwilioHandler.generate_greeting_response env self message language w
         = (Ok (say :: listen), w'))
  ∧ (language = "hi" → say = Say message "hi-IN")
  ∧ (language = "te" → say = Say message "te-IN")
  ∧ (language = "en" → say = Say message "en-IN")
  ∧ (language = "ur" → say = Say message "ur-PK")
  ∧ (language ∉ supported_languages → say = Say message "en-IN").
Proof.
  intros tts url body say listen. split; [| split].
  - destruct (generate_speech_ok env tts message language voice w)
      as (audio & w' & Hrun & Hs & _).
    exists audio, w'. split; [exact Hrun |]. split; [exact Hs |].
    rewrite generate_speech_run in Hrun. fold url body in Hrun.
    assert (Hexn : ∀ e, http_post env url body = Raises e → audio = JNull).
    { intros e Hout. destruct (SarvamTTS.api_key_missing tts); [congruence |].
      rewrite Hout in Hrun. congruence. }
    repeat split.
    + intros Hkey. rewrite Hkey in Hrun. congruence.
    + apply Hexn.
    + exact Hexn.
    + intros r Hout Hst. destruct (SarvamTTS.api_key_missing tts); [congruence |].
      rewrite Hout in Hrun. unfold SarvamTTS.handle_response in Hrun.
      apply Z.eqb_neq in Hst. rewrite Hst in Hrun. cbv [mret M_ret] in Hrun.
      congruence.
    + intros r v Hout Hst Hbody Hno.
      destruct (SarvamTTS.api_key_missing tts); [congruence |].
      rewrite Hout in Hrun.
      destruct (sarvam_handle_response_no_audio env language r v
                  (with_sent w (HttpPost url body)) Hst Hbody Hno)
        as (res & Hres & [-> | [e ->]]); rewrite Hres in Hrun; congruence.
    + intros r Hout Hst Hbody.
      destruct (SarvamTTS.api_key_missing tts); [congruence |].
      rewrite Hout in Hrun. unfold SarvamTTS.handle_response, response_json in Hrun.
      apply Z.eqb_eq in Hst. rewrite Hst, Hbody in Hrun.
      injection Hrun as <- _. reflexivity.
  - intros w' Hnone.
    unfold TwilioHandler.generate_response, TwilioHandler.generate_greeting_response.
    cbv [mbind M_bind]. fold tts. rewrite Hnone.
    destruct end_call; split; reflexivity.
  - unfold say, TwilioHandler._get_twilio_language, dict_get_default. repeat split.
    + intros ->. reflexivity.
    + intros ->. reflexivity.
    + intros ->. reflexivity.
    + intros ->. reflexivity.
    + intros Hout. rewrite dict_get_unknown by exact Hout. reflexivity.
Qed.

Lemma send_message_ok env self sender_id message language history w :
  let url := RasaHandler.webhook_url self in
  let body := RasaBody (RasaHandler.build_payload sender_id message language history) in
  ∃ reply,
    RasaHandler.send_message env self sender_id message language history w
      = (Ok reply, with_sent w (HttpPost url body)).
Proof.
  intros url body. rewrite send_message_run. fold url body.
  destruct (fallback_response_ok language) as [fb Hfb]. rewrite Hfb.
  destruct (http_post env url body) as [e | r]; [eauto |].
  destruct (RasaHandler.handle_response language r); eauto.
Qed.

Lemma generate_response_run env self message language end_call w :
  ∃ audio w',
    SarvamTTS.generate_speech env (TwilioHandler.tts self) message language None w
      = (Ok audio, w')
    ∧ extends w w'
    ∧ TwilioHandler.generate_response env self message language end_call w
      = (Ok ((if truthy audio then Play audio
              else Say message (TwilioHandler._get_twilio_language language))
             :: if end_call then [Hangup]
                else [ TwilioHandler.gather self language;
                       Redirect (py_str (TwilioHandler.server_url self)
                                 ++ "/voice/process") ]), w').
Proof.
  unfold TwilioHandler.generate_response. cbv [mbind M_bind mret M_ret].
  destruct (generate_speech_ok env (TwilioHandler.tts self) message language None w)
    as (audio & w' & -> & Hext).
  exists audio, w'. split; [reflexivity |]. split; [exact Hext |].
  destruct (truthy audio), end_call; reflexivity.
Qed.

Lemma generate_greeting_response_run env self message language w :
  ∃ audio w',
    SarvamTTS.generate_speech env (TwilioHandler.tts self) message language None w
      = (Ok audio, w')
    ∧ extends w w'
    ∧ TwilioHandler.generate_greeting_response env self message language w
      = (Ok [ if truthy audio then Play audio
              else Say message (TwilioHandler._get_twilio_language language);
              TwilioHandler.gather self language;
              Redirect (py_str (TwilioHandler.server_url self) ++ "/voice/process") ], w').
Proof.
  unfold TwilioHandler.generate_greeting_response. cbv [mbind M_bind mret M_ret].
  destruct (generate_speech_ok env (TwilioHandler.tts self) message language None w)
    as (audio & w' & -> & Hext).
  exists audio, w'. split; [reflexivity |]. split; [exact Hext |].
  destruct (truthy audio); reflexivity.
Qed.

(** Rendering the markup of a message: it fails exactly on a truthy audio
    that is not a string, and the error markup is then what is answered. *)
Lemma render_or_error self audio message language :
  let twiml := [ if truthy audio then Play audio
                 else Say message (TwilioHandler._get_twilio_language language);
                 TwilioHandler.gather self language;
                 Redirect (py_str (TwilioHandler.server_url self) ++ "/voice/process") ] in
  match str_twiml twiml with
  | Ok document => document = twiml ∧ answer_for self audio message language = twiml
  | Raise _ => answer_for self audio message language = error_markup
  end.
Proof.
  unfold answer_for, str_twiml.
  destruct (truthy audio) eqn:Haudio; [| split; reflexivity].
  destruct audio; cbn [forallb renders TwilioHandler.gather andb is_string];
    rewrite ?Haudio; cbn [negb]; try reflexivity; try discriminate Haudio.
  split; reflexivity.
Qed.

Lemma error_markup_renders :
  TwilioHandler.generate_error_response "hi" = Ok error_markup
  ∧ str_twiml error_markup = Ok error_markup.
Proof. split; reflexivity. Qed.

Lemma build_payload_history sender_id message language (h : list turn) :
  RasaHandler.build_payload sender_id message language (Some h)
    = {| sender := sender_id;
         message := message;
         metadata_language := language;
         metadata_conversation_history := h |}.
Proof. destruct h; reflexivity. Qed.

Lemma process_speech_absent env app request_form w :
  call_sessions w !! App.form_get request_form "CallSid" = None →
  App.process_speech env app request_form w
    = (Ok (Response [ Say "क्षमा करें, कुछ गलत हो गया। कृपया बाद में पुनः प्रयास करें।" "hi-IN";
                      Hangup ] "text/xml"), w).
Proof.
  intros Hnone. unfold App.process_speech, App.get_call_sessions. run.
  rewrite Hnone. reflexivity.
Qed.

(** A speech turn on an existing session, step by step: the request to
    Rasa, the append, the synthesis of the reply, the answer *)
Lemma process_speech_present env app request_form w s :
  let call_sid := App.form_get request_form "CallSid" in
  let speech_result := default "" (App.form_get request_form "SpeechResult") in
  let url := RasaHandler.webhook_url (App.rasa_handler app) in
  let body := RasaBody {| sender := call_sid;
                          message := speech_result;
                          metadata_language := language s;
                          metadata_conversation_history := conversation_history s |} in
  call_sessions w !! call_sid = Some s →
  ∃ reply audio w',
    RasaHandler.send_message env (App.rasa_handler app) call_sid speech_result
        (language s) (Some (conversation_history s)) w
      = (Ok reply, with_sent w (HttpPost url body))
    ∧ SarvamTTS.generate_speech env (TwilioHandler.tts (App.twilio_handler app))
        reply (language s) None
        {| call_sessions :=
             <[call_sid := App.add_turn {| user := speech_result; bot := reply |} s]>
               (call_sessions w);
           sent := sent w ++ [HttpPost url body] |}
      = (Ok audio, w')
    ∧ App.process_speech env app request_form w
      = (Ok (Response (answer_for (App.twilio_handler app) audio reply (language s))
                      "text/xml"), w')
    ∧ call_sessions w'
      = <[call_sid := App.add_turn {| user := speech_result; bot := reply |} s]>
          (call_sessions w)
    ∧ ∃ evs, sent w' = (sent w ++ HttpPost url body :: evs)%list.
Proof.
  intros call_sid speech_result url body Hs.
  destruct (send_message_ok env (App.rasa_handler app) call_sid speech_result
              (language s) (Some (conversation_history s)) w) as [reply Hsend].
  rewrite build_payload_history in Hsend. fold url body in Hsend.
  unfold App.process_speech, App.get_call_sessions. run.
  fold call_sid speech_result. rewrite Hs, Hsend.
  unfold App.append_history, App.get_call_sessions, App.put_call_sessions. run.
  cbn [call_sessions sent with_sent].
  set (t := {| user := speech_result; bot := reply |}).
  assert (alter (App.add_turn t) call_sid (call_sessions w)
          = <[call_sid := App.add_turn t s]> (call_sessions w)) as ->.
  { apply map_eq. intros k. rewrite lookup_alter, lookup_insert.
    repeat case_decide; subst; try done. rewrite Hs. reflexivity. }
  set (w1 := {| call_sessions := <[call_sid := App.add_turn t s]> (call_sessions w);
                sent := sent w ++ [HttpPost url body] |}).
  destruct (generate_response_run env (App.twilio_handler app) reply (language s) false w1)
    as (audio & w' & Hspeech & [Hstore (evs & Hsent)] & ->).
  exists reply, audio, w'. split; [reflexivity |]. split; [exact Hspeech |].
  cbn [call_sessions sent w1] in Hstore, Hsent.
  split; [| split; [exact Hstore |
                    exists evs; rewrite Hsent, <- app_assoc; reflexivity]].
  pose proof (render_or_error (App.twilio_handler app) audio reply (language s)) as Hrender.
  cbv zeta in Hrender.
  destruct (str_twiml _) as [document | e].
  - destruct Hrender as [-> ->]. reflexivity.
  - rewrite Hrender. reflexivity.
Qed.

(** ** Call start *)

(** A call start, step by step: the session set, the greeting synthesised,
    the answer *)
Lemma incoming_call_run env app request_form w :
  let call_sid := App.form_get request_form "CallSid" in
  let lang := default (getenv_default env "DEFAULT_LANGUAGE" "hi")
                      (App.form_get request_form "language") in
  let fresh := {| from_number := App.form_get request_form "From";
                  language := lang;
                  conversation_history := [] |} in
  ∃ greeting audio w',
    RasaHandler.get_initial_greeting call_sid lang = Ok greeting
    ∧ SarvamTTS.generate_speech env (TwilioHandler.tts (App.twilio_handler app))
        greeting lang None
        {| call_sessions := <[call_sid := fresh]> (call_sessions w); sent := sent w |}
      = (Ok audio, w')
    ∧ App.incoming_call env app request_form w
      = (Ok (Response (answer_for (App.twilio_handler app) audio greeting lang)
                      "text/xml"), w')
    ∧ call_sessions w' = <[call_sid := fresh]> (call_sessions w).
Proof.
  intros call_sid lang fresh.
  unfold App.incoming_call, App.set_session, App.get_call_sessions, App.put_call_sessions.
  run. fold call_sid lang fresh.
  assert (∃ greeting, RasaHandler.get_initial_greeting call_sid lang = Ok greeting)
    as [greeting Hg] by (eexists; reflexivity).
  rewrite Hg.
  set (w1 := {| call_sessions := <[call_sid := fresh]> (call_sessions w); sent := sent w |}).
  destruct (generate_greeting_response_run env (App.twilio_handler app) greeting lang w1)
    as (audio & w' & Hspeech & [Hstore _] & ->).
  exists greeting, audio, w'. split; [reflexivity |]. split; [exact Hspeech |].
  split; [| exact Hstore].
  pose proof (render_or_error (App.twilio_handler app) audio greeting lang) as Hrender.
  cbv zeta in Hrender.
  destruct (str_twiml _) as [document | e].
  - destruct Hrender as [-> ->]. reflexivity.
  - rewrite Hrender. reflexivity.
Qed.

(** What [answer_for] is, case by case *)
Lemma answer_for_cases self audio message language :
  let listen := [ TwilioHandler.gather self language;
                  Redirect (py_str (TwilioHandler.server_url self) ++ "/voice/process") ] in
  (truthy audio = false →
     answer_for self audio message language
     = Say message (TwilioHandler._get_twilio_language language) :: listen)
  ∧ (∀ u, audio = JStr u → u ≠ "" →
       answer_for self audio message language = Play (JStr u) :: listen)
  ∧ (truthy audio = true → is_string audio = false →
       answer_for self audio message language = error_markup).
Proof.
  unfold answer_for. split; [| split].
  - intros ->. reflexivity.
  - intros u -> Hu. cbn [truthy is_string]. apply String.eqb_neq in Hu. rewrite Hu.
    reflexivity.
  - intros -> ->. reflexivity.
Qed.

(** The three shapes of an answer built by [answer_for] *)
Lemma answered_cases (run : result flask_response * world) self audio message language w' :
  let listen := [ TwilioHandler.gather self language;
                  Redirect (py_str (TwilioHandler.server_url self) ++ "/voice/process") ] in
  run = (Ok (Response (answer_for self audio message language) "text/xml"), w') →
  (truthy audio = false →
     run = (Ok (Response (Say message (TwilioHandler._get_twilio_language language)
                          :: listen) "text/xml"), w'))
  ∧ (∀ u, audio = JStr u → u ≠ "" →
       run = (Ok (Response (Play (JStr u) :: listen) "text/xml"), w'))
  ∧ (truthy audio = true → is_string audio = false →
       run = (Ok (Response error_markup "text/xml"), w')).
Proof.
  intros listen ->.
  destruct (answer_for_cases self audio message language) as (Hsay & Hplay & Herr).
  split; [| split].
  - intros H. rewrite (Hsay H). reflexivity.
  - intros u Hu Hne. rewrite (Hplay u Hu Hne). reflexivity.
  - intros Ht Hs. rewrite (Herr Ht Hs). reflexivity.
Qed.


(** The locale of a [Say]: the entry of the language in the table of
    Twilio locales, en-IN for a tag without one *)
Lemma twilio_language_pinned language :
  dict_get TwilioHandler.language_map language
  = Some (TwilioHandler._get_twilio_language language)
  ∨ (dict_get TwilioHandler.language_map language = None
     ∧ TwilioHandler._get_twilio_language language = "en-IN").
Proof.
  unfold TwilioHandler._get_twilio_language, dict_get_default.
  destruct (dict_get TwilioHandler.language_map language); [left | right]; auto.
Qed.




(** ** Speech turns *)



(** C7: a speech turn on an existing session is answered with a markup and
    appends the pair of the utterance and the reply that [send_message]
    returned: the history keeps every earlier pair at its index, gains the
    new pair at the end and grows by one; the caller number and the language
    of the session, and every other session, stay as they were. *)
Theorem process_speech_appends_turn env app request_form w s :
  let call_sid := App.form_get request_form "CallSid" in
  let speech_result := default "" (App.form_get request_form "SpeechResult") in
  call_sessions w !! call_sid = Some s →
  ∃ reply twiml w' s',
    fst (RasaHandler.send_message env (App.rasa_handler app) call_sid speech_result
           (language s) (Some (conversation_history s)) w) = Ok reply
    ∧ App.process_speech env app request_form w = (Ok (Response twiml "text/xml"), w')
    ∧ call_sessions w' !! call_sid = Some s'
    ∧ conversation_history s'
      = (conversation_history s ++ [ {| user := speech_result; bot := reply |} ])%list
    ∧ length (conversation_history s') = S (length (conversation_history s))
    ∧ (∀ i t, conversation_history s !! i = Some t → conversation_history s' !! i = Some t)
    ∧ conversation_history s' !! length (conversation_history s)
      = Some {| user := speech_result; bot := reply |}
    ∧ from_number s' = from_number s
    ∧ language s' = language s
    ∧ ∀ other, other ≠ call_sid → call_sessions w' !! other = call_sessions w !! other.
Proof.
  intros call_sid speech_result Hs.
  destruct (process_speech_present env app request_form w s Hs)
    as (reply & audio & w' & Hsend & _ & Hrun & Hstore & _).
  fold call_sid speech_result in Hsend, Hstore.
  eexists reply, _, w', (App.add_turn {| user := speech_result; bot := reply |} s).
  split; [rewrite Hsend; reflexivity |]. split; [exact Hrun |].
  rewrite Hstore. cbn [App.add_turn conversation_history from_number language].
  split; [apply lookup_insert_eq |]. split; [reflexivity |].
  split; [rewrite length_app; cbn [length]; lia |].
  split; [intros i t Hi; apply lookup_app_l_Some; exact Hi |].
  split; [apply list_lookup_middle; reflexivity |].
  split; [reflexivity |]. split; [reflexivity |].
  intros other Hne. apply lookup_insert_ne. congruence.
Qed.

(** The statement above on the second turn of the sample call *)
Lemma process_speech_appends_turn_witness :
  call_sessions Sample.active !! App.form_get Sample.turn_hello "CallSid" = Some Sample.caller
  ∧ ∃ reply twiml w' s',
      fst (RasaHandler.send_message Sample.online (RasaHandler.init Sample.online)
             (Some "CA1") "hello" "en" (Some (conversation_history Sample.caller))
             Sample.active) = Ok reply
      ∧ App.process_speech Sample.online (Sample.app Sample.online)
                           Sample.turn_hello Sample.active
        = (Ok (Response twiml "text/xml"), w')
      ∧ call_sessions w' !! Some "CA1" = Some s'
      ∧ conversation_history s'
        = [ {| user := "hello"; bot := "Hi there" |}; {| user := "hello"; bot := reply |} ]
      ∧ length (conversation_history s') = 2%nat
      ∧ (∀ i t, conversation_history Sample.caller !! i = Some t →
                conversation_history s' !! i = Some t)
      ∧ conversation_history s' !! 1%nat = Some {| user := "hello"; bot := reply |}
      ∧ from_number s' = Some "+911234567890"
      ∧ language s' = "en"
      ∧ ∀ other, other ≠ Some "CA1" → call_sessions w' !! other
                                       = call_sessions Sample.active !! other.
Proof.
  split; [reflexivity |].
  apply (process_speech_appends_turn Sample.online (Sample.app Sample.online)
           Sample.turn_hello Sample.active Sample.caller).
  reflexivity.
Defined.

(** C10: a speech-turn event on an existing session whose form has no
    SpeechResult is an ordinary turn with the empty utterance.  The first
    request it sends is the Rasa request, with the empty message and the
    history of the session; the pair of the empty utterance and the reply is
    appended to the history; the reply is then synthesised and the turn
    answered like any other: the reply said when synthesis gave nothing or
    played when it gave a URL, then the listen and redirect instructions.
    Only when synthesis gave a truthy value that is not a string, which
    cannot be rendered, is the error markup answered, the pair having been
    appended all the same.  The locale of the reply is the entry of the
    session's language in the table of Twilio locales, and en-IN for a tag
    without one. *)
Theorem process_speech_without_speech_result env app request_form w s :
  let call_sid := App.form_get request_form "CallSid" in
  let url := RasaHandler.webhook_url (App.rasa_handler app) in
  let body := RasaBody {| sender := call_sid;
                          message := "";
                          metadata_language := language s;
                          metadata_conversation_history := conversation_history s |} in
  let self := App.twilio_handler app in
  let listen := [ TwilioHandler.gather self (language s);
                  Redirect (py_str (TwilioHandler.server_url self) ++ "/voice/process") ] in
  let run := App.process_speech env app request_form w in
  call_sessions w !! call_sid = Some s →
  App.form_get request_form "SpeechResult" = None →
  ∃ reply audio w',
    RasaHandler.send_message env (App.rasa_handler app) call_sid ""
        (language s) (Some (conversation_history s)) w
      = (Ok reply, with_sent w (HttpPost url body))
    ∧ SarvamTTS.generate_speech env (TwilioHandler.tts self) reply (language s) None
        {| call_sessions :=
             <[call_sid := App.add_turn {| user := ""; bot := reply |} s]> (call_sessions w);
           sent := sent w ++ [HttpPost url body] |}
      = (Ok audio, w')
    ∧ (truthy audio = false →
         run = (Ok (Response (Say reply (TwilioHandler._get_twilio_language (language s))
                              :: listen) "text/xml"), w'))
    ∧ (∀ u, audio = JStr u → u ≠ "" →
         run = (Ok (Response (Play (JStr u) :: listen) "text/xml"), w'))
    ∧ (truthy audio = true → is_string audio = false →
         run = (Ok (Response error_markup "text/xml"), w'))
    ∧ snd run = w'
    ∧ (∃ evs, sent w' = (sent w ++ HttpPost url body :: evs)%list)
    ∧ call_sessions w' !! call_sid
      = Some {| from_number := from_number s;
                language := language s;
                conversation_history :=
                  conversation_history s ++ [ {| user := ""; bot := reply |} ] |}
    ∧ (dict_get TwilioHandler.language_map (language s)
       = Some (TwilioHandler._get_twilio_language (language s))
       ∨ (dict_get TwilioHandler.language_map (language s) = None
          ∧ TwilioHandler._get_twilio_language (language s) = "en-IN")).
Proof.
  intros call_sid url body self listen run Hs Hsilent.
  destruct (process_speech_present env app request_form w s Hs)
    as (reply & audio & w' & Hsend & Hspeech & Hrun & Hstore & Hsent).
  fold call_sid in Hsend, Hspeech, Hstore, Hsent.
  rewrite Hsilent in Hsend, Hspeech, Hstore, Hsent.
  cbn [default] in Hsend, Hspeech, Hstore, Hsent.
  fold url body in Hsend, Hspeech, Hsent. fold self in Hspeech, Hrun. fold run in Hrun.
  exists reply, audio, w'. split; [exact Hsend |]. split; [exact Hspeech |].
  destruct (answered_cases run self audio reply (language s) w' Hrun) as (Hsay & Hplay & Herr).
  split; [exact Hsay |]. split; [exact Hplay |]. split; [exact Herr |].
  split; [rewrite Hrun; reflexivity |]. split; [exact Hsent |].
  split; [rewrite Hstore; apply lookup_insert_eq | apply twilio_language_pinned].
Qed.

(** The statement above on a silent turn of the sample call, Rasa timing
    out and synthesis not configured *)
Lemma process_speech_without_speech_result_witness :
  call_sessions Sample.active !! App.form_get Sample.turn_silent "CallSid" = Some Sample.caller
  ∧ App.form_get Sample.turn_silent "SpeechResult" = None
  ∧ ∃ reply w',
      RasaHandler.send_message Sample.offline (RasaHandler.init Sample.offline)
          (Some "CA1") "" "en" (Some [ {| user := "hello"; bot := "Hi there" |} ])
          Sample.active
        = (Ok reply,
           with_sent Sample.active
             (HttpPost "http://localhost:5005/webhooks/rest/webhook"
                (RasaBody {| sender := Some "CA1";
                             message := "";
                             metadata_language := "en";
                             metadata_conversation_history :=
                               [ {| user := "hello"; bot := "Hi there" |} ] |})))
      ∧ App.process_speech Sample.offline (Sample.app Sample.offline)
                           Sample.turn_silent Sample.active
        = (Ok (Response [ Say reply "en-IN";
                          TwilioHandler.gather (Sample.twilio Sample.offline) "en";
                          Redirect "None/voice/process" ] "text/xml"), w')
      ∧ (∃ evs, sent w'
                = HttpPost "http://localhost:5005/webhooks/rest/webhook"
                    (RasaBody {| sender := Some "CA1";
                                 message := "";
                                 metadata_language := "en";
                                 metadata_conversation_history :=
                                   [ {| user := "hello"; bot := "Hi there" |} ] |}) :: evs)
      ∧ call_sessions w' !! Some "CA1"
        = Some {| from_number := Some "+911234567890";
                  language := "en";
                  conversation_history :=
                    [ {| user := "hello"; bot := "Hi there" |};
                      {| user := ""; bot := reply |} ] |}.
Proof.
  split; [reflexivity |]. split; [reflexivity |].
  destruct (process_speech_without_speech_result Sample.offline (Sample.app Sample.offline)
              Sample.turn_silent Sample.active Sample.caller eq_refl eq_refl)
    as (reply & audio & w' & Hsend & Hspeech & Hsay & _ & _ & _ & Hsent & Hnew & _).
  assert (audio = JNull) as ->.
  { unfold SarvamTTS.generate_speech in Hspeech. cbn [SarvamTTS.api_key_missing] in Hspeech.
    injection Hspeech as Haudio _. symmetry. exact Haudio. }
  exists reply, w'. split; [exact Hsend |]. split; [exact (Hsay eq_refl) |].
  split; [exact Hsent | exact Hnew].
Defined.

(** ** Status callbacks *)

Lemma is_terminal_spec (status : option string) :
  App.is_terminal status = true
  ↔ ∃ st, status = Some st ∧ st ∈ [ "completed"; "failed"; "busy"; "no-answer" ].
Proof.
  unfold App.is_terminal. destruct status as [st |].
  - rewrite existsb_exists. split.
    + intros (x & Hin & Heq). apply String.eqb_eq in Heq. subst x.
      exists st. split; [reflexivity |]. apply list_elem_of_In. exact Hin.
    + intros (x & [= <-] & Hin). exists st.
      split; [apply list_elem_of_In; exact Hin | apply String.eqb_refl].
  - split; [discriminate | intros (x & Hx & _); discriminate].
Qed.

Lemma call_status_run request_form w :
  App.call_status request_form w
  = (Ok (JsonReply [("status", JStr "received")] 200),
     if App.is_terminal (App.form_get request_form "CallStatus")
     then {| call_sessions := delete (App.form_get request_form "CallSid") (call_sessions w);
             sent := sent w |}
     else w).
Proof.
  unfold App.call_status, App.del_session, App.get_call_sessions, App.put_call_sessions.
  run. destruct (App.is_terminal _); [| reflexivity].
  destruct (call_sessions w !! App.form_get request_form "CallSid") as [s |] eqn:Hs.
  - rewrite bool_decide_eq_true_2 by eauto. rewrite Hs. reflexivity.
  - rewrite bool_decide_eq_false_2 by (intros [? ?]; discriminate).
    rewrite delete_id by exact Hs. destruct w; reflexivity.
Qed.

(** C6: a status callback is always answered with the acknowledgment
    [{'status': 'received'}], 200, never with a markup, and sends nothing.
    When the status is one of completed, failed, busy, no-answer and the
    CallSid has a session, that session is removed and no other: looking the
    CallSid up afterwards finds nothing, and a later speech turn for it gets
    the error markup.  When the status is terminal and the CallSid has no
    session, or when the status is not terminal, the state stays as it
    was. *)
Theorem call_status_cleans_up request_form w :
  let call_sid := App.form_get request_form "CallSid" in
  let status := App.form_get request_form "CallStatus" in
  let terminal :=
    ∃ st, status = Some st ∧ st ∈ [ "completed"; "failed"; "busy"; "no-answer" ] in
  ∃ w',
    App.call_status request_form w
      = (Ok (JsonReply [("status", JStr "received")] 200), w')
    ∧ sent w' = sent w
    ∧ (terminal → is_Some (call_sessions w !! call_sid) →
         call_sessions w' !! call_sid = None
         ∧ (∀ other, other ≠ call_sid →
                     call_sessions w' !! other = call_sessions w !! other)
         ∧ ∀ env app later,
             App.form_get later "CallSid" = call_sid →
             ∃ error_msg,
               App.process_speech env app later w'
               = (Ok (Response [ Say error_msg "hi-IN"; Hangup ] "text/xml"), w'))
    ∧ (terminal → call_sessions w !! call_sid = None → w' = w)
    ∧ (¬ terminal → w' = w).
Proof.
  intros call_sid status terminal. rewrite call_status_run. fold call_sid status.
  eexists. split; [reflexivity |].
  destruct (App.is_terminal status) eqn:Hterm.
  - cbn [sent call_sessions]. split; [reflexivity |].
    split; [| split].
    + intros _ _. split; [apply lookup_delete_eq |].
      split; [intros other Hne; apply lookup_delete_ne; congruence |].
      intros env app later Hlater. eexists.
      apply process_speech_absent. cbn [call_sessions]. rewrite Hlater.
      apply lookup_delete_eq.
    + intros _ Hnone. rewrite delete_id by exact Hnone. destruct w; reflexivity.
    + intros Hnot. exfalso. apply Hnot. apply is_terminal_spec. exact Hterm.
  - split; [reflexivity |]. split; [| split; reflexivity].
    intros Ht. apply is_terminal_spec in Ht. congruence.
Qed.

(** The statement above on the completion of the sample call *)
Lemma call_status_cleans_up_witness :
  (∃ st, App.form_get Sample.completed "CallStatus" = Some st
         ∧ st ∈ [ "completed"; "failed"; "busy"; "no-answer" ])
  ∧ is_Some (call_sessions Sample.active !! App.form_get Sample.completed "CallSid")
  ∧ ∃ w',
      App.call_status Sample.completed Sample.active
        = (Ok (JsonReply [("status", JStr "received")] 200), w')
      ∧ call_sessions w' !! Some "CA1" = None.
Proof.
  assert (∃ st, App.form_get Sample.completed "CallStatus" = Some st
                ∧ st ∈ [ "completed"; "failed"; "busy"; "no-answer" ]) as Hterm.
  { exists "completed". split; [reflexivity | apply list_elem_of_here]. }
  assert (is_Some (call_sessions Sample.active !! App.form_get Sample.completed "CallSid"))
    as Hsome by (exists Sample.caller; reflexivity).
  split; [exact Hterm |]. split; [exact Hsome |].
  destruct (call_status_cleans_up Sample.completed Sample.active)
    as (w' & Hrun & _ & Hdel & _).
  exists w'. split; [exact Hrun |].
  exact (proj1 (Hdel Hterm Hsome)).
Defined.

(** ** Health *)

Lemma check_health_run env self w :
  let url := RasaHandler.rasa_url self ++ "/status" in
  RasaHandler.check_health env self w
  = (Ok match http_get env url with
        | Raises _ => false
        | Responds r => status_code r =? 200
        end, with_sent w (HttpGet url)).
Proof.
  intros url. unfold RasaHandler.check_health. run. fold url.
  destruct (http_get env url); reflexivity.
Qed.

(** C9 (as the code has it): the health endpoint answers 200 with an object
    whose keys are exactly status, rasa_status and twilio_status.  status is
    the constant 'healthy'; rasa_status is a boolean, true exactly when the
    Rasa status URL answers with code 200; twilio_status is the constant
    'connected'.  The sessions are not touched. *)
Theorem health_reports_rasa_and_twilio env app w :
  let url := RasaHandler.rasa_url (App.rasa_handler app) ++ "/status" in
  ∃ rasa_up reply,
    App.health env app w = (Ok reply, with_sent w (HttpGet url))
    ∧ reply = JsonReply [ ("status", JStr "healthy");
                          ("rasa_status", JBool rasa_up);
                          ("twilio_status", JStr "connected") ] 200
    ∧ reply_keys reply = [ "status"; "rasa_status"; "twilio_status" ]
    ∧ (rasa_up = true ↔ ∃ r, http_get env url = Responds r ∧ status_code r = 200).
Proof.
  intros url. unfold App.health. cbv [mbind M_bind mret M_ret].
  rewrite check_health_run. fold url.
  eexists _, _. split; [reflexivity |]. split; [reflexivity |]. split; [reflexivity |].
  destruct (http_get env url) as [e | r].
  - split; [discriminate | intros (r & Hr & _); discriminate].
  - rewrite Z.eqb_eq. split; [eauto |]. intros (r' & [= <-] & Hst). exact Hst.
Qed.

(** The statement above with Rasa up *)
Lemma health_reports_rasa_and_twilio_witness :
  ∃ rasa_up reply,
    App.health Sample.online (Sample.app Sample.online) Sample.idle
      = (Ok reply, with_sent Sample.idle (HttpGet "http://localhost:5005/status"))
    ∧ reply = JsonReply [ ("status", JStr "healthy");
                          ("rasa_status", JBool rasa_up);
                          ("twilio_status", JStr "connected") ] 200
    ∧ reply_keys reply = [ "status"; "rasa_status"; "twilio_status" ]
    ∧ (rasa_up = true
       ↔ ∃ r, http_get Sample.online "http://localhost:5005/status" = Responds r
              ∧ status_code r = 200).
Proof.
  exact (health_reports_rasa_and_twilio Sample.online (Sample.app Sample.online) Sample.idle).
Defined.

(** C9 (as stated) fails: with Rasa up, the keys of the health reply are
    status, rasa_status and twilio_status; neither nlu_status nor tts_status
    is among them, and nothing was asked of the speech-synthesis provider. *)
Lemma health_keys_counterexample :
  let run := App.health Sample.online (Sample.app Sample.online) Sample.idle in
  fst run = Ok (JsonReply [ ("status", JStr "healthy");
                            ("rasa_status", JBool true);
                            ("twilio_status", JStr "connected") ] 200)
  ∧ (∀ reply, fst run = Ok reply →
       reply_keys reply ≠ [ "status"; "nlu_status"; "tts_status" ]
       ∧ ("nlu_status" ∉ reply_keys reply)
       ∧ ("tts_status" ∉ reply_keys reply))
  ∧ sent (snd run) = [ HttpGet "http://localhost:5005/status" ].
Proof.
  cbv zeta. split; [reflexivity |]. split; [| reflexivity].
  intros reply [= <-]. cbn [reply_keys map fst].
  split; [discriminate |].
  split; intros Hin; apply list_elem_of_In in Hin; cbn in Hin;
    repeat destruct Hin as [Hin | Hin]; try discriminate; exact Hin.
Qed.

(** ** Language lookups *)

Lemma resolve_unsupported tts language :
  language ∉ supported_languages →
  resolve tts language
  = Ok {| greeting_text := "Hello! I am here to assist you. How may I help you today?";
          fallback_text := "Sorry, I did not understand that. Could you please repeat?";
          error_text := "Sorry, something went wrong. Please try again later.";
          speech_hints := "";
          synthesis_voice := SarvamTTS.default_voice tts;
          recognition_locale := "en-IN";
          synthesis_language_code := "hi-IN" |}.
Proof.
  intros Hl. unfold resolve, RasaHandler.get_initial_greeting,
    RasaHandler._get_fallback_response, TwilioHandler.error_message,
    TwilioHandler._get_speech_hints, SarvamTTS._get_voice_for_language,
    TwilioHandler._get_twilio_language, SarvamTTS._get_sarvam_language_code,
    dict_get_default.
  rewrite !(dict_get_unknown _ language) by exact Hl. reflexivity.
Qed.

(** C4 (as the code has it): the lookups never fail.  For a tag outside
    hi, te, en, ur the greeting, fallback and error texts are the English
    ones, the recognition locale is en-IN, the speech hints are empty and
    the voice is the configured default voice.  For a tag among hi, te, en,
    ur every artifact is the entry of that tag in its table, and none is
    empty. *)
Theorem resolve_total tts language :
  ∃ p,
    resolve tts language = Ok p
    ∧ (language ∉ supported_languages →
         dict_get RasaHandler.greetings "en" = Some (greeting_text p)
         ∧ dict_get RasaHandler.fallback_messages "en" = Some (fallback_text p)
         ∧ dict_get TwilioHandler.error_messages "en" = Some (error_text p)
         ∧ recognition_locale p = "en-IN"
         ∧ speech_hints p = ""
         ∧ synthesis_voice p = SarvamTTS.default_voice tts)
    ∧ (language ∈ supported_languages →
         dict_get RasaHandler.greetings language = Some (greeting_text p)
         ∧ dict_get RasaHandler.fallback_messages language = Some (fallback_text p)
         ∧ dict_get TwilioHandler.error_messages language = Some (error_text p)
         ∧ dict_get TwilioHandler.hints_map language = Some (speech_hints p)
         ∧ dict_get SarvamTTS.voice_map language = Some (synthesis_voice p)
         ∧ dict_get TwilioHandler.language_map language = Some (recognition_locale p)
         ∧ dict_get SarvamTTS.language_map language = Some (synthesis_language_code p)
         ∧ complete p).
Proof.
  destruct (decide (language ∈ supported_languages)) as [Hin | Hout].
  - assert (∃ p, resolve tts language = Ok p) as [p Hp] by (eexists; reflexivity).
    exists p. split; [exact Hp |]. split; [done |]. intros _.
    unfold supported_languages in Hin.
    repeat (apply elem_of_cons in Hin as [-> | Hin]);
      [ | | | | apply elem_of_nil in Hin; done ];
      injection Hp as <-; unfold complete; cbn; repeat split; discriminate.
  - rewrite (resolve_unsupported tts language Hout).
    eexists. split; [reflexivity |]. split; [| done].
    intros _. cbn. repeat split.
Qed.

(** The statement above on the tags fr and te *)
Lemma resolve_total_witness :
  ("fr" ∉ supported_languages) ∧ ("te" ∈ supported_languages)
  ∧ (∃ p, resolve (SarvamTTS.attributes Sample.offline) "fr" = Ok p
          ∧ recognition_locale p = "en-IN" ∧ speech_hints p = ""
          ∧ synthesis_voice p = "meera")
  ∧ (∃ p, resolve (SarvamTTS.attributes Sample.offline) "te" = Ok p
          ∧ dict_get TwilioHandler.language_map "te" = Some (recognition_locale p)
          ∧ complete p).
Proof.
  assert ("fr" ∉ supported_languages) as Hfr
    by (unfold supported_languages; rewrite !not_elem_of_cons;
        repeat split; try discriminate; apply not_elem_of_nil).
  assert ("te" ∈ supported_languages) as Hte by (repeat constructor).
  split; [exact Hfr |]. split; [exact Hte |]. split.
  - destruct (resolve_total (SarvamTTS.attributes Sample.offline) "fr") as (p & Hp & Hun & _).
    exists p. split; [exact Hp |].
    destruct (Hun Hfr) as (_ & _ & _ & Hloc & Hhints & Hvoice). auto.
  - destruct (resolve_total (SarvamTTS.attributes Sample.offline) "te") as (p & Hp & _ & Hsup).
    exists p. split; [exact Hp |].
    destruct (Hsup Hte) as (_ & _ & _ & _ & _ & Hloc & _ & Hc). auto.
Defined.

(** C4 (as stated) fails: for the tag fr the lookups succeed, but the
    result is the profile of no supported language.  The texts are the
    English ones and the recognition locale is en-IN, while the synthesis
    language code is hi-IN and the speech hints are empty. *)
Lemma resolve_unsupported_counterexample :
  let tts := SarvamTTS.attributes Sample.offline in
  ("fr" ∉ supported_languages)
  ∧ Forall (λ d, resolve tts "fr" ≠ resolve tts d) supported_languages
  ∧ (∃ p, resolve tts "fr" = Ok p
          ∧ ¬ complete p
          ∧ Some (greeting_text p) = dict_get RasaHandler.greetings "en"
          ∧ recognition_locale p = "en-IN"
          ∧ synthesis_language_code p = "hi-IN"
          ∧ speech_hints p = "").
Proof.
  cbv zeta. split.
  { unfold supported_languages. rewrite !not_elem_of_cons.
    repeat split; try discriminate. apply not_elem_of_nil. }
  split.
  - unfold supported_languages.
    repeat (apply Forall_cons; split; [intros H; vm_compute in H; discriminate H |]).
    apply Forall_nil. exact I.
  - eexists. split; [reflexivity |]. split; [| repeat split].
    intros (_ & _ & _ & Hhints & _). apply Hhints. reflexivity.
Qed.

(** ** The statements at work on the sample data *)

(** [send_message] on a timeout *)
Lemma send_message_never_raises_witness :
  http_post Sample.offline (RasaHandler.webhook_url (RasaHandler.init Sample.offline))
            (RasaBody (RasaHandler.build_payload (Some "CA1") "hello" "en" None))
    = Raises Timeout
  ∧ fst (RasaHandler.send_message Sample.offline (RasaHandler.init Sample.offline)
           (Some "CA1") "hello" "en" None Sample.idle)
    = Ok "Sorry, I did not understand that. Could you please repeat?".
Proof.
  split; [reflexivity |].
  destruct (send_message_never_raises Sample.offline (RasaHandler.init Sample.offline)
              (Some "CA1") "hello" "en" None Sample.idle)
    as (reply & Hrun & Htimeout & _ & _ & _ & _ & fallback & Hfallback & _ & _ & _ & Hen & _).
  rewrite Hrun. cbn [fst].
  rewrite <- (Hen eq_refl), <- Hfallback. symmetry. apply Htimeout. reflexivity.
Defined.

(** [send_message] on the three sample fragments *)
Lemma send_message_joins_fragments_witness :
  SampleReplies.fragments ≠ []
  ∧ Forall well_typed_fragment SampleReplies.fragments
  ∧ fst (RasaHandler.send_message Sample.online (RasaHandler.init Sample.online)
           (Some "CA1") "hello" "en" None Sample.idle)
    = Ok "Hi there How can I help?".
Proof.
  assert (Forall well_typed_fragment SampleReplies.fragments) as Hty.
  { repeat (apply Forall_cons; split;
            [intros v Hv; cbn in Hv; first [discriminate Hv | injection Hv as <-; eauto] |]).
    apply Forall_nil. exact I. }
  split; [discriminate |]. split; [exact Hty |].
  rewrite (send_message_joins_fragments Sample.online (RasaHandler.init Sample.online)
             (Some "CA1") "hello" "en" None Sample.idle
             SampleReplies.rasa_response SampleReplies.fragments);
    [reflexivity | reflexivity | reflexivity | reflexivity | discriminate | exact Hty].
Defined.

(** [generate_speech] on a response without audio, and the markup built
    without an API key *)
Lemma synthesis_failure_falls_back_to_say_witness :
  (∃ audio w',
     SarvamTTS.generate_speech Sample.online (SarvamTTS.attributes Sample.online)
                               "Hi there" "en" None Sample.idle = (Ok audio, w')
     ∧ SarvamTTS.api_key_missing (SarvamTTS.attributes Sample.online) = false
     ∧ audio = JNull)
  ∧ TwilioHandler.generate_response Sample.offline (Sample.twilio Sample.offline)
                                    "Hi there" "en" false Sample.idle
    = (Ok [ Say "Hi there" "en-IN";
            TwilioHandler.gather (Sample.twilio Sample.offline) "en";
            Redirect "None/voice/process" ], Sample.idle).
Proof.
  split.
  - destruct (synthesis_failure_falls_back_to_say Sample.online (Sample.twilio Sample.online)
                "Hi there" "en" None false Sample.idle)
      as [(audio & w' & Hrun & _ & _ & _ & _ & _ & Hno & _) _].
    exists audio, w'. split; [exact Hrun |]. split; [reflexivity |].
    apply (Hno {| status_code := 200; body_json := Some (JObj [("request_id", JStr "r1")]) |}
               (JObj [("request_id", JStr "r1")])); reflexivity.
  - destruct (synthesis_failure_falls_back_to_say Sample.offline (Sample.twilio Sample.offline)
                "Hi there" "en" None false Sample.idle) as (_ & Hsay & _ & _ & Hen & _).
    destruct (Hsay Sample.idle) as [Hresp _]; [reflexivity |].
    rewrite (Hen eq_refl) in Hresp. exact Hresp.
Defined.

(** The turn of section 8 of the specification: [hello] is answered with
    the joined fragments, said by Twilio because Sarvam sent no audio. *)
Example turn_hello_online :
  App.process_speech Sample.online (Sample.app Sample.online) Sample.turn_hello
    {| call_sessions := {[ Some "CA1" := {| from_number := Some "+911234567890";
                                            language := "en";
                                            conversation_history := [] |} ]};
       sent := [] |}
  = (Ok (Response [ Say "Hi there How can I help?" "en-IN";
                    Gather "speech" 5 "https://bot.example/voice/process" "en-IN" "auto"
                           "yes, no, okay, thank you";
                    Redirect "https://bot.example/voice/process" ] "text/xml"),
     {| call_sessions :=
          {[ Some "CA1" := {| from_number := Some "+911234567890";
                              language := "en";
                              conversation_history :=
                                [ {| user := "hello"; bot := "Hi there How can I help?" |} ] |} ]};
        sent :=
          [ HttpPost "http://localhost:5005/webhooks/rest/webhook"
              (RasaBody {| sender := Some "CA1";
                           message := "hello";
                           metadata_language := "en";
                           metadata_conversation_history := [] |});
            HttpPost "https://api.sarvam.ai/text-to-speech"
              (SarvamBody {| authorization := "Bearer secret";
                             text := "Hi there How can I help?";
                             language_code := "en-IN";
                             speaker := "meera";
                             speech_sample_rate := 8000 |}) ] |}).
Proof. reflexivity. Qed.

(** With audio from Sarvam the reply is played from the saved file. *)
Example turn_hello_played :
  fst (App.process_speech SampleReplies.with_audio (Sample.app SampleReplies.with_audio)
         Sample.turn_hello Sample.active)
  = Ok (Response [ Play (JStr "https://bot.example/audio/en_1700000000123.wav");
                   Gather "speech" 5 "https://bot.example/voice/process" "en-IN" "auto"
                          "yes, no, okay, thank you";
                   Redirect "https://bot.example/voice/process" ] "text/xml").
Proof. reflexivity. Qed.

(** A fragment whose text is not a string makes the join raise, and the
    reply is the fallback text. *)
Example send_message_null_text :
  fst (RasaHandler.send_message SampleReplies.null_text (RasaHandler.init Sample.online)
         (Some "CA1") "hello" "en" None Sample.idle)
  = Ok "Sorry, I did not understand that. Could you please repeat?".
Proof. reflexivity. Qed.

(** Fragments without any text give the empty reply, not the fallback. *)
Example send_message_no_text :
  fst (RasaHandler.send_message SampleReplies.no_text (RasaHandler.init Sample.online)
         (Some "CA1") "hello" "en" None Sample.idle)
  = Ok "".
Proof. reflexivity. Qed.

(** * Further properties of the handlers *)

(** ** The life of a call *)

Lemma hangs_up_answer_for self audio message language :
  hangs_up (answer_for self audio message language)
  = truthy audio && negb (is_string audio).
Proof.
  unfold answer_for. destruct (truthy audio), (is_string audio); reflexivity.
Qed.

Lemma answer_for_not_empty self audio message language :
  answer_for self audio message language ≠ [].
Proof.
  unfold answer_for. destruct (truthy audio), (is_string audio); discriminate.
Qed.

(** What a speech turn does to the sessions, whether or not it finds one *)
Lemma process_speech_sessions env app request_form w :
  let call_sid := App.form_get request_form "CallSid" in
  let speech_result := default "" (App.form_get request_form "SpeechResult") in
  ∃ twiml w',
    App.process_speech env app request_form w = (Ok (Response twiml "text/xml"), w')
    ∧ twiml ≠ []
    ∧ match call_sessions w !! call_sid with
      | None => hangs_up twiml = true ∧ w' = w
      | Some s =>
          ∃ reply,
            call_sessions w'
            = <[call_sid := App.add_turn {| user := speech_result; bot := reply |} s]>
                (call_sessions w)
      end.
Proof.
  intros call_sid speech_result.
  destruct (call_sessions w !! call_sid) as [s |] eqn:Hs.
  - destruct (process_speech_present env app request_form w s Hs)
      as (reply & audio & w' & _ & _ & Hrun & Hstore & _).
    eexists _, w'. split; [exact Hrun |].
    split; [apply answer_for_not_empty | eauto].
  - eexists _, w. split; [apply process_speech_absent; exact Hs |].
    split; [discriminate | split; reflexivity].
Qed.



(** X2: for a CallSid without a session, a call-start event followed by a
    terminal status callback for the same CallSid leaves the session store
    exactly as it was before the call. *)
Theorem start_then_end_restores env app start finish w :
  let call_sid := App.form_get start "CallSid" in
  App.form_get finish "CallSid" = call_sid →
  App.is_terminal (App.form_get finish "CallStatus") = true →
  call_sessions w !! call_sid = None →
  ∃ greeting w1 w2,
    App.incoming_call env app start w = (Ok greeting, w1)
    ∧ is_Some (call_sessions w1 !! call_sid)
    ∧ App.call_status finish w1
      = (Ok (JsonReply [("status", JStr "received")] 200), w2)
    ∧ call_sessions w2 = call_sessions w.
Proof.
  intros call_sid Hsame Hterm Hfresh.
  destruct (incoming_call_run env app start w)
    as (greeting & audio & w1 & _ & _ & Hrun & Hstore).
  fold call_sid in Hstore.
  eexists _, w1, _. split; [exact Hrun |].
  split; [rewrite Hstore, lookup_insert_eq; eauto |].
  rewrite call_status_run, Hterm, Hsame. split; [reflexivity |].
  cbn [call_sessions]. rewrite Hstore. apply delete_insert_id. exact Hfresh.
Qed.

(** X2 on call CA7, started and found busy while CA1 is in progress *)
Lemma start_then_end_restores_witness :
  App.form_get SampleCalls.end_ca7 "CallSid" = App.form_get SampleCalls.start_ca7 "CallSid"
  ∧ App.is_terminal (App.form_get SampleCalls.end_ca7 "CallStatus") = true
  ∧ call_sessions Sample.active !! Some "CA7" = None
  ∧ ∃ greeting w1 w2,
      App.incoming_call Sample.online (Sample.app Sample.online)
                        SampleCalls.start_ca7 Sample.active = (Ok greeting, w1)
      ∧ is_Some (call_sessions w1 !! Some "CA7")
      ∧ App.call_status SampleCalls.end_ca7 w1
        = (Ok (JsonReply [("status", JStr "received")] 200), w2)
      ∧ call_sessions w2 = call_sessions Sample.active.
Proof.
  split; [reflexivity |]. split; [reflexivity |]. split; [reflexivity |].
  apply (start_then_end_restores Sample.online (Sample.app Sample.online)
           SampleCalls.start_ca7 SampleCalls.end_ca7 Sample.active); reflexivity.
Defined.

(** X3: a call-start event followed by a speech turn for the same CallSid
    always finds the session just set: the turn sends its utterance to Rasa
    and appends the pair, so that afterwards the session holds the caller
    number and language of the start and a history of exactly one pair, the
    utterance and its reply, whatever the store held before.  The turn is
    answered with a hangup only when the audio synthesised for the reply is
    a truthy value that is not a string, which cannot be rendered;
    otherwise the answer listens on. *)
Theorem start_then_turn env1 env2 app start turn w :
  let call_sid := App.form_get start "CallSid" in
  let lang := default (default "hi" (getenv env1 "DEFAULT_LANGUAGE"))
                      (App.form_get start "language") in
  let speech_result := default "" (App.form_get turn "SpeechResult") in
  let fresh := {| from_number := App.form_get start "From";
                  language := lang;
                  conversation_history := [] |} in
  App.form_get turn "CallSid" = call_sid →
  ∃ greeting w1 reply audio twiml w2,
    App.incoming_call env1 app start w = (Ok greeting, w1)
    ∧ fst (RasaHandler.send_message env2 (App.rasa_handler app) call_sid speech_result
             lang (Some []) w1) = Ok reply
    ∧ fst (SarvamTTS.generate_speech env2 (TwilioHandler.tts (App.twilio_handler app))
             reply lang None
             {| call_sessions :=
                  <[call_sid := App.add_turn {| user := speech_result; bot := reply |} fresh]>
                    (call_sessions w1);
                sent := sent w1
                        ++ [ HttpPost (RasaHandler.webhook_url (App.rasa_handler app))
                               (RasaBody {| sender := call_sid;
                                            message := speech_result;
                                            metadata_language := lang;
                                            metadata_conversation_history := [] |}) ] |})
      = Ok audio
    ∧ App.process_speech env2 app turn w1 = (Ok (Response twiml "text/xml"), w2)
    ∧ (hangs_up twiml = true ↔ truthy audio = true ∧ is_string audio = false)
    ∧ call_sessions w2 !! call_sid
      = Some {| from_number := App.form_get start "From";
                language := lang;
                conversation_history := [ {| user := speech_result; bot := reply |} ] |}.
Proof.
  intros call_sid lang speech_result fresh Hsame.
  destruct (incoming_call_run env1 app start w)
    as (greeting & audio0 & w1 & _ & _ & Hrun & Hstore).
  fold call_sid in Hstore.
  change (default (getenv_default env1 "DEFAULT_LANGUAGE" "hi")
                  (App.form_get start "language")) with lang in Hstore.
  fold fresh in Hstore.
  assert (call_sessions w1 !! App.form_get turn "CallSid" = Some fresh) as Hs
    by (rewrite Hsame, Hstore; apply lookup_insert_eq).
  destruct (process_speech_present env2 app turn w1 fresh Hs)
    as (reply & audio & w2 & Hsend & Hspeech & Hturn & Hstore2 & _).
  rewrite Hsame in Hsend, Hspeech, Hstore2. fold speech_result in Hsend, Hspeech, Hstore2.
  cbn [language conversation_history fresh] in Hsend, Hspeech, Hturn.
  eexists _, w1, reply, audio, _, w2.
  split; [exact Hrun |]. split; [rewrite Hsend; reflexivity |].
  split; [rewrite Hspeech; reflexivity |]. split; [exact Hturn |].
  split.
  - rewrite hangs_up_answer_for, andb_true_iff, negb_true_iff. reflexivity.
  - rewrite Hstore2. apply lookup_insert_eq.
Qed.

(** X3 on call CA7 started while CA1 is in progress: Sarvam answers
    without audio, so the reply is said and the answer listens on *)
Lemma start_then_turn_witness :
  App.form_get [ ("CallSid", "CA7"); ("SpeechResult", "hello") ] "CallSid"
  = App.form_get SampleCalls.start_ca7 "CallSid"
  ∧ ∃ greeting w1 reply twiml w2,
      App.incoming_call Sample.online (Sample.app Sample.online)
                        SampleCalls.start_ca7 Sample.active = (Ok greeting, w1)
      ∧ App.process_speech Sample.online (Sample.app Sample.online)
                           [ ("CallSid", "CA7"); ("SpeechResult", "hello") ] w1
        = (Ok (Response twiml "text/xml"), w2)
      ∧ hangs_up twiml = false
      ∧ call_sessions w2 !! Some "CA7"
        = Some {| from_number := Some "+15550123";
                  language := "hi";
                  conversation_history := [ {| user := "hello"; bot := reply |} ] |}.
Proof.
  split; [reflexivity |].
  destruct (start_then_turn Sample.online Sample.online (Sample.app Sample.online)
              SampleCalls.start_ca7 [ ("CallSid", "CA7"); ("SpeechResult", "hello") ]
              Sample.active eq_refl)
    as (greeting & w1 & reply & audio & twiml & w2 & Hstart & Hsend & Hspeech & Hturn
        & Hhang & Hnew).
  exists greeting, w1, reply, twiml, w2.
  split; [exact Hstart |]. split; [exact Hturn |]. split; [| exact Hnew].
  injection Hstart as _ Hw1. subst w1.
  injection Hsend as Hreply. subst reply.
  injection Hspeech as Haudio. subst audio.
  destruct (hangs_up twiml); [| reflexivity].
  destruct (proj1 Hhang eq_refl) as [Habs _]. discriminate Habs.
Defined.

(** X4: a status callback is idempotent: delivered a second time, it is
    acknowledged again and changes nothing more. *)
Theorem call_status_idempotent request_form w :
  ∃ w1,
    App.call_status request_form w
      = (Ok (JsonReply [("status", JStr "received")] 200), w1)
    ∧ App.call_status request_form w1
      = (Ok (JsonReply [("status", JStr "received")] 200), w1).
Proof.
  rewrite call_status_run. eexists. split; [reflexivity |].
  rewrite call_status_run. f_equal.
  destruct (App.is_terminal _); [| reflexivity].
  cbn [call_sessions sent]. rewrite delete_delete_eq. reflexivity.
Qed.

(** X5: when a speech turn hangs up.  A turn whose CallSid has no session
    is answered with a hangup and changes nothing.  A turn on an existing
    session is answered with a hangup exactly when the audio synthesised
    for the reply is a truthy value that is not a string, which cannot be
    rendered; in every other case, and so whenever synthesis gives nothing
    or a URL, the answer listens on and the turn itself never ends the
    call. *)
Theorem process_speech_hangs_up env app request_form w :
  let call_sid := App.form_get request_form "CallSid" in
  let speech_result := default "" (App.form_get request_form "SpeechResult") in
  ∃ twiml w',
    App.process_speech env app request_form w = (Ok (Response twiml "text/xml"), w')
    ∧ (call_sessions w !! call_sid = None → hangs_up twiml = true ∧ w' = w)
    ∧ (∀ s, call_sessions w !! call_sid = Some s →
         ∃ reply audio,
           fst (RasaHandler.send_message env (App.rasa_handler app) call_sid speech_result
                  (language s) (Some (conversation_history s)) w) = Ok reply
           ∧ SarvamTTS.generate_speech env (TwilioHandler.tts (App.twilio_handler app))
               reply (language s) None
               {| call_sessions :=
                    <[call_sid := App.add_turn {| user := speech_result; bot := reply |} s]>
                      (call_sessions w);
                  sent := sent w
                          ++ [ HttpPost (RasaHandler.webhook_url (App.rasa_handler app))
                                 (RasaBody {| sender := call_sid;
                                              message := speech_result;
                                              metadata_language := language s;
                                              metadata_conversation_history :=
                                                conversation_history s |}) ] |}
             = (Ok audio, w')
           ∧ (hangs_up twiml = true ↔ truthy audio = true ∧ is_string audio = false)).
Proof.
  intros call_sid speech_result.
  destruct (call_sessions w !! call_sid) as [s |] eqn:Hs.
  - destruct (process_speech_present env app request_form w s Hs)
      as (reply & audio & w' & Hsend & Hspeech & Hrun & _ & _).
    fold call_sid speech_result in Hsend, Hspeech.
    eexists _, w'. split; [exact Hrun |]. split; [discriminate |].
    intros s' [= <-]. exists reply, audio.
    split; [rewrite Hsend; reflexivity |]. split; [exact Hspeech |].
    rewrite hangs_up_answer_for, andb_true_iff, negb_true_iff. reflexivity.
  - eexists _, w. split; [apply process_speech_absent; exact Hs |].
    split; [split; reflexivity | discriminate].
Qed.

(** X5 on a known CallSid, Sarvam answering without audio, and on an
    unknown CallSid *)
Lemma process_speech_hangs_up_witness :
  (∃ twiml w',
     App.process_speech Sample.online (Sample.app Sample.online)
                        Sample.turn_hello Sample.active
       = (Ok (Response twiml "text/xml"), w')
     ∧ hangs_up twiml = false)
  ∧ (∃ twiml,
       App.process_speech Sample.online (Sample.app Sample.online)
                          Sample.turn_unknown Sample.active
         = (Ok (Response twiml "text/xml"), Sample.active)
       ∧ hangs_up twiml = true).
Proof.
  split.
  - destruct (process_speech_hangs_up Sample.online (Sample.app Sample.online)
                Sample.turn_hello Sample.active) as (twiml & w' & Hrun & _ & Hknown).
    exists twiml, w'. split; [exact Hrun |].
    destruct (Hknown Sample.caller eq_refl) as (reply & audio & Hsend & Hspeech & Hhang).
    injection Hsend as Hreply. subst reply.
    injection Hspeech as Haudio _. subst audio.
    destruct (hangs_up twiml); [| reflexivity].
    destruct (proj1 Hhang eq_refl) as [Habs _]. discriminate Habs.
  - destruct (process_speech_hangs_up Sample.online (Sample.app Sample.online)
                Sample.turn_unknown Sample.active) as (twiml & w' & Hrun & Hunknown & _).
    destruct (Hunknown eq_refl) as [Hhang ->].
    exists twiml. split; [exact Hrun | exact Hhang].
Defined.

(** ** Sequences of requests *)

Lemma serve_cons app r reqs w :
  serve app (r :: reqs) w
  = (fst (dispatch app r w) :: fst (serve app reqs (snd (dispatch app r w))),
     snd (serve app reqs (snd (dispatch app r w)))).
Proof.
  cbn [serve]. destruct (dispatch app r w) as [answer w1].
  cbn [fst snd]. destruct (serve app reqs w1); reflexivity.
Qed.

(** What one request does to the sessions *)
Lemma dispatch_sessions app r w :
  ∃ answer w',
    dispatch app r w = (Ok answer, w')
    ∧ match req_route r with
      | Home | Health =>
          call_sessions w' = call_sessions w
          ∧ ∃ body, answer = JsonReply body 200
      | VoiceIncoming =>
          (∃ fresh, call_sessions w' = <[req_call_sid r := fresh]> (call_sessions w))
          ∧ ∃ twiml, answer = Response twiml "text/xml"
      | VoiceProcess =>
          match call_sessions w !! req_call_sid r with
          | None => w' = w
          | Some s =>
              ∃ reply,
                call_sessions w'
                = <[req_call_sid r :=
                      App.add_turn
                        {| user := default "" (App.form_get (req_form r) "SpeechResult");
                           bot := reply |} s]> (call_sessions w)
          end
          ∧ ∃ twiml, answer = Response twiml "text/xml"
      | VoiceStatus =>
          (call_sessions w' = call_sessions w
           ∨ call_sessions w' = delete (req_call_sid r) (call_sessions w))
          ∧ ∃ body, answer = JsonReply body 200
      end.
Proof.
  unfold dispatch, req_call_sid. destruct (req_route r).
  - eexists _, w. split; [reflexivity |]. eauto.
  - destruct (incoming_call_run (req_env r) app (req_form r) w)
      as (greeting & audio & w' & _ & _ & Hrun & Hstore).
    eexists _, w'. split; [exact Hrun |]. eauto.
  - destruct (process_speech_sessions (req_env r) app (req_form r) w)
      as (twiml & w' & Hrun & Hafter).
    eexists _, w'. split; [exact Hrun |]. split; [| eauto].
    destruct (call_sessions w !! App.form_get (req_form r) "CallSid") as [s |] eqn:Hs.
    + destruct Hafter as (_ & reply & Hstore). eauto.
    + destruct Hafter as (_ & _ & ->). reflexivity.
  - rewrite call_status_run. eexists _, _. split; [reflexivity |]. split; [| eauto].
    destruct (App.is_terminal _); [right | left]; reflexivity.
  - unfold App.health. cbv [mbind M_bind mret M_ret]. rewrite check_health_run.
    eexists _, _. split; [reflexivity |]. eauto.
Qed.

(** X7: every request on a webhook route is answered and none raises: a
    call start and a speech turn with a text/xml markup, a status callback,
    the health check and the home page with a JSON body and status 200. *)
Theorem dispatch_always_answers app r w :
  ∃ answer w',
    dispatch app r w = (Ok answer, w')
    ∧ match req_route r with
      | VoiceIncoming | VoiceProcess =>
          ∃ twiml, answer = Response twiml "text/xml" ∧ twiml ≠ []
      | Home | VoiceStatus | Health =>
          ∃ body, answer = JsonReply body 200 ∧ dict_get body "status" ≠ None
      end.
Proof.
  unfold dispatch. destruct (req_route r).
  - eexists _, w. split; [reflexivity |]. eexists. split; [reflexivity | discriminate].
  - destruct (incoming_call_run (req_env r) app (req_form r) w)
      as (greeting & audio & w' & _ & _ & Hrun & _).
    eexists _, w'. split; [exact Hrun |].
    eexists. split; [reflexivity | apply answer_for_not_empty].
  - destruct (process_speech_sessions (req_env r) app (req_form r) w)
      as (twiml & w' & Hrun & Hne & _).
    eexists _, w'. split; [exact Hrun |]. eexists. split; [reflexivity | exact Hne].
  - rewrite call_status_run. eexists _, _. split; [reflexivity |].
    eexists. split; [reflexivity | discriminate].
  - unfold App.health. cbv [mbind M_bind mret M_ret]. rewrite check_health_run.
    eexists _, _. split; [reflexivity |]. eexists. split; [reflexivity | discriminate].
Qed.

(** X8: sessions come from call starts only.  After any sequence of
    requests, every CallSid with a session either had one before or is the
    CallSid of a call-start request of the sequence; turns, status
    callbacks and health checks never create a session. *)
Theorem serve_sessions_come_from_starts app reqs w :
  dom (call_sessions (snd (serve app reqs w))) ⊆ dom (call_sessions w) ∪ started reqs.
Proof.
  revert w. induction reqs as [| r reqs IH]; intros w k.
  - cbn [serve snd started]. rewrite elem_of_union. auto.
  - rewrite serve_cons. cbn [snd].
    destruct (dispatch_sessions app r w) as (answer & w1 & Hrun & Hstep).
    rewrite Hrun. cbn [snd]. intros Hk. apply IH in Hk.
    rewrite elem_of_union in Hk. rewrite elem_of_union.
    assert (k ∈ dom (call_sessions w1) →
            k ∈ dom (call_sessions w) ∨ (req_route r = VoiceIncoming ∧ k = req_call_sid r))
      as Hdom.
    { destruct (req_route r).
      - destruct Hstep as [-> _]. auto.
      - destruct Hstep as [[fresh ->] _]. rewrite dom_insert_L, elem_of_union, elem_of_singleton.
        intros [-> | Hin]; auto.
      - destruct Hstep as [Hstep _].
        destruct (call_sessions w !! req_call_sid r) as [s |] eqn:Hs;
          [| subst w1; auto].
        destruct Hstep as [reply ->].
        rewrite dom_insert_L, elem_of_union, elem_of_singleton.
        intros [-> | Hin]; [| auto]. left. apply elem_of_dom. eauto.
      - destruct Hstep as [[-> | ->] _]; [auto |].
        rewrite dom_delete_L, elem_of_difference. intros [Hin _]. auto.
      - destruct Hstep as [-> _]. auto. }
    cbn [started].
    destruct Hk as [Hk | Hk].
    + destruct (Hdom Hk) as [Hin | [Hroute ->]]; [auto |].
      rewrite Hroute. right. rewrite elem_of_union, elem_of_singleton. auto.
    + right. destruct (req_route r); try exact Hk.
      rewrite elem_of_union. auto.
Qed.

(** X9: between its start and its end, a call only gains history.  If a
    CallSid has a session and no request of a sequence starts or ends that
    call, then after the sequence the session has the same caller number
    and language, and its history is the old one followed by one pair per
    speech turn of that CallSid, in the order of the requests, each with the
    utterance of its turn. *)
Theorem serve_history_append_only app reqs w call_sid s :
  call_sessions w !! call_sid = Some s →
  Forall (λ r, starts_or_ends call_sid r = false) reqs →
  ∃ new,
    call_sessions (snd (serve app reqs w)) !! call_sid
    = Some {| from_number := from_number s;
              language := language s;
              conversation_history := conversation_history s ++ new |}
    ∧ map user new = utterances call_sid reqs.
Proof.
  intros Hs Hquiet. revert w s Hs.
  induction Hquiet as [| r reqs Hr _ IH]; intros w s Hs.
  - exists []. cbn [serve snd]. rewrite app_nil_r. destruct s. split; [exact Hs | reflexivity].
  - rewrite serve_cons. cbn [snd utterances].
    destruct (dispatch_sessions app r w) as (answer & w1 & Hrun & Hstep).
    rewrite Hrun. cbn [snd]. unfold starts_or_ends in Hr.
    destruct (req_route r).
    + destruct Hstep as [Hsame _]. rewrite <- Hsame in Hs. exact (IH w1 s Hs).
    + apply bool_decide_eq_false in Hr. destruct Hstep as [[fresh Hst] _].
      assert (call_sessions w1 !! call_sid = Some s) as Hs1
        by (rewrite Hst, lookup_insert_ne; [exact Hs | exact Hr]).
      exact (IH w1 s Hs1).
    + destruct Hstep as [Hstep _]. case_bool_decide as Hcid.
      * rewrite Hcid, Hs in Hstep. destruct Hstep as [reply Hst].
        set (t := {| user := default "" (App.form_get (req_form r) "SpeechResult");
                     bot := reply |}) in *.
        assert (call_sessions w1 !! call_sid = Some (App.add_turn t s)) as Hs1
          by (rewrite Hst; apply lookup_insert_eq).
        destruct (IH w1 _ Hs1) as (new & Hfinal & Hnew).
        exists (t :: new). cbn [App.add_turn from_number language conversation_history] in Hfinal.
        rewrite <- app_assoc in Hfinal. split; [exact Hfinal |].
        cbn [map user t]. rewrite Hnew. reflexivity.
      * assert (call_sessions w1 !! call_sid = Some s) as Hs1.
        { destruct (call_sessions w !! req_call_sid r) as [s0 |].
          - destruct Hstep as [reply ->]. rewrite lookup_insert_ne; [exact Hs | exact Hcid].
          - subst w1. exact Hs. }
        exact (IH w1 s Hs1).
    + apply bool_decide_eq_false in Hr. destruct Hstep as [[Hst | Hst] _].
      * rewrite <- Hst in Hs. exact (IH w1 s Hs).
      * assert (call_sessions w1 !! call_sid = Some s) as Hs1
          by (rewrite Hst, lookup_delete_ne; [exact Hs | exact Hr]).
        exact (IH w1 s Hs1).
    + destruct Hstep as [Hsame _]. rewrite <- Hsame in Hs. exact (IH w1 s Hs).
Qed.

(** X9 on two turns and a health check during the sample call *)
Lemma serve_history_append_only_witness :
  call_sessions Sample.active !! Some "CA1" = Some Sample.caller
  ∧ Forall (λ r, starts_or_ends (Some "CA1") r = false) SampleCalls.two_turns
  ∧ ∃ new,
      call_sessions (snd (serve (Sample.app Sample.online) SampleCalls.two_turns
                            Sample.active)) !! Some "CA1"
      = Some {| from_number := Some "+911234567890";
                language := "en";
                conversation_history := {| user := "hello"; bot := "Hi there" |} :: new |}
      ∧ map user new = [ "hello"; "" ].
Proof.
  assert (Forall (λ r, starts_or_ends (Some "CA1") r = false) SampleCalls.two_turns) as Hq
    by (repeat constructor).
  split; [reflexivity |]. split; [exact Hq |].
  apply (serve_history_append_only (Sample.app Sample.online) SampleCalls.two_turns
           Sample.active (Some "CA1") Sample.caller); [reflexivity | exact Hq].
Defined.

(** X8 on a whole call served while no call is in progress: only CA7 can
    have a session afterwards *)
Lemma serve_sessions_come_from_starts_witness :
  dom (call_sessions (snd (serve (Sample.app Sample.online) SampleCalls.whole_call
                            Sample.idle)))
  ⊆ dom (call_sessions Sample.idle) ∪ started SampleCalls.whole_call.
Proof.
  exact (serve_sessions_come_from_starts (Sample.app Sample.online)
           SampleCalls.whole_call Sample.idle).
Defined.

(** ** Replies of Rasa that are not a list *)

Lemma one_character_has_no_text (c : ascii) :
  str_contains "text" (String c EmptyString) = false.
Proof.
  cbn [str_contains String.prefix].
  destruct (ascii_dec "t" c); reflexivity.
Qed.

Lemma collect_texts_characters (cs : list ascii) :
  RasaHandler.collect_texts (map (fun c => JStr (String c EmptyString)) cs) = Ok [].
Proof.
  induction cs as [| c cs IH]; [reflexivity |].
  cbn [map RasaHandler.collect_texts py_contains].
  rewrite one_character_has_no_text. exact IH.
Qed.

Lemma collect_texts_keys (d : list (string * json)) :
  RasaHandler.collect_texts (map (fun kv => JStr (fst kv)) d)
  = if some_key_mentions_text d then Raise AttributeError else Ok [].
Proof.
  unfold some_key_mentions_text.
  induction d as [| [k v] d IH]; [reflexivity |].
  cbn [map RasaHandler.collect_texts py_contains existsb fst].
  destruct (str_contains "text" k); [reflexivity |]. exact IH.
Qed.

(** X10: what [send_message] makes of a 200 response whose body is not a
    list of fragments.  Null, a boolean, a number, the empty string, the
    empty list and the empty object give the fallback text.  A non-empty
    string gives the empty reply.  A non-empty object never gives its text:
    the reply is the fallback text when one of its keys contains ['text'],
    and the empty reply otherwise. *)
Theorem send_message_body_not_a_list
    env self sender_id message language history w r v :
  let url := RasaHandler.webhook_url self in
  let body := RasaBody (RasaHandler.build_payload sender_id message language history) in
  let reply := fst (RasaHandler.send_message env self sender_id message language history w) in
  http_post env url body = Responds r →
  status_code r = 200 →
  body_json r = Some v →
  (scalar_or_empty v = true → reply = RasaHandler._get_fallback_response language)
  ∧ (∀ s, v = JStr s → s ≠ "" → reply = Ok "")
  ∧ (∀ d, v = JObj d → d ≠ [] →
       reply = if some_key_mentions_text d
               then RasaHandler._get_fallback_response language
               else Ok "").
Proof.
  intros url body reply Hout Hst Hbody. subst reply.
  rewrite send_message_run. fold url body. rewrite Hout. cbn [fst].
  unfold RasaHandler.handle_response, response_json.
  apply Z.eqb_eq in Hst. rewrite Hst, Hbody.
  destruct (fallback_response_ok language) as [fb Hfb]. rewrite Hfb.
  cbn [mbind result_bind]. split; [| split].
  - intros Hempty. unfold RasaHandler.is_nonempty.
    destruct v as [| b | n | nz | s | l | d]; cbn [scalar_or_empty] in Hempty.
    + reflexivity.
    + destruct b; reflexivity.
    + cbn [truthy]. destruct (n =? 0); reflexivity.
    + destruct nz; reflexivity.
    + cbn [truthy]. rewrite Hempty. reflexivity.
    + destruct l; [reflexivity | discriminate].
    + destruct d; [reflexivity | discriminate].
  - intros s -> Hs. destruct s as [| c s]; [done |].
    unfold RasaHandler.is_nonempty, RasaHandler.combine_texts.
    cbn [truthy String.eqb negb py_len py_iter mbind result_bind String.length].
    replace (0 <? Z.of_nat (S (String.length s))) with true
      by (symmetry; apply Z.ltb_lt; lia).
    rewrite collect_texts_characters. reflexivity.
  - intros d -> Hd. destruct d as [| kv d]; [done |].
    unfold RasaHandler.is_nonempty, RasaHandler.combine_texts.
    cbn [truthy py_len py_iter mbind result_bind].
    replace (0 <? Z.of_nat (length (kv :: d))) with true
      by (symmetry; apply Z.ltb_lt; cbn [length]; lia).
    rewrite collect_texts_keys.
    destruct (some_key_mentions_text (kv :: d)); reflexivity.
Qed.

(** X10 on one object sent instead of a list: its text is lost *)
Lemma send_message_body_not_a_list_witness :
  fst (RasaHandler.send_message SampleBodies.bare_object (RasaHandler.init Sample.online)
         (Some "CA1") "hello" "en" None Sample.idle)
  = Ok "Sorry, I did not understand that. Could you please repeat?".
Proof.
  destruct (send_message_body_not_a_list SampleBodies.bare_object
              (RasaHandler.init Sample.online) (Some "CA1") "hello" "en" None Sample.idle
              {| status_code := 200;
                 body_json := Some (JObj [ ("recipient_id", JStr "CA1");
                                           ("text", JStr "Hi there") ]) |}
              (JObj [ ("recipient_id", JStr "CA1"); ("text", JStr "Hi there") ]))
    as (_ & _ & Hobj); [reflexivity | reflexivity | reflexivity |].
  exact (Hobj _ eq_refl ltac:(discriminate)).
Defined.

(** ** Speech synthesis *)

Lemma path_join_temp_audio filename :
  path_join "temp_audio" filename
  = if String.prefix "/" filename then filename else "temp_audio/" ++ filename.
Proof. unfold path_join. destruct (String.prefix "/" filename); reflexivity. Qed.

Lemma filename_prefix language rest :
  String.prefix "/" (language ++ "_" ++ rest) = String.prefix "/" language.
Proof.
  destruct language as [| c language]; [reflexivity |].
  change (String.prefix "/" (String c (language ++ "_" ++ rest))
          = String.prefix "/" (String c language)).
  cbn [String.prefix]. destruct (ascii_dec "/" c); [| reflexivity].
  destruct language; reflexivity.
Qed.

Lemma save_audio_run env audio_base64 language w :
  let filename := language ++ "_" ++ pretty (time_ms env) ++ ".wav" in
  let filepath := path_join "temp_audio" filename in
  let w1 := with_sent w (MakeDirs "temp_audio") in
  SarvamTTS._save_audio_temporarily env audio_base64 language w
  = match makedirs env "temp_audio" with
    | Some _ => (Ok JNull, w1)
    | None =>
        match b64decode env audio_base64 with
        | Raise _ => (Ok JNull, w1)
        | Ok data =>
            (Ok match write_file env filepath data with
                | Some _ => JNull
                | None => JStr (getenv_default env "SERVER_URL" "http://localhost:5000"
                                ++ "/audio/" ++ filename)
                end,
             with_sent w1 (WriteFile filepath data))
        end
    end.
Proof.
  intros filename filepath w1. unfold SarvamTTS._save_audio_temporarily. run.
  fold w1. destruct (makedirs env "temp_audio") as [e |]; [reflexivity |].
  destruct (b64decode env audio_base64) as [data | e]; [| reflexivity].
  fold filename. fold filepath.
  destruct (write_file env filepath data); reflexivity.
Qed.

(** X11: [_save_audio_temporarily] never raises and returns either [None]
    or a URL.  It returns a URL only when the directory could be made, the
    audio decoded and the file written; the URL is then SERVER_URL (or
    http://localhost:5000) followed by /audio/ and the file name, which is
    the language, an underscore, the time in milliseconds and .wav, and the
    last thing done was to write the decoded audio to the path
    [os.path.join('temp_audio', filename)].  That path is temp_audio/
    followed by the file name when the language does not start with a
    slash; when it does, the path is the file name alone, an absolute path
    outside temp_audio.  When the directory cannot be made or the audio does
    not decode, no file is written. *)
Theorem save_audio_url_names_written_file env audio_base64 language w :
  let filename := language ++ "_" ++ pretty (time_ms env) ++ ".wav" in
  let filepath := path_join "temp_audio" filename in
  ∃ url w',
    SarvamTTS._save_audio_temporarily env audio_base64 language w = (Ok url, w')
    ∧ call_sessions w' = call_sessions w
    ∧ (url = JNull
       ∨ ∃ data,
           url = JStr (default "http://localhost:5000" (getenv env "SERVER_URL")
                       ++ "/audio/" ++ filename)
           ∧ makedirs env "temp_audio" = None
           ∧ b64decode env audio_base64 = Ok data
           ∧ write_file env filepath data = None
           ∧ sent w' = (sent w ++ [ MakeDirs "temp_audio"; WriteFile filepath data ])%list)
    ∧ (String.prefix "/" language = false → filepath = "temp_audio/" ++ filename)
    ∧ (String.prefix "/" language = true → filepath = filename)
    ∧ ((makedirs env "temp_audio" ≠ None ∨ ∃ e, b64decode env audio_base64 = Raise e) →
         url = JNull ∧ sent w' = (sent w ++ [ MakeDirs "temp_audio" ])%list).
Proof.
  intros filename filepath.
  assert ((String.prefix "/" language = false → filepath = "temp_audio/" ++ filename)
          ∧ (String.prefix "/" language = true → filepath = filename)) as [Hin Hout].
  { unfold filepath, filename. rewrite path_join_temp_audio, filename_prefix.
    split; intros ->; reflexivity. }
  rewrite save_audio_run. fold filename. fold filepath.
  destruct (makedirs env "temp_audio") as [e |] eqn:Hmk.
  { eexists _, _. split; [reflexivity |]. split; [reflexivity |]. split; [auto |]. auto. }
  destruct (b64decode env audio_base64) as [data | e] eqn:Hdec.
  2:{ eexists _, _. split; [reflexivity |]. split; [reflexivity |]. split; [auto |]. auto. }
  eexists _, _. split; [reflexivity |]. split; [reflexivity |]. split; [| split; [| split]].
  - destruct (write_file env filepath data) eqn:Hwr; [auto |].
    right. exists data. repeat split; try assumption.
    cbn [sent with_sent]. rewrite <- app_assoc. reflexivity.
  - exact Hin.
  - exact Hout.
  - intros [Hno | [e He]]; [done | discriminate He].
Qed.

(** X11 on audio that decodes and is written, for the language te and for
    a language tag that starts with a slash *)
Lemma save_audio_url_names_written_file_witness :
  (∃ w',
     SarvamTTS._save_audio_temporarily Sample.online (JStr "UklGRg==") "te" Sample.idle
       = (Ok (JStr "https://bot.example/audio/te_1700000000123.wav"), w')
     ∧ sent w' = [ MakeDirs "temp_audio";
                   WriteFile "temp_audio/te_1700000000123.wav" "RIFF" ])
  ∧ (∃ w',
       SarvamTTS._save_audio_temporarily Sample.online (JStr "UklGRg==") "/tmp/x" Sample.idle
         = (Ok (JStr "https://bot.example/audio//tmp/x_1700000000123.wav"), w')
       ∧ sent w' = [ MakeDirs "temp_audio";
                     WriteFile "/tmp/x_1700000000123.wav" "RIFF" ]).
Proof.
  split.
  - destruct (save_audio_url_names_written_file Sample.online (JStr "UklGRg==") "te"
                Sample.idle)
      as (url & w' & Hrun & _ & [Hnull | (data & Hurl & _ & Hdec & _ & Hsent)] & _).
    + exfalso. rewrite Hnull in Hrun. discriminate Hrun.
    + exists w'. injection Hdec as <-. rewrite Hrun, Hurl. split; [reflexivity | exact Hsent].
  - destruct (save_audio_url_names_written_file Sample.online (JStr "UklGRg==") "/tmp/x"
                Sample.idle)
      as (url & w' & Hrun & _ & [Hnull | (data & Hurl & _ & Hdec & _ & Hsent)] & _).
    + exfalso. rewrite Hnull in Hrun. discriminate Hrun.
    + exists w'. injection Hdec as <-. rewrite Hrun, Hurl. split; [reflexivity | exact Hsent].
Defined.

(** X12: without an API key nothing is sent.  [generate_speech] returns
    [None] and leaves the process state as it was, and both markup builders
    say the message through Twilio without any request to Sarvam. *)
Theorem no_api_key_no_request env self message language voice end_call w :
  SarvamTTS.api_key_missing (TwilioHandler.tts self) = true →
  let say := Say message (TwilioHandler._get_twilio_language language) in
  let listen := [ TwilioHandler.gather self language;
                  Redirect (py_str (TwilioHandler.server_url self) ++ "/voice/process") ] in
  SarvamTTS.generate_speech env (TwilioHandler.tts self) message language voice w
    = (Ok JNull, w)
  ∧ TwilioHandler.generate_response env self message language end_call w
    = (Ok (say :: if end_call then [Hangup] else listen), w)
  ∧ TwilioHandler.generate_greeting_response env self message language w
    = (Ok (say :: listen), w).
Proof.
  intros Hkey say listen.
  assert (∀ v, SarvamTTS.generate_speech env (TwilioHandler.tts self) message language v w
               = (Ok JNull, w)) as Hnone
    by (intros v; unfold SarvamTTS.generate_speech; rewrite Hkey; reflexivity).
  split; [apply Hnone |].
  unfold TwilioHandler.generate_response, TwilioHandler.generate_greeting_response.
  cbv [mbind M_bind]. rewrite Hnone. destruct end_call; split; reflexivity.
Qed.

(** X12 with no environment variable set *)
Lemma no_api_key_no_request_witness :
  SarvamTTS.api_key_missing (TwilioHandler.tts (Sample.twilio Sample.offline)) = true
  ∧ TwilioHandler.generate_response Sample.online (Sample.twilio Sample.offline)
                                    "Goodbye" "ur" true Sample.active
    = (Ok [ Say "Goodbye" "ur-PK"; Hangup ], Sample.active).
Proof.
  split; [reflexivity |].
  destruct (no_api_key_no_request Sample.online (Sample.twilio Sample.offline)
              "Goodbye" "ur" None true Sample.active) as (_ & Hresp & _);
    [reflexivity | exact Hresp].
Defined.

(** X13: an [audio] field wins over an [audio_url] field.  When Sarvam
    answers 200 with an object that has an [audio] field, the result of
    [generate_speech] is the result of saving that audio, whatever else the
    object holds: if the audio does not decode the result is [None], even
    when an [audio_url] is there to be used. *)
Theorem audio_field_takes_precedence env self text language voice w r d audio :
  let url := SarvamTTS.api_url self in
  let body := SarvamBody (SarvamTTS.build_payload self text language voice) in
  SarvamTTS.api_key_missing self = false →
  http_post env url body = Responds r →
  status_code r = 200 →
  body_json r = Some (JObj d) →
  dict_get d "audio" = Some audio →
  SarvamTTS.generate_speech env self text language voice w
    = SarvamTTS._save_audio_temporarily env audio language (with_sent w (HttpPost url body))
  ∧ ((∃ e, b64decode env audio = Raise e) →
       fst (SarvamTTS.generate_speech env self text language voice w) = Ok JNull).
Proof.
  intros url body Hkey Hout Hst Hbody Haudio.
  assert (SarvamTTS.generate_speech env self text language voice w
          = SarvamTTS._save_audio_temporarily env audio language
              (with_sent w (HttpPost url body))) as Hrun.
  { rewrite generate_speech_run. fold url body. rewrite Hkey, Hout.
    unfold SarvamTTS.handle_response, response_json. run.
    apply Z.eqb_eq in Hst. rewrite Hst, Hbody. cbn [py_contains py_subscript].
    rewrite bool_decide_eq_true_2 by eauto.
    unfold dict_subscript. rewrite Haudio.
    destruct (save_audio_ok env audio language (with_sent w (HttpPost url body)))
      as (res & w' & -> & _). reflexivity. }
  split; [exact Hrun |].
  intros [e He]. rewrite Hrun, save_audio_run, He.
  destruct (makedirs env "temp_audio"); reflexivity.
Qed.

(** X13 on an answer with both fields and audio that does not decode *)
Lemma audio_field_takes_precedence_witness :
  fst (SarvamTTS.generate_speech SampleBodies.undecodable
         (SarvamTTS.attributes SampleBodies.undecodable) "Hi there" "en" None Sample.idle)
  = Ok JNull.
Proof.
  destruct (audio_field_takes_precedence SampleBodies.undecodable
              (SarvamTTS.attributes SampleBodies.undecodable) "Hi there" "en" None Sample.idle
              {| status_code := 200;
                 body_json := Some (JObj [ ("audio_url", JStr "https://cdn/a.wav");
                                           ("audio", JStr "!!") ]) |}
              [ ("audio_url", JStr "https://cdn/a.wav"); ("audio", JStr "!!") ]
              (JStr "!!")) as [_ Hnone];
    [reflexivity | reflexivity | reflexivity | reflexivity | reflexivity |].
  apply Hnone. exists ValueError. reflexivity.
Defined.

(** X14: when Sarvam answers 200 with an object that has an [audio_url]
    field and no [audio] field, [generate_speech] returns the value of that
    field as it is, after the one request and without touching the file
    system; the markup then plays that value if it is truthy and says the
    message otherwise. *)
Theorem audio_url_is_passed_through env self message language end_call w r d v :
  let tts := TwilioHandler.tts self in
  let url := SarvamTTS.api_url tts in
  let body := SarvamBody (SarvamTTS.build_payload tts message language None) in
  SarvamTTS.api_key_missing tts = false →
  http_post env url body = Responds r →
  status_code r = 200 →
  body_json r = Some (JObj d) →
  dict_get d "audio" = None →
  dict_get d "audio_url" = Some v →
  SarvamTTS.generate_speech env tts message language None w
    = (Ok v, with_sent w (HttpPost url body))
  ∧ TwilioHandler.generate_response env self message language end_call w
    = (Ok ((if truthy v then Play v
            else Say message (TwilioHandler._get_twilio_language language))
           :: if end_call then [Hangup]
              else [ TwilioHandler.gather self language;
                     Redirect (py_str (TwilioHandler.server_url self)
                               ++ "/voice/process") ]),
       with_sent w (HttpPost url body)).
Proof.
  intros tts url body Hkey Hout Hst Hbody Hno Hurl.
  assert (SarvamTTS.generate_speech env tts message language None w
          = (Ok v, with_sent w (HttpPost url body))) as Hrun.
  { rewrite generate_speech_run. fold url body. rewrite Hkey, Hout.
    unfold SarvamTTS.handle_response, response_json. run.
    apply Z.eqb_eq in Hst. rewrite Hst, Hbody. cbn [py_contains py_subscript].
    rewrite bool_decide_eq_false_2 by (rewrite Hno; intros [? ?]; discriminate).
    rewrite bool_decide_eq_true_2 by eauto.
    unfold dict_subscript. rewrite Hurl. reflexivity. }
  split; [exact Hrun |].
  unfold TwilioHandler.generate_response. cbv [mbind M_bind mret M_ret].
  fold tts. rewrite Hrun. destruct (truthy v), end_call; reflexivity.
Qed.

(** X14 on an answer with a hosted audio file *)
Lemma audio_url_is_passed_through_witness :
  TwilioHandler.generate_response SampleBodies.hosted (Sample.twilio SampleBodies.hosted)
                                  "Hi there" "en" true Sample.idle
  = (Ok [ Play (JStr "https://cdn/a.wav"); Hangup ],
     with_sent Sample.idle
       (HttpPost "https://api.sarvam.ai/text-to-speech"
          (SarvamBody {| authorization := "Bearer secret";
                         text := "Hi there";
                         language_code := "en-IN";
                         speaker := "meera";
                         speech_sample_rate := 8000 |}))).
Proof.
  destruct (audio_url_is_passed_through SampleBodies.hosted (Sample.twilio SampleBodies.hosted)
              "Hi there" "en" true Sample.idle
              {| status_code := 200;
                 body_json := Some (JObj [ ("request_id", JStr "r2");
                                           ("audio_url", JStr "https://cdn/a.wav") ]) |}
              [ ("request_id", JStr "r2"); ("audio_url", JStr "https://cdn/a.wav") ]
              (JStr "https://cdn/a.wav")) as [_ Hresp];
    [reflexivity | reflexivity | reflexivity | reflexivity | reflexivity | reflexivity |].
  exact Hresp.
Defined.

(** X6: [test_connection] never raises and leaves the sessions alone.
    Without an API key it reports [False] and sends nothing.  It reports
    [True] only when the key is set and Sarvam answered the test request
    with status 200 and an object that has an [audio] or an [audio_url]
    field. *)
Theorem test_connection_true_needs_audio env self w :
  let url := SarvamTTS.api_url self in
  let body := SarvamBody (SarvamTTS.build_payload self "Hello, this is a test." "en" None) in
  ∃ connected w',
    test_connection env self w = (Ok connected, w')
    ∧ call_sessions w' = call_sessions w
    ∧ (SarvamTTS.api_key_missing self = true → connected = false ∧ w' = w)
    ∧ (connected = true →
         SarvamTTS.api_key_missing self = false
         ∧ ∃ r v, http_post env url body = Responds r
                  ∧ status_code r = 200
                  ∧ body_json r = Some v
                  ∧ carries_audio v = true).
Proof.
  intros url body. unfold test_connection. run.
  destruct (generate_speech_ok env self "Hello, this is a test." "en" None w)
    as (audio & w' & Hrun & Hs & _).
  rewrite Hrun. eexists _, w'. split; [reflexivity |]. split; [exact Hs |].
  rewrite generate_speech_run in Hrun. fold url body in Hrun.
  destruct (SarvamTTS.api_key_missing self).
  { injection Hrun as <- <-. split; [auto | discriminate]. }
  split; [discriminate |]. intros Hconn. split; [reflexivity |].
  destruct (http_post env url body) as [e | r].
  { injection Hrun as <- _. discriminate Hconn. }
  exists r.
  destruct (Z.eqb_spec (status_code r) 200) as [Hst | Hst].
  2:{ unfold SarvamTTS.handle_response in Hrun. apply Z.eqb_neq in Hst.
      rewrite Hst in Hrun. cbv [mret M_ret] in Hrun.
      injection Hrun as <- _. discriminate Hconn. }
  destruct (body_json r) as [v |] eqn:Hbody.
  2:{ unfold SarvamTTS.handle_response, response_json in Hrun. run.
      apply Z.eqb_eq in Hst. rewrite Hst, Hbody in Hrun.
      injection Hrun as <- _. discriminate Hconn. }
  exists v. split; [reflexivity |]. split; [exact Hst |]. split; [reflexivity |].
  destruct (carries_audio v) eqn:Hcarries; [reflexivity |].
  destruct (sarvam_handle_response_no_audio env "en" r v
              (with_sent w (HttpPost url body)) Hst Hbody Hcarries)
    as (res & Hres & [-> | [e ->]]); rewrite Hres in Hrun;
    injection Hrun as <- _; discriminate Hconn.
Qed.

(** X6 with a hosted audio file, and without a key *)
Lemma test_connection_true_needs_audio_witness :
  fst (test_connection SampleBodies.hosted (SarvamTTS.attributes SampleBodies.hosted) Sample.idle)
  = Ok true
  ∧ test_connection Sample.online (SarvamTTS.attributes Sample.offline) Sample.idle
    = (Ok false, Sample.idle).
Proof.
  split; [reflexivity |].
  destruct (test_connection_true_needs_audio Sample.online (SarvamTTS.attributes Sample.offline)
              Sample.idle) as (connected & w' & Hrun & _ & Hnokey & _).
  destruct (Hnokey eq_refl) as [-> ->]. exact Hrun.
Defined.

(** ** Voices, locales and start-up *)

Lemma supported_cases (language : string) :
  language ∈ supported_languages →
  language = "hi" ∨ language = "te" ∨ language = "en" ∨ language = "ur".
Proof.
  unfold supported_languages. rewrite !elem_of_cons, elem_of_nil. tauto.
Qed.

(** X15: the speaker of a synthesis request.  A non-empty voice given by
    the caller is used as it is.  Otherwise a supported language gets the
    voice meera, whatever DEFAULT_VOICE says; only an unsupported language
    gets the configured default voice. *)
Theorem speaker_of_request self text language voice :
  let chosen := speaker (SarvamTTS.build_payload self text language voice) in
  (∀ v, voice = Some v → v ≠ "" → chosen = v)
  ∧ (voice = None ∨ voice = Some "" →
       (language ∈ supported_languages → chosen = "meera")
       ∧ (language ∉ supported_languages → chosen = SarvamTTS.default_voice self)).
Proof.
  cbn [SarvamTTS.build_payload speaker]. unfold SarvamTTS.select_voice. split.
  - intros v -> Hv. apply String.eqb_neq in Hv. rewrite Hv. reflexivity.
  - intros Hvoice.
    assert (match voice with
            | Some v => if String.eqb v ""
                        then SarvamTTS._get_voice_for_language self language else v
            | None => SarvamTTS._get_voice_for_language self language
            end = SarvamTTS._get_voice_for_language self language) as ->
      by (destruct Hvoice as [-> | ->]; reflexivity).
    unfold SarvamTTS._get_voice_for_language, dict_get_default. split.
    + intros Hin. apply supported_cases in Hin.
      destruct Hin as [-> | [-> | [-> | ->]]]; reflexivity.
    + intros Hout. rewrite dict_get_unknown by exact Hout. reflexivity.
Qed.

(** X15 with DEFAULT_VOICE set to arjun: Telugu still gets meera *)
Lemma speaker_of_request_witness :
  ("te" ∈ supported_languages) ∧ ("fr" ∉ supported_languages)
  ∧ speaker (SarvamTTS.build_payload
               {| SarvamTTS.api_key := Some "secret";
                  SarvamTTS.api_url := "https://api.sarvam.ai/text-to-speech";
                  SarvamTTS.default_voice := "arjun" |} "Hi" "te" None) = "meera"
  ∧ speaker (SarvamTTS.build_payload
               {| SarvamTTS.api_key := Some "secret";
                  SarvamTTS.api_url := "https://api.sarvam.ai/text-to-speech";
                  SarvamTTS.default_voice := "arjun" |} "Hi" "fr" (Some "")) = "arjun".
Proof.
  assert ("fr" ∉ supported_languages) as Hfr
    by (unfold supported_languages; rewrite !not_elem_of_cons;
        repeat split; try discriminate; apply not_elem_of_nil).
  assert ("te" ∈ supported_languages) as Hte by (repeat constructor).
  split; [exact Hte |]. split; [exact Hfr |]. split.
  - destruct (speaker_of_request
                {| SarvamTTS.api_key := Some "secret";
                   SarvamTTS.api_url := "https://api.sarvam.ai/text-to-speech";
                   SarvamTTS.default_voice := "arjun" |} "Hi" "te" None) as [_ Hdefault].
    destruct (Hdefault (or_introl eq_refl)) as [Hsup _]. exact (Hsup Hte).
  - destruct (speaker_of_request
                {| SarvamTTS.api_key := Some "secret";
                   SarvamTTS.api_url := "https://api.sarvam.ai/text-to-speech";
                   SarvamTTS.default_voice := "arjun" |} "Hi" "fr" (Some "")) as [_ Hdefault].
    destruct (Hdefault (or_intror eq_refl)) as [_ Hunsup]. exact (Hunsup Hfr).
Defined.

(** X16: the recognition locale given to Twilio and the language code given
    to Sarvam are the same for hi, te, en and ur, and for no other tag: any
    other tag is recognised as en-IN and synthesised as hi-IN. *)
Theorem locales_agree_iff_supported language :
  (TwilioHandler._get_twilio_language language
   = SarvamTTS._get_sarvam_language_code language
   ↔ language ∈ supported_languages)
  ∧ (language ∉ supported_languages →
       TwilioHandler._get_twilio_language language = "en-IN"
       ∧ SarvamTTS._get_sarvam_language_code language = "hi-IN").
Proof.
  assert (language ∉ supported_languages →
          TwilioHandler._get_twilio_language language = "en-IN"
          ∧ SarvamTTS._get_sarvam_language_code language = "hi-IN") as Hout.
  { intros Hl. unfold TwilioHandler._get_twilio_language,
      SarvamTTS._get_sarvam_language_code, dict_get_default.
    rewrite !(dict_get_unknown _ language) by exact Hl. split; reflexivity. }
  split; [| exact Hout]. split.
  - intros Heq. destruct (decide (language ∈ supported_languages)) as [Hin | Hl]; [exact Hin |].
    destruct (Hout Hl) as [Ht Hs]. rewrite Ht, Hs in Heq. discriminate Heq.
  - intros Hin. apply supported_cases in Hin.
    destruct Hin as [-> | [-> | [-> | ->]]]; reflexivity.
Qed.

(** X16 on the tags ur and fr *)
Lemma locales_agree_iff_supported_witness :
  TwilioHandler._get_twilio_language "ur" = SarvamTTS._get_sarvam_language_code "ur"
  ∧ TwilioHandler._get_twilio_language "fr" = "en-IN"
  ∧ SarvamTTS._get_sarvam_language_code "fr" = "hi-IN".
Proof.
  split.
  - destruct (locales_agree_iff_supported "ur") as [Hiff _].
    apply Hiff. repeat constructor.
  - destruct (locales_agree_iff_supported "fr") as [_ Hout].
    apply Hout. unfold supported_languages. rewrite !not_elem_of_cons.
    repeat split; try discriminate. apply not_elem_of_nil.
Defined.

(** Whenever [SarvamTTS()] returns, its attributes are the ones read from
    the environment. *)
Lemma sarvam_init_attributes float_of env self :
  SarvamTTS.init float_of env = Ok self → self = SarvamTTS.attributes env.
Proof.
  unfold SarvamTTS.init. destruct (getenv env "VOICE_SPEED") as [v |].
  - destruct (float_of v); [discriminate | congruence].
  - congruence.
Qed.

(** ** Outbound calls *)

Lemma outbound_call_run env tel self to_number language :
  let seconds := match getenv env "CALL_TIMEOUT" with
                 | Some s => int_of tel s
                 | None => Done 60
                 end in
  ∃ attempt calls,
    Outbound.initiate_outbound_call env tel self to_number language = (attempt, calls)
    ∧ match seconds with
      | Failed message => attempt = Failed message ∧ calls = []
      | Done t =>
          let request :=
            {| to := to_number;
               from_ := TwilioHandler.phone_number self;
               url := py_str (TwilioHandler.server_url self)
                      ++ "/voice/incoming?language=" ++ py_format tel language;
               status_callback := py_str (TwilioHandler.server_url self) ++ "/voice/status";
               status_callback_event := [ "initiated"; "ringing"; "answered"; "completed" ];
               timeout := t |} in
          attempt = calls_create tel request ∧ calls = [request]
      end.
Proof.
  intros seconds. unfold Outbound.initiate_outbound_call. fold seconds.
  destruct seconds; eexists _, _; (split; [reflexivity |]); split; reflexivity.
Qed.

(** X18: the endpoint /call/initiate answers 400 exactly when the request
    body is a JSON object whose to_number is missing or falsy (null, false,
    0, empty).  The answer is then [{'error': 'to_number is required'}], and
    Twilio is not asked. *)
Theorem initiate_call_requires_to_number env tel app request_json :
  let answer := Outbound.initiate_call env tel app request_json in
  (reply_status (fst answer) = 400
   ↔ ∃ d, request_json = Done (JObj d)
          ∧ truthy (dict_get_default d "to_number" JNull) = false)
  ∧ (reply_status (fst answer) = 400 →
       answer = (JsonReply [ ("error", JStr "to_number is required") ] 400, [])).
Proof.
  intros answer. subst answer. unfold Outbound.initiate_call.
  destruct request_json as [data | message]; cbn [fst reply_status].
  2:{ split; [split; [discriminate | intros (d & Hd & _); discriminate] | discriminate]. }
  destruct data as [| b | n | nz | s | l | d]; cbn [get_or_fail fst reply_status];
    try (split; [split; [discriminate | intros (d' & Hd & _); discriminate] | discriminate]).
  destruct (truthy (dict_get_default d "to_number" JNull)) eqn:Hto; cbn [negb].
  - destruct (outbound_call_run env tel (App.twilio_handler app)
                (dict_get_default d "to_number" JNull)
                (dict_get_default d "language"
                   (JStr (getenv_default env "DEFAULT_LANGUAGE" "hi"))))
      as (attempt & calls & -> & _).
    destruct attempt; cbn [fst reply_status];
      (split; [split; [discriminate | intros (d' & [= <-] & Hd); congruence] | discriminate]).
  - cbn [fst reply_status]. split; [split; [eauto | reflexivity] | reflexivity].
Qed.

(** X18 on a body without to_number *)
Lemma initiate_call_requires_to_number_witness :
  Outbound.initiate_call Sample.online SampleOutbound.accepting (Sample.app Sample.online)
                         (Done (JObj [ ("language", JStr "te") ]))
  = (JsonReply [ ("error", JStr "to_number is required") ] 400, []).
Proof.
  destruct (initiate_call_requires_to_number Sample.online SampleOutbound.accepting
              (Sample.app Sample.online) (Done (JObj [ ("language", JStr "te") ])))
    as [Hiff Hanswer].
  apply Hanswer. apply Hiff. exists [ ("language", JStr "te") ]. split; reflexivity.
Defined.

(** X19: a request body that is not a JSON object is answered with status
    500, not 400, and Twilio is not asked.  When reading the body raises,
    the error text is that of the exception; when the body is null, a
    boolean, a number, a string or a list, the error text says that the
    value has no attribute 'get'. *)
Theorem initiate_call_body_not_an_object env tel app request_json :
  (∀ d, request_json ≠ Done (JObj d)) →
  ∃ message,
    Outbound.initiate_call env tel app request_json
      = (JsonReply [ ("error", JStr message) ] 500, [])
    ∧ (request_json = Failed message
       ∨ ∃ v, request_json = Done v
              ∧ message = "'" ++ type_name v ++ "' object has no attribute 'get'").
Proof.
  intros Hnot. unfold Outbound.initiate_call.
  destruct request_json as [data | message]; [| eauto].
  destruct data as [| b | n | nz | s | l | d]; cbn [get_or_fail];
    try (eexists; split; [reflexivity |]; right; eexists; split; reflexivity).
  destruct (Hnot d eq_refl).
Qed.

(** X19 on a body that is a list *)
Lemma initiate_call_body_not_an_object_witness :
  (∀ d, Done (JList [ JStr "+919876543210" ]) ≠ Done (JObj d))
  ∧ Outbound.initiate_call Sample.online SampleOutbound.accepting (Sample.app Sample.online)
                           (Done (JList [ JStr "+919876543210" ]))
    = (JsonReply [ ("error", JStr "'list' object has no attribute 'get'") ] 500, []).
Proof.
  assert (∀ d, Done (JList [ JStr "+919876543210" ]) ≠ Done (JObj d)) as Hnot
    by (intros d; discriminate).
  split; [exact Hnot |].
  destruct (initiate_call_body_not_an_object Sample.online SampleOutbound.accepting
              (Sample.app Sample.online) (Done (JList [ JStr "+919876543210" ])) Hnot)
    as (message & Hrun & [Hfail | (v & [= <-] & ->)]); [discriminate Hfail | exact Hrun].
Defined.

(** X20: an outbound call with a truthy to_number.  When CALL_TIMEOUT is
    unset or reads as a number, Twilio is asked exactly once, to call
    to_number from the configured phone number, with the webhook
    SERVER_URL/voice/incoming?language= followed by the language, the
    status callback SERVER_URL/voice/status and that timeout (60 when
    unset).  If Twilio creates the call the answer is 200 with its sid,
    to_number and the language; if Twilio refuses, the answer is 500 with
    its error text.  When CALL_TIMEOUT does not read as a number the answer
    is 500 and Twilio is not asked. *)
Theorem initiate_call_asks_twilio_once env tel app d :
  let to_number := dict_get_default d "to_number" JNull in
  let language := dict_get_default d "language"
                    (JStr (default "hi" (getenv env "DEFAULT_LANGUAGE"))) in
  let self := App.twilio_handler app in
  let answer := Outbound.initiate_call env tel app (Done (JObj d)) in
  truthy to_number = true →
  match match getenv env "CALL_TIMEOUT" with
        | Some s => int_of tel s
        | None => Done 60
        end with
  | Failed message => answer = (JsonReply [ ("error", JStr message) ] 500, [])
  | Done seconds =>
      let request :=
        {| to := to_number;
           from_ := TwilioHandler.phone_number self;
           url := py_str (TwilioHandler.server_url self)
                  ++ "/voice/incoming?language=" ++ py_format tel language;
           status_callback := py_str (TwilioHandler.server_url self) ++ "/voice/status";
           status_callback_event := [ "initiated"; "ringing"; "answered"; "completed" ];
           timeout := seconds |} in
      snd answer = [request]
      ∧ (∀ sid, calls_create tel request = Done sid →
           fst answer = JsonReply [ ("status", JStr "success");
                                    ("call_sid", JStr sid);
                                    ("to", to_number);
                                    ("language", language) ] 200)
      ∧ (∀ message, calls_create tel request = Failed message →
           fst answer = JsonReply [ ("error", JStr message) ] 500)
  end.
Proof.
  intros to_number language self answer Hto. subst answer.
  unfold Outbound.initiate_call. cbn [get_or_fail]. fold to_number. rewrite Hto. cbn [negb].
  change (dict_get_default d "language" (JStr (getenv_default env "DEFAULT_LANGUAGE" "hi")))
    with language.
  fold self.
  destruct (outbound_call_run env tel self to_number language)
    as (attempt & calls & -> & Hcall).
  destruct (match getenv env "CALL_TIMEOUT" with
            | Some s => int_of tel s
            | None => Done 60
            end) as [seconds | message].
  - destruct Hcall as [-> ->]. cbv zeta.
    destruct (calls_create tel _) as [sid | message] eqn:Hcreate; cbn [fst snd].
    + split; [reflexivity |]. split; [intros ? [= <-]; reflexivity | discriminate].
    + split; [reflexivity |]. split; [discriminate | intros ? [= <-]; reflexivity].
  - destruct Hcall as [-> ->]. reflexivity.
Qed.

(** X20 on a call that Twilio creates, CALL_TIMEOUT unset *)
Lemma initiate_call_asks_twilio_once_witness :
  Outbound.initiate_call Sample.online SampleOutbound.accepting (Sample.app Sample.online)
    (Done (JObj [ ("to_number", JStr "+919876543210"); ("language", JStr "te") ]))
  = (JsonReply [ ("status", JStr "success");
                 ("call_sid", JStr "CA900");
                 ("to", JStr "+919876543210");
                 ("language", JStr "te") ] 200,
     [ {| to := JStr "+919876543210";
          from_ := Some "+15550100";
          url := "https://bot.example/voice/incoming?language=te";
          status_callback := "https://bot.example/voice/status";
          status_callback_event := [ "initiated"; "ringing"; "answered"; "completed" ];
          timeout := 60 |} ]).
Proof.
  pose proof (initiate_call_asks_twilio_once Sample.online SampleOutbound.accepting
                (Sample.app Sample.online)
                [ ("to_number", JStr "+919876543210"); ("language", JStr "te") ] eq_refl)
    as (Hcalls & Hok & _).
  specialize (Hok "CA900" eq_refl).
  destruct (Outbound.initiate_call Sample.online SampleOutbound.accepting
              (Sample.app Sample.online)
              (Done (JObj [ ("to_number", JStr "+919876543210"); ("language", JStr "te") ])))
    as [reply calls].
  cbn [fst snd] in Hcalls, Hok. rewrite Hcalls, Hok. reflexivity.
Defined.

(** ** The command-line caller *)

Lemma existsb_eqb_elem_of (x : string) (l : list string) :
  existsb (String.eqb x) l = true ↔ x ∈ l.
Proof.
  rewrite existsb_exists. split.
  - intros (y & Hin & Heq). apply String.eqb_eq in Heq. subst y.
    apply list_elem_of_In. exact Hin.
  - intros Hin. exists x. split; [apply list_elem_of_In; exact Hin | apply String.eqb_refl].
Qed.

Lemma validate_language_spec env language :
  OutboundCaller.validate_language env language = true
  ↔ language ∈ split_commas (default "hi,te,en,ur" (getenv env "SUPPORTED_LANGUAGES")).
Proof.
  unfold OutboundCaller.validate_language, getenv_default.
  rewrite <- existsb_eqb_elem_of. destruct (existsb _ _); cbn; split; congruence.
Qed.

Lemma validate_phone_number_spec phone_number :
  OutboundCaller.validate_phone_number phone_number = true
  ↔ String.prefix "+" phone_number = true ∧ (10 ≤ char_count phone_number)%nat.
Proof.
  unfold OutboundCaller.validate_phone_number.
  destruct (String.prefix "+" phone_number); cbn [negb].
  - destruct (Nat.ltb_spec (char_count phone_number) 10); split;
      [discriminate | intros [_ ?]; lia | auto | reflexivity].
  - split; [discriminate | intros [? _]; discriminate].
Qed.

(** X21: with SUPPORTED_LANGUAGES unset, the script accepts exactly the
    tags hi, te, en and ur, and each tag it accepts has every artifact in
    the tables of the handlers: its lookups succeed and give a complete
    profile with the locale of that tag. *)
Theorem validate_language_default env tts language :
  getenv env "SUPPORTED_LANGUAGES" = None →
  (OutboundCaller.validate_language env language = true
   ↔ language ∈ supported_languages)
  ∧ (OutboundCaller.validate_language env language = true →
       ∃ p, resolve tts language = Ok p
            ∧ complete p
            ∧ dict_get TwilioHandler.language_map language = Some (recognition_locale p)
            ∧ synthesis_language_code p = recognition_locale p).
Proof.
  intros Hunset.
  assert (OutboundCaller.validate_language env language = true
          ↔ language ∈ supported_languages) as Hiff
    by (rewrite validate_language_spec, Hunset; reflexivity).
  split; [exact Hiff |]. intros Hok. apply Hiff, supported_cases in Hok.
  destruct Hok as [-> | [-> | [-> | ->]]];
    (eexists; split; [reflexivity |]; split; [| split; reflexivity]);
    unfold complete; cbn; repeat split; discriminate.
Qed.

(** X21 on the tag ur *)
Lemma validate_language_default_witness :
  getenv Sample.offline "SUPPORTED_LANGUAGES" = None
  ∧ OutboundCaller.validate_language Sample.offline "ur" = true
  ∧ ∃ p, resolve (SarvamTTS.attributes Sample.offline) "ur" = Ok p
         ∧ complete p
         ∧ recognition_locale p = "ur-PK".
Proof.
  split; [reflexivity |]. split; [reflexivity |].
  destruct (validate_language_default Sample.offline (SarvamTTS.attributes Sample.offline) "ur"
              eq_refl) as [_ Hprofile].
  destruct (Hprofile eq_refl) as (p & Hp & Hc & Hloc & _).
  exists p. split; [exact Hp |]. split; [exact Hc |].
  injection Hloc as <-. reflexivity.
Defined.

Lemma script_initiate_call_run env post to_number language :
  let endpoint := default "http://localhost:5000" (getenv env "SERVER_URL")
                  ++ "/call/initiate" in
  let payload := {| OutboundCaller.to_number := to_number;
                    OutboundCaller.language := language |} in
  OutboundCaller.initiate_call env post to_number language
  = (match post endpoint payload with
     | Responds response =>
         if status_code response =? 200 then
           match body_json response with
           | Some (JObj d) => Some (JObj d)
           | _ => None
           end
         else None
     | Raises _ => None
     end, [ (endpoint, payload) ]).
Proof.
  intros endpoint payload. unfold OutboundCaller.initiate_call.
  change (getenv_default env "SERVER_URL" "http://localhost:5000" ++ "/call/initiate")
    with endpoint.
  fold payload. f_equal.
  destruct (post endpoint payload) as [e | response]; [destruct e; reflexivity |].
  destruct (status_code response =? 200); [| reflexivity].
  destruct (body_json response) as [[] |]; reflexivity.
Qed.

Lemma script_initiate_call_some env post to_number language result :
  let endpoint := default "http://localhost:5000" (getenv env "SERVER_URL")
                  ++ "/call/initiate" in
  let payload := {| OutboundCaller.to_number := to_number;
                    OutboundCaller.language := language |} in
  fst (OutboundCaller.initiate_call env post to_number language) = Some result
  ↔ ∃ response d,
      post endpoint payload = Responds response
      ∧ status_code response = 200
      ∧ body_json response = Some (JObj d)
      ∧ result = JObj d.
Proof.
  intros endpoint payload. rewrite script_initiate_call_run. fold endpoint payload.
  cbn [fst].
  destruct (post endpoint payload) as [e | response].
  { split; [discriminate | intros (r & d & Hr & _); discriminate]. }
  destruct (Z.eqb_spec (status_code response) 200) as [Hst | Hst].
  2:{ split; [discriminate | intros (r & d & [= <-] & Hs & _); contradiction]. }
  destruct (body_json response) as [v |] eqn:Hbody.
  2:{ split; [discriminate |].
      intros (r & d & Hr & _ & Hb & _). injection Hr as <-.
      rewrite Hbody in Hb. discriminate Hb. }
  destruct v as [| b | n | nz | s | l | d];
    try (split; [discriminate |];
         intros (r & d' & Hr & _ & Hb & _); injection Hr as <-;
         rewrite Hbody in Hb; discriminate Hb).
  split.
  - intros [= <-]. exists response, d. auto.
  - intros (r & d' & Hr & _ & Hb & ->). injection Hr as <-.
    rewrite Hbody in Hb. injection Hb as <-. reflexivity.
Qed.

(** X22: the script's [initiate_call] posts exactly one request, to
    SERVER_URL/call/initiate (http://localhost:5000 when unset) with the
    number and the language, and never raises.  It returns a result only
    when the server answers 200 with a JSON object, and then returns that
    object; any other answer, a body that is not an object, or an
    exception gives [None]. *)
Theorem script_initiate_call_result env post to_number language :
  let endpoint := default "http://localhost:5000" (getenv env "SERVER_URL")
                  ++ "/call/initiate" in
  let payload := {| OutboundCaller.to_number := to_number;
                    OutboundCaller.language := language |} in
  snd (OutboundCaller.initiate_call env post to_number language) = [ (endpoint, payload) ]
  ∧ ∀ result,
      fst (OutboundCaller.initiate_call env post to_number language) = Some result
      ↔ ∃ response d,
          post endpoint payload = Responds response
          ∧ status_code response = 200
          ∧ body_json response = Some (JObj d)
          ∧ result = JObj d.
Proof.
  intros endpoint payload. split.
  - rewrite script_initiate_call_run. reflexivity.
  - intros result. apply script_initiate_call_some.
Qed.

(** X22 against the application, Twilio accepting *)
Lemma script_initiate_call_result_witness :
  OutboundCaller.initiate_call Sample.offline SampleOutbound.app_server "+919876543210" "te"
  = (Some (JObj [ ("status", JStr "success");
                  ("call_sid", JStr "CA900");
                  ("to", JStr "+919876543210");
                  ("language", JStr "te") ]),
     [ ("http://localhost:5000/call/initiate",
        {| OutboundCaller.to_number := "+919876543210";
           OutboundCaller.language := "te" |}) ]).
Proof.
  destruct (script_initiate_call_result Sample.offline SampleOutbound.app_server
              "+919876543210" "te") as [Hposted Hresult].
  destruct (OutboundCaller.initiate_call Sample.offline SampleOutbound.app_server
              "+919876543210" "te") as [result posted].
  cbn [fst snd] in Hposted, Hresult. rewrite Hposted. f_equal.
  apply Hresult. eexists _, _. repeat split; reflexivity.
Defined.

Lemma print_all_spec print lines :
  (OutboundCaller.print_all print lines = (None, lines)
   ∧ Forall (λ line, print line = None) lines)
  ∨ ∃ e line printed,
      OutboundCaller.print_all print lines = (Some e, printed)
      ∧ print line = Some e
      ∧ last printed = Some line
      ∧ ¬ Forall (λ line, print line = None) lines.
Proof.
  induction lines as [| line lines IH]; [left; split; [reflexivity | constructor] |].
  cbn [OutboundCaller.print_all]. destruct (print line) as [e |] eqn:Hline.
  { right. exists e, line, [line]. repeat split; try assumption.
    intros Hall. inversion Hall; congruence. }
  destruct IH as [[-> Hall] | (e & line' & printed & -> & Hraise & Hlast & Hnot)].
  - left. split; [reflexivity | constructor; assumption].
  - right. exists e, line', (line :: printed). repeat split; try assumption.
    + destruct printed; [discriminate Hlast | exact Hlast].
    + intros Hall. inversion Hall; contradiction.
Qed.

Lemma script_main_run env post print argv :
  let endpoint := default "http://localhost:5000" (getenv env "SERVER_URL")
                  ++ "/call/initiate" in
  OutboundCaller.main env post print argv
  = match argv with
    | script :: phone_number :: rest =>
        let language := default "hi" (head rest) in
        let request := (endpoint, {| OutboundCaller.to_number := phone_number;
                                     OutboundCaller.language := language |}) in
        if OutboundCaller.validate_phone_number phone_number
           && OutboundCaller.validate_language env language
        then
          let placed :=
            match fst (OutboundCaller.initiate_call env post phone_number language) with
            | Some result => truthy result
            | None => false
            end in
          let (ends, printed) :=
            if placed
            then OutboundCaller.print_then print OutboundCaller.success OutboundCaller.Returns
            else OutboundCaller.print_then print OutboundCaller.failure
                   (OutboundCaller.SystemExit 1) in
          {| OutboundCaller.ends := ends;
             OutboundCaller.posted := [request];
             OutboundCaller.printed := printed |}
        else {| OutboundCaller.ends := OutboundCaller.SystemExit 1;
                OutboundCaller.posted := [];
                OutboundCaller.printed := [] |}
    | _ =>
        let (ends, printed) :=
          OutboundCaller.print_then print OutboundCaller.usage (OutboundCaller.SystemExit 1) in
        {| OutboundCaller.ends := ends;
           OutboundCaller.posted := [];
           OutboundCaller.printed := printed |}
    end.
Proof.
  intros endpoint. unfold OutboundCaller.main.
  destruct argv as [| script [| phone_number rest]]; [reflexivity | reflexivity |].
  assert (match rest with
          | language :: _ => language
          | [] => "hi"
          end = default "hi" (head rest)) as -> by (destruct rest; reflexivity).
  destruct (OutboundCaller.validate_phone_number phone_number); [| reflexivity].
  destruct (OutboundCaller.validate_language env _); [| reflexivity].
  cbn [negb andb].
  pose proof (f_equal snd (script_initiate_call_run env post phone_number
                             (default "hi" (head rest)))) as Hposted.
  cbv zeta in Hposted. fold endpoint in Hposted.
  destruct (OutboundCaller.initiate_call env post phone_number _) as [result requests].
  cbn [fst snd] in Hposted |- *. subst requests.
  destruct (match result with Some r => truthy r | None => false end);
    destruct (OutboundCaller.print_then _ _ _); reflexivity.
Qed.

Lemma script_call_placed env post to_number language :
  let endpoint := default "http://localhost:5000" (getenv env "SERVER_URL")
                  ++ "/call/initiate" in
  let request := (endpoint, {| OutboundCaller.to_number := to_number;
                               OutboundCaller.language := language |}) in
  match fst (OutboundCaller.initiate_call env post to_number language) with
  | Some result => truthy result
  | None => false
  end = true
  ↔ answered post request.
Proof.
  intros endpoint request.
  pose proof (script_initiate_call_some env post to_number language) as Hresult.
  cbv zeta in Hresult. fold endpoint in Hresult.
  destruct (fst (OutboundCaller.initiate_call env post to_number language)) as [result |].
  - destruct (proj1 (Hresult result) eq_refl) as (response & d & Hpost & Hst & Hbody & ->).
    split.
    + intros Htrue. exists response, d. repeat split; try assumption.
      intros ->. discriminate Htrue.
    + intros (response' & d' & Hpost' & _ & Hbody' & Hne).
      unfold request in Hpost'. cbn [fst snd] in Hpost'.
      rewrite Hpost in Hpost'. injection Hpost' as <-.
      rewrite Hbody in Hbody'. injection Hbody' as <-.
      destruct d; [contradiction | reflexivity].
  - split; [discriminate |].
    intros (response & d & Hpost & Hst & Hbody & _).
    assert (None = Some (JObj d)) as Habs
      by (apply Hresult; exists response, d; auto).
    discriminate Habs.
Qed.

(** X23: what a run of the script's [main()] does.  It posts at most one
    request, and only when the arguments hold a number that starts with +
    and has at least ten characters and a language among the
    comma-separated pieces of SUPPORTED_LANGUAGES, the language being hi
    when none is given.  It returns, so that the script ends with success,
    exactly when, moreover, the server answered that request with 200 and a
    non-empty JSON object and both lines of the success message could be
    printed.  When it leaves through [sys.exit] the code is 1 and no
    request was answered in that way.  An exception escapes it only from a
    [print], the last one made: when the server answered with 200 and a
    non-empty object but the success message cannot be printed, as its
    check mark on an output that cannot encode it, the run ends with that
    exception although the call has been placed. *)
Theorem script_main_outcome env post print argv :
  let endpoint := default "http://localhost:5000" (getenv env "SERVER_URL")
                  ++ "/call/initiate" in
  let run := OutboundCaller.main env post print argv in
  let valid request :=
    ∃ script phone_number rest,
      argv = script :: phone_number :: rest
      ∧ request = (endpoint,
                   {| OutboundCaller.to_number := phone_number;
                      OutboundCaller.language := default "hi" (head rest) |})
      ∧ String.prefix "+" phone_number = true
      ∧ (10 ≤ char_count phone_number)%nat
      ∧ default "hi" (head rest)
        ∈ split_commas (default "hi,te,en,ur" (getenv env "SUPPORTED_LANGUAGES")) in
  let success_printed :=
    print (OutboundCaller.newline ++ "✓ Call initiated successfully!") = None
    ∧ print "Monitor the call status in your Twilio console or check logs" = None in
  (OutboundCaller.posted run = []
   ∨ ∃ request, OutboundCaller.posted run = [request] ∧ valid request)
  ∧ (OutboundCaller.ends run = OutboundCaller.Returns
     ↔ ∃ request,
         OutboundCaller.posted run = [request]
         ∧ valid request
         ∧ answered post request
         ∧ success_printed)
  ∧ (∀ code, OutboundCaller.ends run = OutboundCaller.SystemExit code →
       code = 1
       ∧ ∀ request, OutboundCaller.posted run = [request] → ¬ answered post request)
  ∧ (∀ e, OutboundCaller.ends run = OutboundCaller.Escapes e →
       ∃ line, last (OutboundCaller.printed run) = Some line ∧ print line = Some e)
  ∧ (∀ request, OutboundCaller.posted run = [request] → answered post request →
       ¬ success_printed →
       ∃ e, OutboundCaller.ends run = OutboundCaller.Escapes e).
Proof.
  intros endpoint run valid success_printed.
  assert (success_printed ↔ Forall (λ line, print line = None) OutboundCaller.success)
    as Hsuccess.
  { unfold success_printed, OutboundCaller.success. split.
    - intros [H1 H2]. repeat constructor; assumption.
    - intros Hall. inversion Hall as [| ? ? H1 Hrest]; subst.
      inversion Hrest; subst. split; assumption. }
  subst run. rewrite script_main_run. fold endpoint.
  assert (Hquiet : ∀ lines,
            let (ends, printed) :=
              OutboundCaller.print_then print lines (OutboundCaller.SystemExit 1) in
            let run := {| OutboundCaller.ends := ends;
                          OutboundCaller.posted := [];
                          OutboundCaller.printed := printed |} in
            (OutboundCaller.posted run = []
             ∨ ∃ request, OutboundCaller.posted run = [request] ∧ valid request)
            ∧ (OutboundCaller.ends run = OutboundCaller.Returns
               ↔ ∃ request,
                   OutboundCaller.posted run = [request]
                   ∧ valid request
                   ∧ answered post request
                   ∧ success_printed)
            ∧ (∀ code, OutboundCaller.ends run = OutboundCaller.SystemExit code →
                 code = 1
                 ∧ ∀ request, OutboundCaller.posted run = [request] →
                              ¬ answered post request)
            ∧ (∀ e, OutboundCaller.ends run = OutboundCaller.Escapes e →
                 ∃ line, last (OutboundCaller.printed run) = Some line
                         ∧ print line = Some e)
            ∧ (∀ request, OutboundCaller.posted run = [request] → answered post request →
                 ¬ success_printed →
                 ∃ e, OutboundCaller.ends run = OutboundCaller.Escapes e)).
  { intros lines. unfold OutboundCaller.print_then.
    destruct (print_all_spec print lines)
      as [[-> _] | (e & line & printed & -> & Hraise & Hlast & _)];
      cbn [OutboundCaller.ends OutboundCaller.posted OutboundCaller.printed].
    - split; [auto |]. split; [split; [discriminate | intros (? & ? & _); discriminate] |].
      split; [intros code [= <-]; split; [reflexivity | discriminate] |].
      split; [discriminate | discriminate].
    - split; [auto |]. split; [split; [discriminate | intros (? & ? & _); discriminate] |].
      split; [discriminate |].
      split; [intros e' [= <-]; eauto | discriminate]. }
  destruct argv as [| script [| phone_number rest]];
    [specialize (Hquiet OutboundCaller.usage);
     destruct (OutboundCaller.print_then _ _ _); exact Hquiet
    | specialize (Hquiet OutboundCaller.usage);
      destruct (OutboundCaller.print_then _ _ _); exact Hquiet |].
  cbv zeta.
  set (language := default "hi" (head rest)).
  set (request := (endpoint, {| OutboundCaller.to_number := phone_number;
                                OutboundCaller.language := language |})).
  destruct (OutboundCaller.validate_phone_number phone_number) eqn:Hphone; cbn [andb];
    [| exact (Hquiet [])].
  destruct (OutboundCaller.validate_language env language) eqn:Hlang;
    [| exact (Hquiet [])].
  apply validate_phone_number_spec in Hphone as [Hplus Hlen].
  apply validate_language_spec in Hlang.
  assert (valid request) as Hvalid by (exists script, phone_number, rest; auto).
  pose proof (script_call_placed env post phone_number language) as Hplaced.
  cbv zeta in Hplaced. fold endpoint request in Hplaced.
  destruct (match fst (OutboundCaller.initiate_call env post phone_number language) with
            | Some result => truthy result
            | None => false
            end).
  - assert (answered post request) as Hanswered by (apply Hplaced; reflexivity).
    unfold OutboundCaller.print_then.
    destruct (print_all_spec print OutboundCaller.success)
      as [[-> Hall] | (e & line & printed & -> & Hraise & Hlast & Hnot)];
      cbn [OutboundCaller.ends OutboundCaller.posted OutboundCaller.printed].
    + split; [eauto |].
      split; [split; [intros _; exists request; rewrite Hsuccess; auto | reflexivity] |].
      split; [discriminate |]. split; [discriminate |].
      intros _ _ _ Hno. exfalso. apply Hno, Hsuccess, Hall.
    + split; [eauto |].
      split; [split; [discriminate |];
              intros (_ & _ & _ & _ & Hyes); exfalso; apply Hnot, Hsuccess, Hyes |].
      split; [discriminate |].
      split; [intros e' [= <-]; eauto | eauto].
  - assert (¬ answered post request) as Hanswered
      by (intros Hyes; apply Hplaced in Hyes; discriminate Hyes).
    unfold OutboundCaller.print_then.
    destruct (print_all_spec print OutboundCaller.failure)
      as [[-> _] | (e & line & printed & -> & Hraise & Hlast & _)];
      cbn [OutboundCaller.ends OutboundCaller.posted OutboundCaller.printed].
    + split; [eauto |].
      split; [split; [discriminate |];
              intros (r & [= <-] & _ & Hyes & _); contradiction |].
      split; [intros code [= <-]; split; [reflexivity |];
              intros r [= <-]; exact Hanswered |].
      split; [discriminate |].
      intros r [= <-] Hyes. contradiction.
    + split; [eauto |].
      split; [split; [discriminate |];
              intros (r & [= <-] & _ & Hyes & _); contradiction |].
      split; [discriminate |].
      split; [intros e' [= <-]; eauto |].
      intros r [= <-] Hyes. contradiction.
Qed.

(** X23 on a Telugu call placed through the application: with an output
    that encodes every line the run returns; with an output that encodes
    ASCII only the same call is placed and the run ends with the exception
    of the first line of the success message *)
Lemma script_main_outcome_witness :
  OutboundCaller.ends
    (OutboundCaller.main Sample.offline SampleOutbound.app_server
       SampleOutbound.utf8_stdout SampleOutbound.argv_telugu)
  = OutboundCaller.Returns
  ∧ ∃ e,
      OutboundCaller.ends
        (OutboundCaller.main Sample.offline SampleOutbound.app_server
           SampleOutbound.ascii_stdout SampleOutbound.argv_telugu)
      = OutboundCaller.Escapes e.
Proof.
  assert (∃ script phone_number rest,
            SampleOutbound.argv_telugu = script :: phone_number :: rest
            ∧ ("http://localhost:5000/call/initiate",
               {| OutboundCaller.to_number := "+919876543210";
                  OutboundCaller.language := "te" |})
              = (default "http://localhost:5000" (getenv Sample.offline "SERVER_URL")
                 ++ "/call/initiate",
                 {| OutboundCaller.to_number := phone_number;
                    OutboundCaller.language := default "hi" (head rest) |})
            ∧ String.prefix "+" phone_number = true
            ∧ (10 ≤ char_count phone_number)%nat
            ∧ default "hi" (head rest)
              ∈ split_commas (default "hi,te,en,ur"
                                (getenv Sample.offline "SUPPORTED_LANGUAGES"))) as Hvalid.
  { exists "outbound_caller.py", "+919876543210", [ "te" ].
    split; [reflexivity |]. split; [reflexivity |]. split; [reflexivity |].
    split; [apply Nat.leb_le; reflexivity |].
    change ("te" ∈ [ "hi"; "te"; "en"; "ur" ]). repeat constructor. }
  assert (answered SampleOutbound.app_server
            ("http://localhost:5000/call/initiate",
             {| OutboundCaller.to_number := "+919876543210";
                OutboundCaller.language := "te" |})) as Hanswered.
  { eexists _, _. split; [reflexivity |]. split; [reflexivity |].
    split; [reflexivity | discriminate]. }
  split.
  - destruct (script_main_outcome Sample.offline SampleOutbound.app_server
                SampleOutbound.utf8_stdout SampleOutbound.argv_telugu)
      as (_ & Hreturns & _).
    apply Hreturns. eexists. split; [reflexivity |].
    split; [exact Hvalid |]. split; [exact Hanswered | split; reflexivity].
  - destruct (script_main_outcome Sample.offline SampleOutbound.app_server
                SampleOutbound.ascii_stdout SampleOutbound.argv_telugu)
      as (_ & _ & _ & _ & Hescapes).
    apply (Hescapes _ eq_refl Hanswered). intros [Habs _]. discriminate Habs.
Defined.

(** X24: the script and the endpoint agree on validation.  Whatever the
    arguments, a request that the script posts is never answered 400 by
    /call/initiate: the number it carries starts with + and so is not
    empty. *)
Theorem script_requests_pass_validation env post print argv env' tel app request :
  request ∈ OutboundCaller.posted (OutboundCaller.main env post print argv) →
  reply_status (fst (Outbound.initiate_call env' tel app
                       (Done (OutboundCaller.as_json (snd request))))) ≠ 400.
Proof.
  intros Hin.
  assert (String.prefix "+" (OutboundCaller.to_number (snd request)) = true) as Hplus.
  { rewrite script_main_run in Hin.
    destruct argv as [| script [| phone_number rest]];
      [destruct (OutboundCaller.print_then _ _ _);
       apply elem_of_nil in Hin; contradiction
      | destruct (OutboundCaller.print_then _ _ _);
        apply elem_of_nil in Hin; contradiction |].
    cbv zeta in Hin.
    destruct (OutboundCaller.validate_phone_number phone_number) eqn:Hphone; cbn [andb] in Hin;
      [| apply elem_of_nil in Hin; contradiction].
    destruct (OutboundCaller.validate_language env _) eqn:Hlang;
      [| apply elem_of_nil in Hin; contradiction].
    apply validate_phone_number_spec in Hphone as [Hplus _].
    assert (request ∈ [ (default "http://localhost:5000" (getenv env "SERVER_URL")
                         ++ "/call/initiate",
                         {| OutboundCaller.to_number := phone_number;
                            OutboundCaller.language := default "hi" (head rest) |}) ])
      as Hreq.
    { destruct (match fst (OutboundCaller.initiate_call env post phone_number _) with
                | Some result => truthy result
                | None => false
                end);
        destruct (OutboundCaller.print_then _ _ _); exact Hin. }
    apply list_elem_of_singleton in Hreq. subst request. exact Hplus. }
  unfold Outbound.initiate_call, OutboundCaller.as_json.
  cbn [get_or_fail dict_get_default dict_get String.eqb Ascii.eqb Bool.eqb default].
  destruct (OutboundCaller.to_number (snd request)) as [| c number];
    [discriminate Hplus |].
  cbn [truthy String.eqb negb].
  match goal with
  | |- context [Outbound.initiate_outbound_call ?e ?t ?s ?n ?l] =>
      destruct (outbound_call_run e t s n l) as (attempt & calls & -> & _)
  end.
  destruct attempt; discriminate.
Qed.

(** X24 on the request of the Telugu call *)
Lemma script_requests_pass_validation_witness :
  ∃ request,
    request ∈ OutboundCaller.posted
                (OutboundCaller.main Sample.offline SampleOutbound.app_server
                   SampleOutbound.utf8_stdout SampleOutbound.argv_telugu)
    ∧ reply_status (fst (Outbound.initiate_call Sample.online SampleOutbound.rejecting
                           (Sample.app Sample.online)
                           (Done (OutboundCaller.as_json (snd request))))) ≠ 400.
Proof.
  exists ("http://localhost:5000/call/initiate",
          {| OutboundCaller.to_number := "+919876543210";
             OutboundCaller.language := "te" |}).
  assert (("http://localhost:5000/call/initiate",
           {| OutboundCaller.to_number := "+919876543210";
              OutboundCaller.language := "te" |})
          ∈ OutboundCaller.posted
              (OutboundCaller.main Sample.offline SampleOutbound.app_server
                 SampleOutbound.utf8_stdout SampleOutbound.argv_telugu)) as Hin
    by (apply list_elem_of_here).
  split; [exact Hin |].
  exact (script_requests_pass_validation Sample.offline SampleOutbound.app_server
           SampleOutbound.utf8_stdout SampleOutbound.argv_telugu Sample.online
           SampleOutbound.rejecting
           (Sample.app Sample.online) _ Hin).
Defined.
